(** * Weather-record server: a shallow embedding of server.js

    The Express backend is embedded as functions in a small
    state-and-exception monad over a [World]: the two PostgreSQL tables,
    the clock, and a trace of the outbound effects (gateway calls, HTTP
    requests, SQL statements).  Third-party libraries (validator,
    bcryptjs, jsonwebtoken, the JS built-ins on strings and dates) are
    taken as an interface, [Platform]; the OpenWeather service is an
    oracle, [Env].  The middleware [authenticateToken], the registration
    route and the pagination helpers of the dashboard follow after the
    routes; the first two use a second interface, [AuthPlatform].

    Conventions.
    - The routes of the first part take a well-typed request: a field of
      [req.body] is [option string] (absent, or a JSON string), and the
      [:id] segment is the integer PostgreSQL reads it as.  The part
      "Requests as they arrive" (module [Wire]) has the routes on what
      Express hands them, any JSON value in a field and any text as
      [:id], with the application's error middleware around them; on
      well-typed requests the two agree.
    - A JS number that is an integer or NaN is [option Z], NaN being
      [None].  JS computes with doubles, which are exact on integers up
      to 2^53 in magnitude: statements about page arithmetic carry that
      bound.  Other upstream numbers are rationals.
    - Route handlers are modelled after [authenticateToken] has attached
      [req.user].  A request reaches its route: it is within the rate
      limit of [/api/] (100 requests in 15 minutes from one address), and
      [express.json()] has parsed its body.
    - The database is connected.  What PostgreSQL and node-postgres
      decide on their own (which texts are an integer or a DATE, which
      values fit a column, in which order rows with equal [created_at]
      come) is an interface, [Deployment]. *)

From Stdlib Require Import Ascii String ZArith QArith Qround.
From stdpp Require Import base option list sorting strings pretty.

#[local] Open Scope string_scope.
#[local] Open Scope Z_scope.
#[local] Open Scope list_scope.

(** ** JavaScript values used by the server *)

(** An [Error] object: its constructor name and its [message]. *)
Record Exn := mkExn { exn_name : string; message : string }.

Definition Error (msg : string) : Exn := mkExn "Error" msg.
Definition TypeError (msg : string) : Exn := mkExn "TypeError" msg.

(** Integer-or-NaN numbers. *)
Definition JsInt : Type := option Z.

(** [!s] on a string-or-undefined: undefined and the empty string are falsy. *)
Definition truthy (v : option string) : bool :=
  match v with
  | Some s => negb (String.eqb s EmptyString)
  | None => false
  end.

(** A JSON value, as [express.json()] parses it from a request body. *)
#[local] Unset Elimination Schemes.
Inductive Json :=
  | JNull
  | JBool (b : bool)
  | JNumber (x : Q)
  | JString (s : string)
  | JArray (items : list Json)
  | JObject (members : list (string * Json)).
#[local] Set Elimination Schemes.

(** [!!v] on a field of the body: undefined, null, false, 0 and the empty
    string are falsy. *)
Definition js_truthy (v : option Json) : bool :=
  match v with
  | None | Some JNull => false
  | Some (JBool b) => b
  | Some (JNumber x) => negb (Qeq_bool x 0%Q)
  | Some (JString s) => negb (String.eqb s EmptyString)
  | Some (JArray _) | Some (JObject _) => true
  end.

(** [typeof v] *)
Definition js_typeof (v : option Json) : string :=
  match v with
  | None => "undefined"
  | Some (JBool _) => "boolean"
  | Some (JNumber _) => "number"
  | Some (JString _) => "string"
  | Some JNull | Some (JArray _) | Some (JObject _) => "object"
  end.

(** The text of a field that holds a string. *)
Definition as_text (v : option Json) : option string :=
  match v with
  | Some (JString s) => Some s
  | _ => None
  end.

(** A field that is absent or a string, as a JSON field. *)
Definition of_text (v : option string) : option Json := JString <$> v.

(** A truthy value that is no string: calling a string method on it, or
    handing it to a function that demands a string, throws. *)
Definition no_string (v : option Json) : bool :=
  js_truthy v && negb (bool_decide (is_Some (as_text v))).

(** [n || d] on an integer-or-NaN: NaN and 0 are falsy. *)
Definition or_default (n : JsInt) (d : Z) : Z :=
  match n with
  | Some z => if z =? 0 then d else z
  | None => d
  end.

(** [a > b] on numbers: any comparison with NaN is false. *)
Definition js_gt (a b : JsInt) : bool :=
  match a, b with
  | Some x, Some y => y <? x
  | _, _ => false
  end.

(** [Math.ceil(a / b)] for an integer [a] and a positive integer [b]. *)
Definition ceil_div (a b : Z) : Z := - ((- a) / b).

(** [Math.round]: the nearest integer, halves rounded up. *)
Definition Math_round (q : Q) : Z := Qfloor (q + (1 # 2))%Q.

(** [Array.prototype.slice(0, end)]: a negative [end] counts from the
    back, NaN is read as 0, and the end is clamped to the length. *)
Definition slice0 {A} (l : list A) (e : JsInt) : list A :=
  match e with
  | None => []
  | Some e =>
      if e <? 0 then take (Z.to_nat (Z.max (Z.of_nat (length l) + e) 0)) l
      else take (Z.to_nat e) l
  end.

(** [String.prototype.split(' ')]: the pieces between single spaces. *)
Fixpoint split_space (s : string) : list string :=
  match s with
  | EmptyString => [EmptyString]
  | String c rest =>
      if Ascii.eqb c " "%char then EmptyString :: split_space rest
      else match split_space rest with
           | p :: ps => String c p :: ps
           | [] => [String c EmptyString]
           end
  end.

(** ** Data model *)

(** The JWT payload that [authenticateToken] attaches as [req.user]. *)
Record JwtUser := mkJwtUser { userId : Z; jwt_username : string }.

(** A row of [users]. *)
Record User := mkUser {
  user_id : Z;
  username : string;
  email : string;
  password_hash : string;
  user_created_at : Z
}.

(** One entry of the geocoding response. *)
Record GeoEntry := mkGeoEntry {
  geo_name : string;
  geo_state : option string;
  geo_country : string;
  geo_lat : Q;
  geo_lon : Q
}.

(** One element of [item.weather]. *)
Record Condition := mkCondition {
  cond_main : string;
  cond_description : string;
  cond_icon : string
}.

(** One element of the forecast response's [list]. *)
Record ForecastItem := mkForecastItem {
  dt_txt : string;
  main_temp : Q;
  main_feels_like : Q;
  main_humidity : Q;
  main_pressure : Q;
  wind_speed : Q;
  wind_deg : Q;
  weather : list Condition;
  visibility : Q;
  clouds_all : Q
}.

(** A sample of the forecast payload, as [getWeatherData] shapes it. *)
Record Sample := mkSample {
  s_date : string;
  s_time : option string;
  s_temperature : Z;
  s_feels_like : Z;
  s_humidity : Q;
  s_pressure : Q;
  s_wind_speed : Q;
  s_wind_direction : Q;
  s_weather_main : string;
  s_weather_description : string;
  s_weather_icon : string;
  s_visibility : Q;
  s_clouds : Q
}.

(** The value [getWeatherData] returns, stored in [weather_data]. *)
Record WeatherData := mkWeatherData {
  wd_location : string;
  wd_country : string;
  wd_coordinates : Q * Q;
  wd_weather_data : list Sample
}.

(** The value [getLocationDetails] returns, stored in [maps_data]. *)
Record LocationDetails := mkLocationDetails {
  city : string;
  state : string;
  country : string;
  formatted_address : string;
  coordinates : option (Q * Q)
}.

(** A row of [weather_records].  The DATE columns keep the text they were
    written with; the timestamps are clock readings. *)
Record WeatherRecord := mkWeatherRecord {
  id : Z;
  rec_user_id : Z;
  location : string;
  start_date : string;
  end_date : string;
  weather_data : WeatherData;
  maps_data : LocationDetails;
  created_at : Z;
  updated_at : Z
}.

(** The row object node-postgres builds for a [RETURNING] clause of
    INSERT / UPDATE.  The two DATE columns arrive as JS [Date]s, here their
    time values; the timestamp is [created_at] for INSERT and [updated_at]
    for UPDATE. *)
Record Returned := mkReturned {
  ret_id : Z;
  ret_location : string;
  ret_start_date : Z;
  ret_end_date : Z;
  ret_stamp : Z
}.

(** ** Effects *)

Inductive Url :=
  | GeoDirect (q : string) (appid : string)
  | Forecast (lat lon : Q) (appid : string).

Inductive Sql :=
  | SelectUserByLogin (login : string)
  | InsertRecord (user : Z)
  | SelectRecordsPage (user : Z) (limit offset : Z)
  | CountRecords (user : Z)
  | SelectRecord (rid user : Z)
  | SelectRecordId (rid user : Z)
  | UpdateRecord (rid user : Z)
  | DeleteRecord (rid user : Z)
  | SelectRecordsAll (user : Z).

(** What a run leaves in the trace.  The two [Call] events mark the entry
    into a gateway function; they are there to count gateway calls. *)
Inductive Event :=
  | CallGetWeatherData (loc : string) (days : JsInt)
  | CallGetLocationDetails (loc : string)
  | HttpGet (url : Url)
  | Query (q : Sql).

Definition is_write (q : Sql) : bool :=
  match q with
  | InsertRecord _ | UpdateRecord _ _ | DeleteRecord _ _ => true
  | _ => false
  end.

Definition is_forecast_call (e : Event) : bool :=
  match e with CallGetWeatherData _ _ => true | _ => false end.

Definition is_geocode_call (e : Event) : bool :=
  match e with CallGetLocationDetails _ => true | _ => false end.

Definition is_http (e : Event) : bool :=
  match e with HttpGet _ => true | _ => false end.

Definition is_write_event (e : Event) : bool :=
  match e with Query q => is_write q | _ => false end.

(** Call counts over a trace. *)
Definition count (p : Event -> bool) (t : list Event) : nat :=
  length (List.filter p t).

Definition forecast_calls : list Event -> nat := count is_forecast_call.
Definition geocode_calls : list Event -> nat := count is_geocode_call.
Definition http_requests : list Event -> nat := count is_http.
Definition store_writes : list Event -> nat := count is_write_event.

(** ** The world and the handler monad *)

Record World := mkWorld {
  clock : Z;
  users : list User;
  weather_records : list WeatherRecord;
  weather_records_id_seq : Z;
  trace : list Event
}.

Inductive Result (A : Type) :=
  | Ok (a : A)
  | Throw (e : Exn).
Arguments Ok {A} a.
Arguments Throw {A} e.

(** An async function: it runs on a world, leaves a world, and either
    returns or throws. *)
Definition M (A : Type) : Type := World -> Result A * World.

Definition ret {A} (a : A) : M A := fun w => (Ok a, w).

Definition throw {A} (e : Exn) : M A := fun w => (Throw e, w).

Definition bind {A B} (m : M A) (k : A -> M B) : M B :=
  fun w =>
    match m w with
    | (Ok a, w') => k a w'
    | (Throw e, w') => (Throw e, w')
    end.

(** [try { body } catch (error) { handler }]. *)
Definition try_catch {A} (body : M A) (handler : Exn -> M A) : M A :=
  fun w =>
    match body w with
    | (Ok a, w') => (Ok a, w')
    | (Throw e, w') => handler e w'
    end.

Notation "x <- m ;; k" := (bind m (fun x => k))
  (at level 100, m at next level, right associativity).
Notation "m ;; k" := (bind m (fun _ => k))
  (at level 100, right associativity).

Definition get_world : M World := fun w => (Ok w, w).

Definition emit (e : Event) : M unit :=
  fun w => (Ok tt, mkWorld (clock w) (users w) (weather_records w)
                     (weather_records_id_seq w) (trace w ++ [e])).

Definition set_records (rs : list WeatherRecord) (next : Z) : M unit :=
  fun w => (Ok tt, mkWorld (clock w) (users w) rs next (trace w)).

(** [await promise] of a settled library call. *)
Definition settle {A} (r : Exn + A) : M A :=
  match r with
  | inl e => throw e
  | inr a => ret a
  end.

(** ** The process environment and the OpenWeather service *)

(** [OPENWEATHER_API_KEY] and the two OpenWeather endpoints.  An endpoint
    answers the [n]-th outbound request of the process either by rejecting
    (an HTTP or network failure) or with a body: the geocoder's [data] is
    an array or null, the forecast's [data.list] an array or missing. *)
Record Env := mkEnv {
  OPENWEATHER_API_KEY : option string;
  geo_direct : nat -> string -> string -> Exn + option (list GeoEntry);
  forecast : nat -> Q -> Q -> string -> Exn + option (list ForecastItem)
}.

Section Gateway.

Context (env : Env).

(** [axios.get] on the geocoding endpoint: resolves to [response.data]. *)
Definition axios_get_geo (location key : string) : M (option (list GeoEntry)) :=
  w <- get_world ;;
  emit (HttpGet (GeoDirect location key)) ;;
  settle (geo_direct env (http_requests (trace w)) location key).

(** [axios.get] on the forecast endpoint: resolves to [response.data.list]. *)
Definition axios_get_forecast (lat lon : Q) (key : string)
  : M (option (list ForecastItem)) :=
  w <- get_world ;;
  emit (HttpGet (Forecast lat lon key)) ;;
  settle (forecast env (http_requests (trace w)) lat lon key).

(** The object returned when the location cannot be resolved. *)
Definition basic_location (location : string) : LocationDetails :=
  {| city := location;
     state := EmptyString;
     country := "Unknown";
     formatted_address := location;
     coordinates := None |}.

(** The object built from the first geocoding candidate. *)
Definition resolved_location (locationData : GeoEntry) : LocationDetails :=
  {| city := geo_name locationData;
     state := if truthy (geo_state locationData)
              then default EmptyString (geo_state locationData)
              else EmptyString;
     country := geo_country locationData;
     formatted_address :=
       geo_name locationData
       +:+ (if truthy (geo_state locationData)
            then ", " +:+ default EmptyString (geo_state locationData)
            else EmptyString)
       +:+ ", " +:+ geo_country locationData;
     coordinates := Some (geo_lat locationData, geo_lon locationData) |}.

Definition getLocationDetails (location : string) : M LocationDetails :=
  emit (CallGetLocationDetails location) ;;
  try_catch
    (let API_KEY := OPENWEATHER_API_KEY env in
     if negb (truthy API_KEY) then ret (basic_location location)
     else
       geoResponse <- axios_get_geo location (default EmptyString API_KEY) ;;
       match geoResponse with
       | Some (locationData :: _) => ret (resolved_location locationData)
       | _ => ret (basic_location location)
       end)
    (fun error => ret (basic_location location)).

(** The arrow function mapped over the forecast list; reading
    [item.weather[0].main] of an empty [weather] throws. *)
Definition shape_item (item : ForecastItem) : Exn + Sample :=
  match weather item with
  | [] => inl (TypeError "Cannot read properties of undefined (reading 'main')")
  | w0 :: _ =>
      inr {| s_date := default EmptyString (split_space (dt_txt item) !! 0%nat);
             s_time := split_space (dt_txt item) !! 1%nat;
             s_temperature := Math_round (main_temp item);
             s_feels_like := Math_round (main_feels_like item);
             s_humidity := main_humidity item;
             s_pressure := main_pressure item;
             s_wind_speed := wind_speed item;
             s_wind_direction := wind_deg item;
             s_weather_main := cond_main w0;
             s_weather_description := cond_description w0;
             s_weather_icon := cond_icon w0;
             s_visibility := (visibility item / 1000)%Q;
             s_clouds := clouds_all item |}
  end.

(** [Array.prototype.map] with a callback that may throw: left to right,
    stopping at the first throw. *)
Fixpoint map_throwing {A B} (f : A -> Exn + B) (l : list A) : Exn + list B :=
  match l with
  | [] => inr []
  | x :: l' =>
      match f x with
      | inl e => inl e
      | inr y =>
          match map_throwing f l' with
          | inl e => inl e
          | inr ys => inr (y :: ys)
          end
      end
  end.

Definition getWeatherData (location : string) (days : JsInt) : M WeatherData :=
  emit (CallGetWeatherData location days) ;;
  try_catch
    (let API_KEY := OPENWEATHER_API_KEY env in
     (if negb (truthy API_KEY)
      then throw (Error "OpenWeather API key not configured")
      else ret tt) ;;
     geoResponse <- axios_get_geo location (default EmptyString API_KEY) ;;
     data <- match geoResponse with
             | None => throw (TypeError
                 "Cannot read properties of null (reading 'length')")
             | Some data => ret data
             end ;;
     first <- match data with
              | [] => throw (Error "Location not found")
              | first :: _ => ret first
              end ;;
     let lat := geo_lat first in
     let lon := geo_lon first in
     weatherResponse <- axios_get_forecast lat lon (default EmptyString API_KEY) ;;
     list <- match weatherResponse with
             | None => throw (TypeError
                 "Cannot read properties of undefined (reading 'slice')")
             | Some list => ret list
             end ;;
     weatherData <-
       settle (map_throwing shape_item
                 (slice0 list (z ← days; Some (z * 8)))) ;;
     ret {| wd_location := geo_name first;
            wd_country := geo_country first;
            wd_coordinates := (lat, lon);
            wd_weather_data := weatherData |})
    (fun error => throw (Error "Failed to fetch weather data")).

End Gateway.

(** ** Requests and responses *)

(** [req.body] of the record routes. *)
Record RecordBody := mkRecordBody {
  b_location : option string;
  b_startDate : option string;
  b_endDate : option string
}.

(** [req.body] of the login route. *)
Record LoginBody := mkLoginBody {
  b_username : option string;
  b_password : option string
}.

(** The value handed to [res.json] / [res.send]. *)
Inductive Body :=
  | BError (error : string)
  | BMessage (msg : string)
  | BLogin (msg : string) (uid : Z) (uname mail : string) (token : string)
  | BWeather (data : WeatherData)
  | BSaved (msg : string) (row : option Returned)
           (data : WeatherData) (maps : LocationDetails)
  | BPage (records : list WeatherRecord) (page limit total pages : Z)
  | BRecord (r : WeatherRecord)
  | BRecords (rs : list WeatherRecord)
  | BText (text : string).

Record Response := mkResponse {
  status : Z;
  headers : list (string * string);
  body : Body
}.

(** [res.status(code).json(b)]; [res.json(b)] is [json 200 b]. *)
Definition json (code : Z) (b : Body) : Response := mkResponse code [] b.

(** What a middleware does: call [next()] or answer the request. *)
Inductive Outcome :=
  | Next
  | Respond (r : Response).

(** ** Libraries and built-ins *)

Class Platform := {
  String_trim : string -> string;
  String_toLowerCase : string -> string;
  validator_isLength : string -> Z -> Z -> bool;
  validator_isDate : string -> bool;
  (** [new Date(s).getTime()], NaN for an invalid date *)
  Date_parse : string -> JsInt;
  bcrypt_compare : string -> string -> bool;
  (** [jwt.sign(payload, secret, { expiresIn: '7d' })] at a clock reading *)
  jwt_sign : Z -> JwtUser -> string;
  JSON_stringify : Body -> string;
  (** template-literal conversions of a number, a DATE and a TIMESTAMP *)
  Number_toString : Z -> string;
  pg_date_toString : string -> string;
  pg_timestamp_toString : Z -> string
}.

(** ** The database server, its driver and the process environment *)

(** What the deployment decides and the source does not show. *)
Class Deployment := {
  (** PostgreSQL reading the text of a parameter as an [integer]: the
      number, or the message of the error it raises (no integer syntax,
      or out of the range of the type). *)
  pg_int4_in : string -> string + Z;
  pg_int4_in_range :
    forall s z, pg_int4_in s = inr z -> - 2 ^ 31 <= z <= 2 ^ 31 - 1;
  (** Whether PostgreSQL refuses, in a state, the values of an INSERT into
      [weather_records]: a text that is no DATE, a location over 255
      characters, a payload it cannot store as JSONB, a user id without a
      row in [users], and so on.  With the message of the error comes
      whether the id sequence had handed out a value by then. *)
  pg_rejects_insert :
    World -> Z -> string -> string -> string -> WeatherData ->
    LocationDetails -> option (string * bool);
  (** The same for the values of an UPDATE of [weather_records]. *)
  pg_rejects_update :
    World -> string -> string -> string -> WeatherData -> LocationDetails ->
    option string;
  (** The same for username, email and password hash of an INSERT into
      [users], violations of the UNIQUE columns apart. *)
  pg_rejects_user : World -> string -> string -> string -> option string;
  (** The order in which PostgreSQL produces rows before [ORDER BY] sorts
      them; it may differ from one statement to the next. *)
  pg_tie_order : World -> list WeatherRecord -> list WeatherRecord;
  pg_tie_order_perm : forall w rs, pg_tie_order w rs ≡ₚ rs;
  (** The time value of the JS [Date] node-postgres builds for a DATE
      column: midnight of that day in the time zone of the process. *)
  pg_date_instant : string -> Z;
  (** node-postgres [prepareValue]: the text sent for a parameter that is
      not a string. *)
  pg_param_text : Json -> string;
  (** [process.env.NODE_ENV === 'development'] *)
  NODE_ENV_development : bool
}.

(** ** PostgreSQL statements *)

Definition pg_error (msg : string) : Exn := mkExn "error" msg.

(** The range of [bigint], the type of LIMIT and OFFSET. *)
Definition in_bigint (z : Z) : bool := (- 2 ^ 63 <=? z) && (z <=? 2 ^ 63 - 1).

(** [ORDER BY created_at DESC].  PostgreSQL leaves the order of rows with
    equal [created_at] open: they come as [pg_tie_order] has them. *)
Definition newer_first (a b : WeatherRecord) : Prop :=
  created_at b <= created_at a.

#[global] Instance newer_first_dec : RelDecision newer_first.
Proof. intros a b. unfold newer_first. apply _. Defined.

#[global] Instance newer_first_total : Total newer_first.
Proof. intros a b. unfold newer_first. lia. Qed.

#[global] Instance newer_first_transitive : Transitive newer_first.
Proof. intros a b c. unfold newer_first. lia. Qed.

Definition order_by_created_at_desc `{Deployment} (w : World)
    (rs : list WeatherRecord) : list WeatherRecord :=
  merge_sort newer_first (pg_tie_order w rs).

Definition owned_by (uid : Z) (r : WeatherRecord) : Prop := rec_user_id r = uid.

#[global] Instance owned_by_dec uid r : Decision (owned_by uid r).
Proof. unfold owned_by. apply _. Defined.

Definition is_record (rid uid : Z) (r : WeatherRecord) : Prop :=
  id r = rid /\ rec_user_id r = uid.

#[global] Instance is_record_dec rid uid r : Decision (is_record rid uid r).
Proof. unfold is_record. apply _. Defined.

(** [SELECT ... FROM users WHERE username = $1 OR email = $1] *)
Definition select_user_by_login (login : string) : M (list User) :=
  emit (Query (SelectUserByLogin login)) ;;
  w <- get_world ;;
  ret (filter (λ u, username u = login \/ email u = login) (users w)).

(** [INSERT INTO weather_records ... RETURNING id, location, start_date,
    end_date, created_at]; the DATE columns are NOT NULL.  A refused INSERT
    stores nothing; the id it may have drawn from the sequence is lost. *)
Definition insert_record `{Deployment} (uid : Z) (loc : string)
    (sd ed : option string) (data : WeatherData) (maps : LocationDetails)
  : M (list Returned) :=
  emit (Query (InsertRecord uid)) ;;
  match sd, ed with
  | Some sd, Some ed =>
      w <- get_world ;;
      let rid := weather_records_id_seq w in
      match pg_rejects_insert w uid loc sd ed data maps with
      | Some (msg, drawn) =>
          set_records (weather_records w) (if drawn then rid + 1 else rid) ;;
          throw (pg_error msg)
      | None =>
          set_records
            (weather_records w ++
               [mkWeatherRecord rid uid loc sd ed data maps (clock w) (clock w)])
            (rid + 1) ;;
          ret [mkReturned rid loc (pg_date_instant sd) (pg_date_instant ed)
                 (clock w)]
      end
  | _, _ => throw (pg_error "null value violates not-null constraint")
  end.

(** [SELECT ... WHERE user_id = $1 ORDER BY created_at DESC LIMIT $2
    OFFSET $3]; LIMIT and OFFSET are [bigint]s. *)
Definition select_records_page `{Deployment} (uid limit offset : Z)
  : M (list WeatherRecord) :=
  emit (Query (SelectRecordsPage uid limit offset)) ;;
  if negb (in_bigint limit && in_bigint offset)
  then throw (pg_error "value out of range for type bigint")
  else if offset <? 0 then throw (pg_error "OFFSET must not be negative")
  else if limit <? 0 then throw (pg_error "LIMIT must not be negative")
  else
    w <- get_world ;;
    ret (take (Z.to_nat limit)
           (drop (Z.to_nat offset)
              (order_by_created_at_desc w
                 (filter (owned_by uid) (weather_records w))))).

(** [SELECT COUNT( * ) FROM weather_records WHERE user_id = $1] *)
Definition count_records (uid : Z) : M Z :=
  emit (Query (CountRecords uid)) ;;
  w <- get_world ;;
  ret (Z.of_nat (length (filter (owned_by uid) (weather_records w)))).

(** [SELECT * FROM weather_records WHERE id = $1 AND user_id = $2], and
    the three statements after it: [rid] is the [integer] PostgreSQL has
    read [$1] as.  A text it cannot read as one makes the statement fail:
    this is in [Wire], with [pg_int4_in]. *)
Definition select_record (rid uid : Z) : M (list WeatherRecord) :=
  emit (Query (SelectRecord rid uid)) ;;
  w <- get_world ;;
  ret (filter (is_record rid uid) (weather_records w)).

(** [SELECT id FROM weather_records WHERE id = $1 AND user_id = $2] *)
Definition select_record_id (rid uid : Z) : M (list Z) :=
  emit (Query (SelectRecordId rid uid)) ;;
  w <- get_world ;;
  ret (id <$> filter (is_record rid uid) (weather_records w)).

(** [UPDATE weather_records SET ... WHERE id = $6 AND user_id = $7
    RETURNING id, location, start_date, end_date, updated_at].  A refused
    UPDATE changes nothing. *)
Definition update_record `{Deployment} (loc : string) (sd ed : option string)
    (data : WeatherData) (maps : LocationDetails) (rid uid : Z)
  : M (list Returned) :=
  emit (Query (UpdateRecord rid uid)) ;;
  match sd, ed with
  | Some sd, Some ed =>
      w <- get_world ;;
      match pg_rejects_update w loc sd ed data maps with
      | Some msg => throw (pg_error msg)
      | None =>
          let set (r : WeatherRecord) :=
            if decide (is_record rid uid r)
            then mkWeatherRecord (id r) (rec_user_id r) loc sd ed data maps
                   (created_at r) (clock w)
            else r in
          set_records (set <$> weather_records w) (weather_records_id_seq w) ;;
          ret ((λ r, mkReturned (id r) loc (pg_date_instant sd)
                       (pg_date_instant ed) (clock w))
                 <$> filter (is_record rid uid) (weather_records w))
      end
  | _, _ =>
      w <- get_world ;;
      if decide (filter (is_record rid uid) (weather_records w) = [])
      then ret []
      else throw (pg_error "null value violates not-null constraint")
  end.

(** [DELETE FROM weather_records WHERE id = $1 AND user_id = $2
    RETURNING id] *)
Definition delete_record (rid uid : Z) : M (list Z) :=
  emit (Query (DeleteRecord rid uid)) ;;
  w <- get_world ;;
  set_records (filter (λ r, ¬ is_record rid uid r) (weather_records w))
    (weather_records_id_seq w) ;;
  ret (id <$> filter (is_record rid uid) (weather_records w)).

(** [SELECT * FROM weather_records WHERE user_id = $1 ORDER BY created_at
    DESC] *)
Definition select_records_all `{Deployment} (uid : Z)
  : M (list WeatherRecord) :=
  emit (Query (SelectRecordsAll uid)) ;;
  w <- get_world ;;
  ret (order_by_created_at_desc w (filter (owned_by uid) (weather_records w))).

(** ** The server *)

Section Server.

Context `{Platform} `{Deployment} (env : Env).

(** [new Date(v)] as its time value; [new Date(undefined)] is invalid. *)
Definition new_Date (v : option string) : JsInt := v ≫= Date_parse.

(** A string interpolated into a URL: [undefined] reads "undefined". *)
Definition js_string (v : option string) : string := default "undefined" v.

(** [Math.ceil((end - start) / (1000 * 60 * 60 * 24)) + 1] *)
Definition daysDiff (start end_ : JsInt) : JsInt :=
  s ← start; e ← end_; Some (ceil_div (e - s) (1000 * 60 * 60 * 24) + 1).

(** Run a handler behind a middleware. *)
Definition route (middleware : M Outcome) (handler : M Response) : M Response :=
  o <- middleware ;;
  match o with
  | Next => handler
  | Respond r => ret r
  end.

(** [validateWeatherData] on a body whose three fields are strings or
    missing; on any body, [Wire.validateWeatherData]. *)
Definition validateWeatherData (body : RecordBody) : M Outcome :=
  let location := b_location body in
  let startDate := b_startDate body in
  let endDate := b_endDate body in
  if negb (truthy location)
     || negb (validator_isLength (String_trim (default EmptyString location)) 2 100)
  then ret (Respond (json 400
         (BError "Valid location is required (2-100 characters)")))
  else if negb (truthy startDate)
          || negb (validator_isDate (default EmptyString startDate))
  then ret (Respond (json 400 (BError "Valid start date is required")))
  else if negb (truthy endDate)
          || negb (validator_isDate (default EmptyString endDate))
  then ret (Respond (json 400 (BError "Valid end date is required")))
  else
    let start := new_Date startDate in
    let end_ := new_Date endDate in
    w <- get_world ;;
    let now := clock w in
    if js_gt start end_
    then ret (Respond (json 400 (BError "Start date must be before end date")))
    else if js_gt end_ (Some (now + 14 * 24 * 60 * 60 * 1000))
    then ret (Respond (json 400
           (BError "End date cannot be more than 14 days in the future")))
    else ret Next.

(** [POST /api/auth/login] on a body whose two fields are strings or
    missing; on any body, [Wire.post_auth_login]. *)
Definition post_auth_login (body : LoginBody) : M Response :=
  try_catch
    (let login := b_username body in
     let password := b_password body in
     if negb (truthy login) || negb (truthy password)
     then ret (json 400 (BError "Username and password are required"))
     else
       result <- select_user_by_login (default EmptyString login) ;;
       match result with
       | [] => ret (json 401 (BError "Invalid credentials"))
       | user :: _ =>
           let isValidPassword :=
             bcrypt_compare (default EmptyString password) (password_hash user) in
           if negb isValidPassword
           then ret (json 401 (BError "Invalid credentials"))
           else
             w <- get_world ;;
             let token :=
               jwt_sign (clock w) (mkJwtUser (user_id user) (username user)) in
             ret (json 200 (BLogin "Login successful" (user_id user)
                              (username user) (email user) token))
       end)
    (fun error => ret (json 500 (BError "Internal server error"))).

(** [GET /api/weather/current/:location] *)
Definition get_weather_current (location : string) : M Response :=
  try_catch
    (weatherData <- getWeatherData env location (Some 1) ;;
     ret (json 200 (BWeather weatherData)))
    (fun error => ret (json 500 (BError (message error)))).

(** [GET /api/weather/forecast/:location]; [q_days] is
    [parseInt(req.query.days)]. *)
Definition get_weather_forecast (location : string) (q_days : JsInt)
  : M Response :=
  try_catch
    (let days := or_default q_days 5 in
     weatherData <- getWeatherData env location (Some days) ;;
     ret (json 200 (BWeather weatherData)))
    (fun error => ret (json 500 (BError (message error)))).

(** The handler of [POST /api/weather-records]. *)
Definition post_weather_records (user : JwtUser) (body : RecordBody)
  : M Response :=
  try_catch
    (let location := b_location body in
     let startDate := b_startDate body in
     let endDate := b_endDate body in
     let start := new_Date startDate in
     let end_ := new_Date endDate in
     let daysDiff := daysDiff start end_ in
     weatherData <- getWeatherData env (js_string location) daysDiff ;;
     mapsData <- getLocationDetails env (js_string location) ;;
     result <- insert_record (userId user) (wd_location weatherData)
                 startDate endDate weatherData mapsData ;;
     ret (json 201 (BSaved "Weather record created successfully"
                      (head result) weatherData mapsData)))
    (fun error => ret (json 500 (BError (message error)))).

Definition POST_weather_records (user : JwtUser) (body : RecordBody)
  : M Response :=
  route (validateWeatherData body) (post_weather_records user body).

(** [GET /api/weather-records]; [q_page] and [q_limit] are
    [parseInt(req.query.page)] and [parseInt(req.query.limit)]. *)
Definition GET_weather_records (user : JwtUser) (q_page q_limit : JsInt)
  : M Response :=
  try_catch
    (let page := or_default q_page 1 in
     let limit := or_default q_limit 10 in
     let offset := (page - 1) * limit in
     result <- select_records_page (userId user) limit offset ;;
     countResult <- count_records (userId user) ;;
     ret (json 200 (BPage result page limit countResult
                      (ceil_div countResult limit))))
    (fun error => ret (json 500 (BError "Failed to fetch weather records"))).

(** [GET /api/weather-records/:id] *)
Definition GET_weather_record (user : JwtUser) (rid : Z) : M Response :=
  try_catch
    (result <- select_record rid (userId user) ;;
     match result with
     | [] => ret (json 404 (BError "Weather record not found"))
     | row :: _ => ret (json 200 (BRecord row))
     end)
    (fun error => ret (json 500 (BError "Failed to fetch weather record"))).

(** The handler of [PUT /api/weather-records/:id]. *)
Definition put_weather_record (user : JwtUser) (rid : Z) (body : RecordBody)
  : M Response :=
  try_catch
    (let location := b_location body in
     let startDate := b_startDate body in
     let endDate := b_endDate body in
     existingRecord <- select_record_id rid (userId user) ;;
     match existingRecord with
     | [] => ret (json 404 (BError "Weather record not found"))
     | _ :: _ =>
         let start := new_Date startDate in
         let end_ := new_Date endDate in
         let daysDiff := daysDiff start end_ in
         weatherData <- getWeatherData env (js_string location) daysDiff ;;
         mapsData <- getLocationDetails env (js_string location) ;;
         result <- update_record (wd_location weatherData) startDate endDate
                     weatherData mapsData rid (userId user) ;;
         ret (json 200 (BSaved "Weather record updated successfully"
                          (head result) weatherData mapsData))
     end)
    (fun error => ret (json 500 (BError (message error)))).

Definition PUT_weather_record (user : JwtUser) (rid : Z) (body : RecordBody)
  : M Response :=
  route (validateWeatherData body) (put_weather_record user rid body).

(** [DELETE /api/weather-records/:id] *)
Definition DELETE_weather_record (user : JwtUser) (rid : Z) : M Response :=
  try_catch
    (result <- delete_record rid (userId user) ;;
     match result with
     | [] => ret (json 404 (BError "Weather record not found"))
     | _ :: _ => ret (json 200 (BMessage "Weather record deleted successfully"))
     end)
    (fun error => ret (json 500 (BError "Failed to delete weather record"))).

(** The Content-Type that leaves the server for one set with [setHeader]:
    [res.json] and [res.send] add the charset of the text they write. *)
Definition with_charset (mime : string) : string := mime +:+ "; charset=utf-8".

Definition nl : string := String (ascii_of_nat 10) EmptyString.
Definition dquote : string := String (ascii_of_nat 34) EmptyString.

(** One line of the CSV export. *)
Definition csv_row (record : WeatherRecord) : string :=
  Number_toString (id record) +:+ "," +:+
  dquote +:+ location record +:+ dquote +:+ "," +:+
  dquote +:+ pg_date_toString (start_date record) +:+ dquote +:+ "," +:+
  dquote +:+ pg_date_toString (end_date record) +:+ dquote +:+ "," +:+
  dquote +:+ pg_timestamp_toString (created_at record) +:+ dquote +:+ "," +:+
  Number_toString
    (Z.of_nat (length (wd_weather_data (weather_data record)))).

(** One element of the XML export. *)
Definition xml_record (record : WeatherRecord) : string :=
  "  <record id=" +:+ dquote +:+ Number_toString (id record) +:+ dquote +:+ ">"
  +:+ nl +:+
  "    <location>" +:+ location record +:+ "</location>" +:+ nl +:+
  "    <startDate>" +:+ pg_date_toString (start_date record) +:+ "</startDate>"
  +:+ nl +:+
  "    <endDate>" +:+ pg_date_toString (end_date record) +:+ "</endDate>"
  +:+ nl +:+
  "    <createdAt>" +:+ pg_timestamp_toString (created_at record)
  +:+ "</createdAt>" +:+ nl +:+
  "  </record>".

(** The text of the CSV export. *)
Definition csv_content (records : list WeatherRecord) : string :=
  let csvHeaders :=
    "ID,Location,Start Date,End Date,Created At,Weather Data Count" +:+ nl in
  let csvRows := String.concat nl (csv_row <$> records) in
  csvHeaders +:+ csvRows.

(** The text of the XML export. *)
Definition xml_content (records : list WeatherRecord) : string :=
  "<?xml version=" +:+ dquote +:+ "1.0" +:+ dquote +:+ " encoding="
  +:+ dquote +:+ "UTF-8" +:+ dquote +:+ "?>" +:+ nl +:+
  "<weatherData>" +:+ nl +:+
  String.concat nl (xml_record <$> records) +:+ nl +:+
  "</weatherData>".

(** [GET /api/export/:format]; [headers] holds the two headers as they
    are sent. *)
Definition GET_export (user : JwtUser) (format : string) : M Response :=
  try_catch
    (result <- select_records_all (userId user) ;;
     let records := result in
     let fmt := String_toLowerCase format in
     if String.eqb fmt "json" then
       ret (mkResponse 200
              [("Content-Type", with_charset "application/json");
               ("Content-Disposition", "attachment; filename=weather_data.json")]
              (BRecords records))
     else if String.eqb fmt "csv" then
       ret (mkResponse 200
              [("Content-Type", with_charset "text/csv");
               ("Content-Disposition", "attachment; filename=weather_data.csv")]
              (BText (csv_content records)))
     else if String.eqb fmt "xml" then
       ret (mkResponse 200
              [("Content-Type", with_charset "application/xml");
               ("Content-Disposition", "attachment; filename=weather_data.xml")]
              (BText (xml_content records)))
     else ret (json 400 (BError "Unsupported export format")))
    (fun error => ret (json 500 (BError "Failed to export data"))).

(** The bytes of the response body: [res.send] writes the text as it is,
    [res.json] the serialisation of the value. *)
Definition sent_body (r : Response) : string :=
  match body r with
  | BText text => text
  | b => JSON_stringify b
  end.

End Server.


(** ** Authentication and registration *)

(** The further library functions these two use.  [bcrypt.hash] draws a
    salt; it is an argument here.  [jwt.verify] checks signature and
    expiry at a clock reading. *)
Class AuthPlatform := {
  validator_isEmail : string -> bool;
  (** [validator.isLength(s, { min })] *)
  validator_isLength_min : string -> Z -> bool;
  bcrypt_hash : string -> string -> string;
  jwt_verify : Z -> string -> option JwtUser;
  (** the [TypeError] of validator's [assertString] for a value that is
      no string *)
  validator_assertString : option Json -> Exn
}.

(** [req.body] of the registration route. *)
Record RegisterBody := mkRegisterBody {
  r_username : option string;
  r_email : option string;
  r_password : option string
}.

(** What the registration route hands to [res.json]. *)
Inductive RegisterBodyOut :=
  | RError (error : string)
  | RCreated (msg : string) (uid : Z) (uname mail : string) (created : Z)
             (token : string)
  | RFailed (error : string) (details : option string).

Record RegisterResponse := mkRegisterResponse {
  reg_status : Z;
  reg_body : RegisterBodyOut
}.

(** What [authenticateToken] does: call [next()] with [req.user] set, or
    answer the request. *)
Inductive AuthOutcome :=
  | Authenticated (user : JwtUser)
  | Rejected (r : Response).

(** [SELECT id, username, email FROM users WHERE username = $1 OR
    email = $2].  Statements on [users] by the registration route leave no
    event in the trace. *)
Definition select_user_by_name_or_email (uname mail : string)
  : M (list User) :=
  w <- get_world ;;
  ret (filter (λ u, username u = uname \/ email u = mail) (users w)).

(** Append a row to [users]. *)
Definition add_user (user : User) : M unit :=
  fun w => (Ok tt, mkWorld (clock w) (users w ++ [user]) (weather_records w)
                     (weather_records_id_seq w) (trace w)).

(** [INSERT INTO users (username, email, password_hash) VALUES ($1, $2, $3)
    RETURNING id, username, email, created_at].  [nextval] is the value
    the id sequence hands out; [None] stands for the unique-violation
    error (code 23505) of the UNIQUE columns; any other refusal (a text
    too long for its column, ...) is thrown. *)
Definition insert_user `{Deployment} (nextval : Z) (uname mail hash : string)
  : M (option User) :=
  w <- get_world ;;
  match pg_rejects_user w uname mail hash with
  | Some msg => throw (pg_error msg)
  | None =>
      if decide (Exists (λ u, username u = uname \/ email u = mail) (users w))
      then ret None
      else
        let user := mkUser nextval uname mail hash (clock w) in
        add_user user ;;
        ret (Some user)
  end.

Section Auth.

Context `{Platform} `{AuthPlatform} `{Deployment}.

(** [authHeader && authHeader.split(' ')[1]] *)
Definition header_token (authHeader : option string) : option string :=
  if truthy authHeader
  then split_space (default EmptyString authHeader) !! 1%nat
  else authHeader.

Definition authenticateToken (authHeader : option string) : M AuthOutcome :=
  let token := header_token authHeader in
  if negb (truthy token)
  then ret (Rejected (json 401 (BError "Access token required")))
  else
    w <- get_world ;;
    match jwt_verify (clock w) (default EmptyString token) with
    | None => ret (Rejected (json 403 (BError "Invalid or expired token")))
    | Some user => ret (Authenticated user)
    end.

(** A route registered as [app.METHOD(path, authenticateToken, ...rest)]. *)
Definition protected (authHeader : option string)
    (rest : JwtUser -> M Response) : M Response :=
  o <- authenticateToken authHeader ;;
  match o with
  | Authenticated user => rest user
  | Rejected r => ret r
  end.

Definition register_error (code : Z) (error : string) : RegisterResponse :=
  mkRegisterResponse code (RError error).

(** The last branch of the [catch] of the registration route.  Of the
    branches before it, the unique violation (code 23505) is the [None] of
    [insert_user], answered where the INSERT is awaited, and the codes of
    a refused connection do not arise on a connected database. *)
Definition register_failed (error : Exn) : RegisterResponse :=
  mkRegisterResponse 500
    (RFailed "Internal server error. Please try again later."
       (if NODE_ENV_development then Some (message error) else None)).

(** The registration route behind its three checks, from "Check if user
    exists" to the 201: [name] is [username.trim()], [mail] is
    [email.toLowerCase()]. *)
Definition register_checked (nextval : Z) (salt name mail password : string)
  : M RegisterResponse :=
  existingUser <- select_user_by_name_or_email name mail ;;
  match existingUser with
  | existing :: _ =>
      if String.eqb (username existing) name
      then ret (register_error 400 "Username already exists")
      else ret (register_error 400 "Email already exists")
  | [] =>
      let passwordHash := bcrypt_hash salt password in
      result <- insert_user nextval name mail passwordHash ;;
      match result with
      | None => ret (register_error 400 "Username or email already exists")
      | Some user =>
          w <- get_world ;;
          let token :=
            jwt_sign (clock w) (mkJwtUser (user_id user) (username user)) in
          ret (mkRegisterResponse 201
                 (RCreated "User created successfully" (user_id user)
                    (username user) (email user) (user_created_at user)
                    token))
      end
  end.

(** [POST /api/auth/register] on a body whose three fields are strings or
    missing; on any body, [Wire.post_auth_register].  The database is
    connected: the test [SELECT 1] before the lookup succeeds. *)
Definition post_auth_register (nextval : Z) (salt : string)
    (body : RegisterBody) : M RegisterResponse :=
  try_catch
    (let name := r_username body in
     let mail := r_email body in
     let password := r_password body in
     if negb (truthy name)
        || negb (validator_isLength
                   (String_trim (default EmptyString name)) 3 50)
     then ret (register_error 400 "Username must be 3-50 characters long")
     else if negb (truthy mail)
             || negb (validator_isEmail (default EmptyString mail))
     then ret (register_error 400 "Valid email is required")
     else if negb (truthy password)
             || negb (validator_isLength_min (default EmptyString password) 6)
     then ret (register_error 400
                 "Password must be at least 6 characters long")
     else
       register_checked nextval salt (String_trim (default EmptyString name))
         (String_toLowerCase (default EmptyString mail))
         (default EmptyString password))
    (fun error => ret (register_failed error)).

End Auth.

(** ** The dashboard's pagination (Dashboard.jsx) *)

(** An entry of the page bar: a page number or the string '...'. *)
Inductive PageItem :=
  | PageNum (n : Z)
  | Dots.

(** The [for] loop pushing [lo .. hi] onto [range]. *)
Definition for_range (lo hi : Z) : list Z := seqZ lo (hi - lo + 1).

Definition getVisiblePageNumbers (currentPage totalPages : Z)
  : list PageItem :=
  let delta := 2 in
  let range :=
    for_range (Z.max 2 (currentPage - delta))
      (Z.min (totalPages - 1) (currentPage + delta)) in
  let rangeWithDots :=
    if 2 <? currentPage - delta then [PageNum 1; Dots] else [PageNum 1] in
  let rangeWithDots := rangeWithDots ++ (PageNum <$> range) in
  let rangeWithDots :=
    if currentPage + delta <? totalPages - 1
    then rangeWithDots ++ [Dots; PageNum totalPages]
    else if 1 <? totalPages
         then rangeWithDots ++ [PageNum totalPages]
         else rangeWithDots in
  rangeWithDots.

(** [handlePageChange]: the new value of [currentPage]. *)
Definition handlePageChange (currentPage totalPages newPage : Z) : Z :=
  if (1 <=? newPage) && (newPage <=? totalPages) then newPage
  else currentPage.

(** "Showing [from] to [to] of [totalRecords] results". *)
Definition showing_from (currentPage recordsPerPage totalRecords : Z) : Z :=
  Z.min ((currentPage - 1) * recordsPerPage + 1) totalRecords.

Definition showing_to (currentPage recordsPerPage totalRecords : Z) : Z :=
  Z.min (currentPage * recordsPerPage) totalRecords.

(** * Requests as they arrive

    The routes once more, on what Express hands them: a body whose fields
    hold any JSON value, and the text of the [:id] segment.  What the
    source does with a value that is no string is written out; behind the
    checks that only a string passes, the route goes on as above. *)

Module Wire.

(** [req.body] of the record routes. *)
Record Submission := mkSubmission {
  j_location : option Json;
  j_startDate : option Json;
  j_endDate : option Json
}.

(** [req.body] of the login route. *)
Record Credentials := mkCredentials {
  j_username : option Json;
  j_password : option Json
}.

(** [req.body] of the registration route. *)
Record Registration := mkRegistration {
  j_reg_username : option Json;
  j_reg_email : option Json;
  j_reg_password : option Json
}.

(** The string fields of a body; a field that holds no string reads as
    absent.  The handlers behind [validateWeatherData] run on bodies whose
    three fields are strings, which [text_fields] gives back as they are. *)
Definition text_fields (body : Submission) : RecordBody :=
  mkRecordBody (as_text (j_location body)) (as_text (j_startDate body))
    (as_text (j_endDate body)).

(** A well-typed body as it arrives. *)
Definition of_fields (body : RecordBody) : Submission :=
  mkSubmission (of_text (b_location body)) (of_text (b_startDate body))
    (of_text (b_endDate body)).

Definition of_login (body : LoginBody) : Credentials :=
  mkCredentials (of_text (b_username body)) (of_text (b_password body)).

Definition of_register (body : RegisterBody) : Registration :=
  mkRegistration (of_text (r_username body)) (of_text (r_email body))
    (of_text (r_password body)).

Section Routes.

Context `{Platform} `{AuthPlatform} `{Deployment} (env : Env).

(** [v.trim()]: a method of strings. *)
Definition call_trim (name : string) (v : option Json) : Exn + string :=
  match v with
  | Some (JString s) => inr (String_trim s)
  | None =>
      inl (TypeError "Cannot read properties of undefined (reading 'trim')")
  | Some JNull =>
      inl (TypeError "Cannot read properties of null (reading 'trim')")
  | Some _ => inl (TypeError (name +:+ ".trim is not a function"))
  end.

(** A validator function that starts with [assertString]. *)
Definition asserting_string {A} (f : string -> A) (v : option Json)
  : Exn + A :=
  match as_text v with
  | Some s => inr (f s)
  | None => inl (validator_assertString v)
  end.

(** [validator.isDate(v)]: false for a value that is neither a string nor
    a [Date]. *)
Definition isDate (v : option Json) : bool :=
  match as_text v with
  | Some s => validator_isDate s
  | None => false
  end.

(** [bcrypt.compare(s, hash)]: rejects when [s] is no string. *)
Definition bcrypt_compare_value (s : option Json) (hash : string)
  : Exn + bool :=
  match as_text s with
  | Some text => inr (bcrypt_compare text hash)
  | None => inl (Error ("Illegal arguments: " +:+ js_typeof s +:+ ", string"))
  end.

(** The text node-postgres sends for a parameter. *)
Definition param_text (v : option Json) : string :=
  match v with
  | Some (JString s) => s
  | Some other => pg_param_text other
  | None => EmptyString
  end.

(** The application's error middleware, which Express runs when a
    middleware throws: [res.status(500).json({ error: 'Something went
    wrong!' })]. *)
Definition express (chain : M Response) : M Response :=
  try_catch chain
    (fun err => ret (json 500 (BError "Something went wrong!"))).

Definition validateWeatherData (body : Submission) : M Outcome :=
  let location := j_location body in
  let startDate := j_startDate body in
  let endDate := j_endDate body in
  badLocation <-
    (if negb (js_truthy location) then ret true
     else
       trimmed <- settle (call_trim "location" location) ;;
       ret (negb (validator_isLength trimmed 2 100))) ;;
  if (badLocation : bool)
  then ret (Respond (json 400
         (BError "Valid location is required (2-100 characters)")))
  else if negb (js_truthy startDate) || negb (isDate startDate)
  then ret (Respond (json 400 (BError "Valid start date is required")))
  else if negb (js_truthy endDate) || negb (isDate endDate)
  then ret (Respond (json 400 (BError "Valid end date is required")))
  else
    let start := new_Date (as_text startDate) in
    let end_ := new_Date (as_text endDate) in
    w <- get_world ;;
    let now := clock w in
    if js_gt start end_
    then ret (Respond (json 400 (BError "Start date must be before end date")))
    else if js_gt end_ (Some (now + 14 * 24 * 60 * 60 * 1000))
    then ret (Respond (json 400
           (BError "End date cannot be more than 14 days in the future")))
    else ret Next.

(** [POST /api/weather-records] *)
Definition POST_weather_records (user : JwtUser) (body : Submission)
  : M Response :=
  express
    (route (validateWeatherData body)
       (post_weather_records env user (text_fields body))).

(** The handler of [PUT /api/weather-records/:id].  Its first statement
    is the SELECT with [$1 = id]: when PostgreSQL cannot read the text as
    an integer the statement fails, and the [catch] answers with the
    message of the error. *)
Definition put_weather_record (user : JwtUser) (id : string)
    (body : RecordBody) : M Response :=
  match pg_int4_in id with
  | inr rid => put_weather_record env user rid body
  | inl msg => ret (json 500 (BError msg))
  end.

(** [PUT /api/weather-records/:id] *)
Definition PUT_weather_record (user : JwtUser) (id : string)
    (body : Submission) : M Response :=
  express
    (route (validateWeatherData body)
       (put_weather_record user id (text_fields body))).

(** [GET /api/weather-records/:id] *)
Definition GET_weather_record (user : JwtUser) (id : string) : M Response :=
  match pg_int4_in id with
  | inr rid => GET_weather_record user rid
  | inl msg => ret (json 500 (BError "Failed to fetch weather record"))
  end.

(** [DELETE /api/weather-records/:id] *)
Definition DELETE_weather_record (user : JwtUser) (id : string)
  : M Response :=
  match pg_int4_in id with
  | inr rid => DELETE_weather_record user rid
  | inl msg => ret (json 500 (BError "Failed to delete weather record"))
  end.

(** [POST /api/auth/login] *)
Definition post_auth_login (body : Credentials) : M Response :=
  try_catch
    (let login := j_username body in
     let password := j_password body in
     if negb (js_truthy login) || negb (js_truthy password)
     then ret (json 400 (BError "Username and password are required"))
     else
       result <- select_user_by_login (param_text login) ;;
       match result with
       | [] => ret (json 401 (BError "Invalid credentials"))
       | user :: _ =>
           isValidPassword <-
             settle (bcrypt_compare_value password (password_hash user)) ;;
           if negb (isValidPassword : bool)
           then ret (json 401 (BError "Invalid credentials"))
           else
             w <- get_world ;;
             let token :=
               jwt_sign (clock w) (mkJwtUser (user_id user) (username user)) in
             ret (json 200 (BLogin "Login successful" (user_id user)
                              (username user) (email user) token))
       end)
    (fun error => ret (json 500 (BError "Internal server error"))).

(** [POST /api/auth/register] *)
Definition post_auth_register (nextval : Z) (salt : string)
    (body : Registration) : M RegisterResponse :=
  try_catch
    (let name := j_reg_username body in
     let mail := j_reg_email body in
     let password := j_reg_password body in
     badName <-
       (if negb (js_truthy name) then ret true
        else
          trimmed <- settle (call_trim "username" name) ;;
          ret (negb (validator_isLength trimmed 3 50))) ;;
     if (badName : bool)
     then ret (register_error 400 "Username must be 3-50 characters long")
     else
       badMail <-
         (if negb (js_truthy mail) then ret true
          else
            isEmail <- settle (asserting_string validator_isEmail mail) ;;
            ret (negb isEmail)) ;;
       if (badMail : bool)
       then ret (register_error 400 "Valid email is required")
       else
         badPassword <-
           (if negb (js_truthy password) then ret true
            else
              isLong <-
                settle (asserting_string
                          (fun s => validator_isLength_min s 6) password) ;;
              ret (negb isLong)) ;;
         if (badPassword : bool)
         then ret (register_error 400
                     "Password must be at least 6 characters long")
         else
           register_checked nextval salt
             (String_trim (default EmptyString (as_text name)))
             (String_toLowerCase (default EmptyString (as_text mail)))
             (default EmptyString (as_text password)))
    (fun error => ret (register_failed error)).

End Routes.

End Wire.

(** * Verification *)

(** ** Auxiliary definitions *)

(** The world after some more events were traced. *)
Definition traced (w : World) (es : list Event) : World :=
  mkWorld (clock w) (users w) (weather_records w) (weather_records_id_seq w)
    (trace w ++ es).

(** The only error [getWeatherData] lets out. *)
Definition generic_failure : Exn := Error "Failed to fetch weather data".

(** The response of a run, and the world it leaves. *)
Definition response_of {A} (run : Result A * World) : Result A := fst run.
Definition world_after {A} (run : Result A * World) : World := snd run.

(** A run that left no trace of a gateway call or a write, and the table
    as it was. *)
Definition no_effects (w w' : World) : Prop :=
  forecast_calls (trace w') = forecast_calls (trace w) /\
  geocode_calls (trace w') = geocode_calls (trace w) /\
  http_requests (trace w') = http_requests (trace w) /\
  store_writes (trace w') = store_writes (trace w) /\
  weather_records w' = weather_records w.

(** The PRIMARY KEY of [weather_records], and its sequence running ahead
    of the ids in use. *)
Definition primary_key (w : World) : Prop :=
  NoDup (id <$> weather_records w) /\
  Forall (λ r, id r < weather_records_id_seq w) (weather_records w).

(** *** The validation order, in the specification's words

    "location length, startDate well-formed, endDate well-formed,
    start <= end, end <= now + 14 days, (update only) ownership check";
    the first failing check decides the answer. *)

Inductive Check :=
  | LocationLength
  | StartWellFormed
  | EndWellFormed
  | StartNotAfterEnd
  | EndWithinHorizon
  | Ownership.

Definition create_checks : list Check :=
  [LocationLength; StartWellFormed; EndWellFormed; StartNotAfterEnd;
   EndWithinHorizon].


Definition check_error (c : Check) : Response :=
  match c with
  | LocationLength =>
      json 400 (BError "Valid location is required (2-100 characters)")
  | StartWellFormed => json 400 (BError "Valid start date is required")
  | EndWellFormed => json 400 (BError "Valid end date is required")
  | StartNotAfterEnd => json 400 (BError "Start date must be before end date")
  | EndWithinHorizon =>
      json 400 (BError "End date cannot be more than 14 days in the future")
  | Ownership => json 404 (BError "Weather record not found")
  end.

Section Checks.

Context `{Platform}.

Definition fortnight : Z := 14 * 24 * 60 * 60 * 1000.

(** Whether a submission by [user] for record [rid] passes a check. *)
Definition check_passes (user : JwtUser) (rid : Z) (body : RecordBody)
    (w : World) (c : Check) : bool :=
  match c with
  | LocationLength =>
      truthy (b_location body)
      && validator_isLength
           (String_trim (default EmptyString (b_location body))) 2 100
  | StartWellFormed =>
      truthy (b_startDate body)
      && validator_isDate (default EmptyString (b_startDate body))
  | EndWellFormed =>
      truthy (b_endDate body)
      && validator_isDate (default EmptyString (b_endDate body))
  | StartNotAfterEnd =>
      negb (js_gt (new_Date (b_startDate body)) (new_Date (b_endDate body)))
  | EndWithinHorizon =>
      negb (js_gt (new_Date (b_endDate body)) (Some (clock w + fortnight)))
  | Ownership =>
      bool_decide (Exists (is_record rid (userId user)) (weather_records w))
  end.

(** The first check of the list that the submission fails. *)
Definition first_failure (checks : list Check) (user : JwtUser) (rid : Z)
    (body : RecordBody) (w : World) : option Check :=
  List.find (λ c, negb (check_passes user rid body w c)) checks.

End Checks.

(** *** Further notions used by the statements *)

(** [Number.MAX_SAFE_INTEGER]: up to it JS arithmetic on integers is
    exact. *)
Definition max_safe_integer : Z := 2 ^ 53 - 1.

(** An integer JS holds as it is. *)
Definition js_exact (z : Z) : Prop :=
  - max_safe_integer <= z <= max_safe_integer.

(** The answer of the application's error middleware. *)
Definition something_went_wrong : Response :=
  json 500 (BError "Something went wrong!").

(** No two of the rows were created at the same instant: [ORDER BY
    created_at] then leaves PostgreSQL no choice. *)
Definition tie_free (rs : list WeatherRecord) : Prop :=
  NoDup (created_at <$> rs).

(** The stored records a response body holds. *)
Definition records_in (b : Body) : list WeatherRecord :=
  match b with
  | BPage rs _ _ _ _ => rs
  | BRecord r => [r]
  | BRecords rs => rs
  | _ => []
  end.

(** The records a run of a route sent. *)
Definition records_sent (run : Result Response * World) : list WeatherRecord :=
  match response_of run with
  | Ok resp => records_in (body resp)
  | Throw _ => []
  end.



(** A text without a space: one piece of [split(' ')]. *)
Fixpoint no_space (s : string) : bool :=
  match s with
  | EmptyString => true
  | String c s' => negb (Ascii.eqb c " "%char) && no_space s'
  end.

(** A sample carries the temperature and the felt temperature rounded to
    the nearest degree, the visibility in kilometres, and the humidity,
    pressure, wind and cloud cover as upstream; its condition is the first
    of the entry's [weather]. *)
Definition shaped_from (item : ForecastItem) (s : Sample) : Prop :=
  (main_temp item - (1 # 2) < inject_Z (s_temperature s)
   <= main_temp item + (1 # 2))%Q /\
  (main_feels_like item - (1 # 2) < inject_Z (s_feels_like s)
   <= main_feels_like item + (1 # 2))%Q /\
  (s_visibility s * 1000 == visibility item)%Q /\
  s_humidity s = main_humidity item /\
  s_pressure s = main_pressure item /\
  s_wind_speed s = wind_speed item /\
  s_wind_direction s = wind_deg item /\
  s_clouds s = clouds_all item /\
  (exists c rest, weather item = c :: rest /\
     s_weather_main s = cond_main c /\
     s_weather_description s = cond_description c /\
     s_weather_icon s = cond_icon c).

(** The page numbers among the entries of a page bar. *)
Definition page_numbers (items : list PageItem) : list Z :=
  omap (λ i, match i with PageNum n => Some n | Dots => None end) items.

(** After page [prev], the entries go on with the next page, or with dots
    and a page at least two further; dots are never last and never
    doubled. *)
Fixpoint well_spaced (prev : Z) (items : list PageItem) : Prop :=
  match items with
  | [] => True
  | PageNum n :: rest => n = prev + 1 /\ well_spaced n rest
  | Dots :: rest =>
      match rest with
      | PageNum n :: rest' => prev + 2 <= n /\ well_spaced n rest'
      | _ => False
      end
  end.

(** A run that ended in a response, with the primary key in place. *)
Definition answers_keyed {A} (run : Result A * World) : Prop :=
  (exists resp, response_of run = Ok resp) /\ primary_key (world_after run).

Section FurtherNotions.

Context `{Platform} `{AuthPlatform}.

(** The account a registration stores. *)
Definition new_account (nextval : Z) (salt name mail password : string)
    (now : Z) : User :=
  mkUser nextval (String_trim name) (String_toLowerCase mail)
    (bcrypt_hash salt password) now.

End FurtherNotions.

(** ** A concrete platform and concrete services, for worked examples *)

Module Fixture.

Definition is_space (c : ascii) : bool := Ascii.eqb c " "%char.

Fixpoint drop_spaces (l : list ascii) : list ascii :=
  match l with
  | c :: l' => if is_space c then drop_spaces l' else l
  | [] => []
  end.

Definition trim (s : string) : string :=
  string_of_list_ascii
    (rev (drop_spaces (rev (drop_spaces (list_ascii_of_string s))))).

Definition lower (c : ascii) : ascii :=
  let n := nat_of_ascii c in
  if (65 <=? n)%nat && (n <=? 90)%nat then ascii_of_nat (n + 32) else c.

Fixpoint toLowerCase (s : string) : string :=
  match s with
  | EmptyString => EmptyString
  | String c s' => String (lower c) (toLowerCase s')
  end.

Definition isLength (s : string) (lo hi : Z) : bool :=
  (lo <=? Z.of_nat (String.length s)) && (Z.of_nat (String.length s) <=? hi).

Definition digit (c : ascii) : option Z :=
  let n := nat_of_ascii c in
  if (48 <=? n)%nat && (n <=? 57)%nat then Some (Z.of_nat n - 48) else None.

Fixpoint digits (acc : Z) (l : list ascii) : option Z :=
  match l with
  | [] => Some acc
  | c :: l' => d ← digit c; digits (10 * acc + d) l'
  end.

(** Year, month and day of a [YYYY-MM-DD] text. *)
Definition ymd (s : string) : option (Z * Z * Z) :=
  match list_ascii_of_string s with
  | [y1; y2; y3; y4; s1; m1; m2; s2; d1; d2] =>
      if Ascii.eqb s1 "-"%char && Ascii.eqb s2 "-"%char then
        y ← digits 0 [y1; y2; y3; y4];
        m ← digits 0 [m1; m2];
        d ← digits 0 [d1; d2];
        if (1 <=? m) && (m <=? 12) && (1 <=? d) && (d <=? 31)
        then Some (y, m, d) else None
      else None
  | _ => None
  end.

(** Days since 1970-01-01 of a civil date. *)
Definition days_from_civil (y m d : Z) : Z :=
  let y' := if m <=? 2 then y - 1 else y in
  let era := y' / 400 in
  let yoe := y' - era * 400 in
  let doy := (153 * (if 2 <? m then m - 3 else m + 9) + 2) / 5 + d - 1 in
  let doe := yoe * 365 + yoe / 4 - yoe / 100 + doy in
  era * 146097 + doe - 719468.

Definition parse_date (s : string) : JsInt :=
  '(y, m, d) ← ymd s; Some (days_from_civil y m d * 86400000).

Definition isDate (s : string) : bool := bool_decide (is_Some (ymd s)).

Definition compare (password hash : string) : bool :=
  String.eqb hash ("bcrypt:" +:+ password).

Definition sign (now : Z) (u : JwtUser) : string :=
  "jwt:" +:+ jwt_username u +:+ ":" +:+ pretty now.

Definition stringify (b : Body) : string :=
  match b with
  | BError e => "{error:" +:+ e +:+ "}"
  | BMessage m => "{message:" +:+ m +:+ "}"
  | BLogin m uid _ _ token => "{message:" +:+ m +:+ ",token:" +:+ token +:+ "}"
  | BWeather d => "{location:" +:+ wd_location d +:+ "}"
  | BSaved m _ d _ => "{message:" +:+ m +:+ ",location:" +:+ wd_location d +:+ "}"
  | BPage rs _ _ total _ =>
      "{records:[" +:+ String.concat "," ((λ r, pretty (id r)) <$> rs)
      +:+ "],total:" +:+ pretty total +:+ "}"
  | BRecord r => "{id:" +:+ pretty (id r) +:+ "}"
  | BRecords rs => "[" +:+ String.concat "," ((λ r, pretty (id r)) <$> rs) +:+ "]"
  | BText t => t
  end.

#[export] Instance platform : Platform := {|
  String_trim := trim;
  String_toLowerCase := toLowerCase;
  validator_isLength := isLength;
  validator_isDate := isDate;
  Date_parse := parse_date;
  bcrypt_compare := compare;
  jwt_sign := sign;
  JSON_stringify := stringify;
  Number_toString := pretty;
  pg_date_toString := λ s, s;
  pg_timestamp_toString := pretty
|}.

Definition paris : GeoEntry :=
  mkGeoEntry "Paris" (Some "Ile-de-France") "FR" (488589 # 10000) (232 # 100).

(** The [k]-th three-hourly forecast entry: [k] degrees and a half. *)
Definition item (k : nat) : ForecastItem :=
  mkForecastItem "2024-06-01 12:00:00" (2 * Z.of_nat k + 1 # 2) (Z.of_nat k # 1)
    (60 # 1) (1015 # 1) (31 # 10) (200 # 1)
    [mkCondition "Clouds" "scattered clouds" "03d"] (10000 # 1) (40 # 1).

Definition forty : list ForecastItem := item <$> seq 0 40.

Definition bad_gateway : Exn :=
  mkExn "AxiosError" "Request failed with status code 502".

(** OpenWeather up, knowing every place as Paris. *)
Definition env_up : Env :=
  mkEnv (Some "k") (λ _ _ _, inr (Some [paris])) (λ _ _ _ _, inr (Some forty)).

(** OpenWeather up, knowing no place. *)
Definition env_nowhere : Env :=
  mkEnv (Some "k") (λ _ _ _, inr (Some [])) (λ _ _ _ _, inr (Some forty)).

(** OpenWeather down. *)
Definition env_down : Env :=
  mkEnv (Some "k") (λ _ _ _, inl bad_gateway) (λ _ _ _ _, inl bad_gateway).

(** OpenWeather up for the first two requests, down from the third on. *)
Definition env_flaky : Env :=
  mkEnv (Some "k")
    (λ n _ _, if (n <? 2)%nat then inr (Some [paris]) else inl bad_gateway)
    (λ _ _ _ _, inr (Some forty)).

(** 2024-06-01T00:00:00Z *)
Definition now0 : Z := 1717200000000.

Definition alice : User := mkUser 1 "alice" "a@x.com" "bcrypt:secret1" 0.
Definition bob : User := mkUser 2 "bob" "b@x.com" "bcrypt:hunter2" 0.

Definition as_alice : JwtUser := mkJwtUser 1 "alice".
Definition as_bob : JwtUser := mkJwtUser 2 "bob".

Definition paris_data : WeatherData :=
  mkWeatherData "Paris" "FR" (488589 # 10000, 232 # 100) [].

(** A stored record with id [k], created at second [k]. *)
Definition record (owner : Z) (k : nat) : WeatherRecord :=
  mkWeatherRecord (Z.of_nat k) owner "Paris" "2024-06-01" "2024-06-03"
    paris_data (resolved_location paris) (1000 * Z.of_nat k) (1000 * Z.of_nat k).

Definition fresh_world : World := mkWorld now0 [alice; bob] [] 1 [].

(** Alice owns record 1. *)
Definition world1 : World :=
  mkWorld now0 [alice; bob] [record 1 1] 2 [].

(** Alice owns records 1 to 25, Bob records 26 and 27. *)
Definition world25 : World :=
  mkWorld now0 [alice; bob]
    ((record 1 <$> seq 1 25) ++ [record 2 26; record 2 27]) 28 [].

Definition paris_body : RecordBody :=
  mkRecordBody (Some "Paris") (Some "2024-06-01") (Some "2024-06-03").



End Fixture.

(** ** A concrete authentication platform *)

Module AuthFixture.

Fixpoint has_at (s : string) : bool :=
  match s with
  | EmptyString => false
  | String c s' => Ascii.eqb c "@"%char || has_at s'
  end.

Definition isLength_min (s : string) (lo : Z) : bool :=
  lo <=? Z.of_nat (String.length s).

(** The hash [Fixture.compare] accepts; the salt is not used. *)
Definition hash (salt password : string) : string := "bcrypt:" +:+ password.

Definition week : Z := 7 * 86400000.

(** Accepts, for a week, the tokens signed at [now0] for Alice and Bob. *)
Definition verify (now : Z) (token : string) : option JwtUser :=
  if negb (now <=? Fixture.now0 + week) then None
  else if String.eqb token (Fixture.sign Fixture.now0 Fixture.as_alice)
  then Some Fixture.as_alice
  else if String.eqb token (Fixture.sign Fixture.now0 Fixture.as_bob)
  then Some Fixture.as_bob
  else None.

#[export] Instance auth : AuthPlatform := {|
  validator_isEmail := has_at;
  validator_isLength_min := isLength_min;
  bcrypt_hash := hash;
  jwt_verify := verify;
  validator_assertString :=
    λ v, TypeError ("Expected a string but received a " +:+ js_typeof v)
|}.

(** A registration form, with spaces around the name and capitals in the
    email. *)
Definition carol_form : RegisterBody :=
  mkRegisterBody (Some " carol ") (Some "Carol@X.com") (Some "secret3").

Definition alice_login : LoginBody :=
  mkLoginBody (Some "alice") (Some "secret1").

(** What sits behind [authenticateToken] in the examples. *)
Definition whoami (user : JwtUser) : M Response :=
  ret (json 200 (BMessage (jwt_username user))).

End AuthFixture.

(** ** A concrete deployment *)

Module DeploymentFixture.

Definition number (l : list ascii) : option Z :=
  if decide (l = []) then None else Fixture.digits 0 l.

(** Decimal integers of the range of [integer]. *)
Definition int4_in (s : string) : string + Z :=
  let parsed :=
    match list_ascii_of_string s with
    | "-"%char :: l => Z.opp <$> number l
    | l => number l
    end in
  match parsed with
  | None => inl ("invalid input syntax for type integer: " +:+ s)
  | Some z =>
      if (- 2 ^ 31 <=? z) && (z <=? 2 ^ 31 - 1) then inr z
      else inl ("value " +:+ s +:+ " is out of range for type integer")
  end.

Lemma int4_in_range (s : string) (z : Z) :
  int4_in s = inr z -> - 2 ^ 31 <= z <= 2 ^ 31 - 1.
Proof.
  unfold int4_in.
  destruct (match list_ascii_of_string s with
            | "-"%char :: l => Z.opp <$> number l
            | l => number l
            end) as [n|]; [|discriminate].
  destruct (Z.leb_spec (- 2 ^ 31) n), (Z.leb_spec n (2 ^ 31 - 1));
    cbn [andb]; try discriminate.
  by intros [= <-].
Qed.

(** The year 0000, which PostgreSQL has no DATE for. *)
Definition year_zero (s : string) : bool := String.prefix "0000" s.

Definition long (n : Z) (s : string) : bool := n <? Z.of_nat (String.length s).

Definition rejects_insert (w : World) (uid : Z) (loc sd ed : string)
    (data : WeatherData) (maps : LocationDetails) : option (string * bool) :=
  if year_zero sd || year_zero ed
  then Some ("date/time field value out of range", false)
  else if long 255 loc
  then Some ("value too long for type character varying(255)", true)
  else None.

Definition rejects_update (w : World) (loc sd ed : string)
    (data : WeatherData) (maps : LocationDetails) : option string :=
  if year_zero sd || year_zero ed
  then Some "date/time field value out of range"
  else if long 255 loc
  then Some "value too long for type character varying(255)"
  else None.

Definition rejects_user (w : World) (uname mail hash : string)
  : option string :=
  if long 100 mail
  then Some "value too long for type character varying(100)"
  else None.

Definition param_text (v : Json) : string :=
  match v with
  | JString s => s
  | JBool true => "true"
  | JBool false => "false"
  | JNumber x => pretty (Qfloor x)
  | JNull => "null"
  | JArray _ => "{}"
  | JObject _ => "{}"
  end.

(** A server in UTC that produces rows in table order, not in
    development mode. *)
#[export] Instance deployment : Deployment := {|
  pg_int4_in := int4_in;
  pg_int4_in_range := int4_in_range;
  pg_rejects_insert := rejects_insert;
  pg_rejects_update := rejects_update;
  pg_rejects_user := rejects_user;
  pg_tie_order := λ _ rs, rs;
  pg_tie_order_perm := λ _ rs, reflexivity rs;
  pg_date_instant := λ s, default 0 (Fixture.parse_date s);
  pg_param_text := param_text;
  NODE_ENV_development := false
|}.

(** A server that produces rows now in table order, now in the reverse
    order, depending on what it has been asked before. *)
Definition alternately (w : World) (rs : list WeatherRecord)
  : list WeatherRecord :=
  if Nat.even (Nat.div2 (length (trace w))) then rs else reverse rs.

Lemma alternately_perm (w : World) (rs : list WeatherRecord) :
  alternately w rs ≡ₚ rs.
Proof.
  unfold alternately. destruct (Nat.even _); [done|apply reverse_Permutation].
Qed.

Definition alternating : Deployment := {|
  pg_int4_in := int4_in;
  pg_int4_in_range := int4_in_range;
  pg_rejects_insert := rejects_insert;
  pg_rejects_update := rejects_update;
  pg_rejects_user := rejects_user;
  pg_tie_order := alternately;
  pg_tie_order_perm := alternately_perm;
  pg_date_instant := λ s, default 0 (Fixture.parse_date s);
  pg_param_text := param_text;
  NODE_ENV_development := false
|}.

(** Alice owns records 1 and 2, created at the same instant. *)
Definition world_tied : World :=
  mkWorld Fixture.now0 [Fixture.alice; Fixture.bob]
    [Fixture.record 1 1;
     mkWeatherRecord 2 1 "Paris" "2024-06-01" "2024-06-03" Fixture.paris_data
       (resolved_location Fixture.paris) 1000 1000] 3 [].

(** A numeric location, and the start after the end. *)
Definition numeric_body : Wire.Submission :=
  Wire.mkSubmission (Some (JNumber 123)) (Some (JString "2024-06-03"))
    (Some (JString "2024-06-01")).

(** The year 0000 as start date. *)
Definition year_zero_body : RecordBody :=
  mkRecordBody (Some "Paris") (Some "0000-01-01") (Some "2024-06-03").

(** A registration with an email of 101 characters. *)
Definition long_email_form : RegisterBody :=
  mkRegisterBody (Some "carol")
    (Some ("carol@"
           +:+ string_of_list_ascii (replicate 91 "x"%char) +:+ ".com"))
    (Some "secret3").

(** A login with the number 1 as password. *)
Definition numeric_password (name : string) : Wire.Credentials :=
  Wire.mkCredentials (Some (JString name)) (Some (JNumber 1)).

End DeploymentFixture.

(** ** Traces *)

Lemma emit_run e w : emit e w = (Ok tt, traced w [e]).
Proof. reflexivity. Qed.

Lemma traced_traced w es es' : traced (traced w es) es' = traced w (es ++ es').
Proof. unfold traced; simpl. by rewrite <- app_assoc. Qed.

Lemma count_app p t t' : count p (t ++ t') = (count p t + count p t')%nat.
Proof. unfold count. by rewrite List.filter_app, length_app. Qed.

#[local] Arguments http_requests : simpl never.

Lemma http_requests_snoc t e :
  http_requests (t ++ [e])
  = (http_requests t + (if is_http e then 1 else 0))%nat.
Proof.
  unfold http_requests. rewrite count_app. unfold count. simpl.
  destruct (is_http e); reflexivity.
Qed.

Lemma http_requests_traced w es :
  http_requests (trace (traced w es))
  = (http_requests (trace w) + http_requests es)%nat.
Proof. apply count_app. Qed.

(** ** The gateway *)

Section GatewayFacts.

Context (env : Env).

Abbreviation key := (default EmptyString (OPENWEATHER_API_KEY env)).

(** The run of [getWeatherData], case by case on what OpenWeather answers. *)
Lemma getWeatherData_run location days w :
  let n := http_requests (trace w) in
  let call := CallGetWeatherData location days in
  let geo := HttpGet (GeoDirect location key) in
  getWeatherData env location days w =
    if negb (truthy (OPENWEATHER_API_KEY env))
    then (Throw generic_failure, traced w [call])
    else
      match geo_direct env n location key with
      | inr (Some (first :: _)) =>
          let fc := HttpGet (Forecast (geo_lat first) (geo_lon first) key) in
          match forecast env (S n) (geo_lat first) (geo_lon first) key with
          | inr (Some list) =>
              match map_throwing shape_item
                      (slice0 list (z ← days; Some (z * 8))) with
              | inr samples =>
                  (Ok {| wd_location := geo_name first;
                         wd_country := geo_country first;
                         wd_coordinates := (geo_lat first, geo_lon first);
                         wd_weather_data := samples |},
                   traced w [call; geo; fc])
              | inl _ => (Throw generic_failure, traced w [call; geo; fc])
              end
          | _ => (Throw generic_failure, traced w [call; geo; fc])
          end
      | _ => (Throw generic_failure, traced w [call; geo])
      end.
Proof.
  intros n call geo.
  assert (Hn : http_requests (trace w ++ [call]) = n).
  { unfold n, call. rewrite http_requests_snoc. simpl. lia. }
  assert (HSn : http_requests ((trace w ++ [call]) ++ [geo]) = S n).
  { unfold geo. rewrite http_requests_snoc, Hn. simpl. lia. }
  clearbody n. subst call geo.
  cbv [getWeatherData try_catch bind axios_get_geo axios_get_forecast
       get_world settle ret throw emit traced]. simpl.
  destruct (truthy (OPENWEATHER_API_KEY env)) eqn:Hkey; simpl; [|reflexivity].
  rewrite Hn.
  destruct (geo_direct env n location key) as [e|[[|first rest]|]]; simpl;
    rewrite <- ?app_assoc; try reflexivity.
  rewrite app_assoc, HSn.
  destruct (forecast env (S n) (geo_lat first) (geo_lon first) key)
    as [e|[list|]]; simpl; rewrite <- ?app_assoc; try reflexivity.
  destruct (map_throwing shape_item _); simpl; rewrite <- ?app_assoc; reflexivity.
Qed.

(** Whatever goes wrong inside [getWeatherData], the caller sees one error. *)
Lemma getWeatherData_throws_generic location days w e w' :
  getWeatherData env location days w = (Throw e, w') -> e = generic_failure.
Proof.
  rewrite getWeatherData_run. cbv zeta.
  repeat (match goal with
          | |- context [if ?b then _ else _] => destruct b
          | |- context [match ?x with _ => _ end] => destruct x
          end; simpl);
    congruence.
Qed.

(** The run of [getLocationDetails], case by case. *)
Lemma getLocationDetails_run location w :
  let n := http_requests (trace w) in
  let call := CallGetLocationDetails location in
  let geo := HttpGet (GeoDirect location key) in
  getLocationDetails env location w =
    if negb (truthy (OPENWEATHER_API_KEY env))
    then (Ok (basic_location location), traced w [call])
    else
      (Ok match geo_direct env n location key with
          | inr (Some (locationData :: _)) => resolved_location locationData
          | _ => basic_location location
          end,
       traced w [call; geo]).
Proof.
  intros n call geo.
  assert (Hn : http_requests (trace w ++ [call]) = n).
  { unfold n, call. rewrite http_requests_snoc. simpl. lia. }
  clearbody n. subst call geo.
  cbv [getLocationDetails try_catch bind axios_get_geo get_world settle ret
       throw emit traced]. simpl.
  destruct (truthy (OPENWEATHER_API_KEY env)); simpl; [|reflexivity].
  rewrite Hn.
  destruct (geo_direct env n location key) as [e|[[|first rest]|]]; simpl;
    rewrite <- ?app_assoc; reflexivity.
Qed.

Lemma map_throwing_Forall2 {A B} (f : A -> Exn + B) l ys :
  map_throwing f l = inr ys -> Forall2 (λ x y, f x = inr y) l ys.
Proof.
  revert ys. induction l as [|x l IH]; intros ys Hmap; simpl in Hmap.
  - injection Hmap as <-. constructor.
  - destruct (f x) as [e|y] eqn:Hfx; [discriminate|].
    destruct (map_throwing f l) as [e|ys'] eqn:Hrest; [discriminate|].
    injection Hmap as <-. constructor; auto.
Qed.

Lemma slice0_nonneg {A} (l : list A) (e : Z) :
  0 <= e -> slice0 l (Some e) = take (Z.to_nat e) l.
Proof. intros He. unfold slice0. destruct (Z.ltb_spec e 0); [lia|done]. Qed.

Lemma take_min_length {A} (l : list A) (k : nat) :
  take (k `min` length l) l = take k l.
Proof.
  destruct (Nat.min_spec k (length l)) as [[_ ->]|[Hle ->]]; [done|].
  by rewrite firstn_all, take_ge by lia.
Qed.

End GatewayFacts.

(** ** Claims about the gateway *)

(** C10. [getLocationDetails] never throws: on every world and for every
    answer of the geocoder it returns an object with [city], [state],
    [country] and [formatted_address]; and whenever the location cannot be
    resolved (no API key, a rejected request, a null body or no candidate)
    that object is the fallback: city and formatted address the input,
    state empty, country "Unknown". *)
Theorem getLocationDetails_never_throws (env : Env) (location : string)
    (w : World) :
  let answer :=
    geo_direct env (http_requests (trace w)) location
      (default EmptyString (OPENWEATHER_API_KEY env)) in
  (exists d w', getLocationDetails env location w = (Ok d, w')) /\
  (truthy (OPENWEATHER_API_KEY env) = false \/
   (exists e, answer = inl e) \/ answer = inr None \/ answer = inr (Some [])
   -> response_of (getLocationDetails env location w)
      = Ok {| city := location; state := EmptyString; country := "Unknown";
              formatted_address := location; coordinates := None |}).
Proof.
  intros answer. rewrite getLocationDetails_run. cbv zeta. fold answer.
  split.
  - destruct (negb _); eauto.
  - intros Hcase. destruct (truthy (OPENWEATHER_API_KEY env)); simpl; [|done].
    unfold response_of; simpl.
    destruct Hcase as [?|[[e ->]|[->| ->]]]; done.
Qed.

Lemma getLocationDetails_never_throws_witness :
  response_of (getLocationDetails Fixture.env_down "Paris" Fixture.fresh_world)
  = Ok (basic_location "Paris").
Proof.
  apply (getLocationDetails_never_throws Fixture.env_down "Paris"
           Fixture.fresh_world).
  right. left. exists Fixture.bad_gateway. reflexivity.
Defined.

(** C1, at the failing input.  With the API key set and the geocoder
    answering an empty candidate list, [getWeatherData] throws "Failed to
    fetch weather data", the same error as when OpenWeather is down; the
    forecast route answers both with the same 500 body, so the caller
    cannot tell "location not found" from an upstream failure. *)
Theorem getWeatherData_location_not_found_masked :
  let unknown_place :=
    getWeatherData Fixture.env_nowhere "Atlantis" (Some 5) Fixture.fresh_world in
  let service_down :=
    getWeatherData Fixture.env_down "Atlantis" (Some 5) Fixture.fresh_world in
  response_of unknown_place = Throw (Error "Failed to fetch weather data") /\
  response_of service_down = Throw (Error "Failed to fetch weather data") /\
  response_of (get_weather_forecast Fixture.env_nowhere "Atlantis" (Some 5)
                 Fixture.fresh_world)
  = response_of (get_weather_forecast Fixture.env_down "Atlantis" (Some 5)
                   Fixture.fresh_world).
Proof. repeat split; reflexivity. Qed.

(** C6. A successful fetch of [d >= 0] days returns
    min(available, d * 8) samples, where the available ones are the list
    the forecast endpoint answered for the first geocoding candidate; the
    samples are the shaped images, in order, of the first entries of that
    list: nothing is padded, skipped or reordered. *)
Theorem getWeatherData_sample_count (env : Env) (location : string) (d : Z)
    (w w' : World) (data : WeatherData) :
  0 <= d ->
  getWeatherData env location (Some d) w = (Ok data, w') ->
  let n := http_requests (trace w) in
  let key := default EmptyString (OPENWEATHER_API_KEY env) in
  exists first rest upstream,
    geo_direct env n location key = inr (Some (first :: rest)) /\
    forecast env (S n) (geo_lat first) (geo_lon first) key
      = inr (Some upstream) /\
    Z.of_nat (length (wd_weather_data data))
      = Z.min (Z.of_nat (length upstream)) (d * 8) /\
    Forall2 (λ item sample, shape_item item = inr sample)
      (take (length (wd_weather_data data)) upstream) (wd_weather_data data).
Proof.
  intros Hd Hrun n key. rewrite getWeatherData_run in Hrun. cbv zeta in Hrun.
  fold n key in Hrun.
  destruct (negb _); [discriminate|].
  destruct (geo_direct env n location key) as [e|[[|first rest]|]] eqn:Hgeo;
    try discriminate.
  destruct (forecast env (S n) (geo_lat first) (geo_lon first) key)
    as [e|[upstream|]] eqn:Hfc; try discriminate.
  destruct (map_throwing _ _) as [e|samples] eqn:Hmap; [discriminate|].
  injection Hrun as <- <-. simpl.
  exists first, rest, upstream. split; [done|]. split; [done|].
  change (map_throwing shape_item (slice0 upstream (Some (d * 8))) = inr samples)
    in Hmap.
  rewrite slice0_nonneg in Hmap by lia.
  apply map_throwing_Forall2 in Hmap.
  pose proof (Forall2_length _ _ _ Hmap) as Hlen. rewrite length_take in Hlen.
  split; [lia|].
  by rewrite <- Hlen, take_min_length.
Qed.

Lemma getWeatherData_sample_count_witness :
  exists data w',
    getWeatherData Fixture.env_up "Paris" (Some 7) Fixture.fresh_world
      = (Ok data, w') /\
    Z.of_nat (length (wd_weather_data data))
      = Z.min (Z.of_nat (length Fixture.forty)) (7 * 8).
Proof.
  destruct (getWeatherData Fixture.env_up "Paris" (Some 7) Fixture.fresh_world)
    as [[data|e] w'] eqn:Hrun; [|discriminate].
  exists data, w'. split; [reflexivity|].
  destruct (getWeatherData_sample_count Fixture.env_up "Paris" 7
              Fixture.fresh_world w' data ltac:(lia) Hrun)
    as (first & rest & upstream & Hgeo & Hfc & Hcount & _).
  injection Hfc as <-. exact Hcount.
Defined.

(** ** Validation *)

Section ValidationFacts.

Context `{Platform} `{Deployment} (env : Env).

(** [validateWeatherData] answers with the error of the first check it
    fails, calls [next()] when it fails none, and touches nothing. *)
Lemma validateWeatherData_run user rid body w :
  validateWeatherData body w
  = (Ok match first_failure create_checks user rid body w with
        | Some c => Respond (check_error c)
        | None => Next
        end, w).
Proof.
  unfold validateWeatherData, first_failure, create_checks, check_passes,
    fortnight; simpl.
  destruct (truthy (b_location body)); simpl; [|reflexivity].
  destruct (validator_isLength _ 2 100); simpl; [|reflexivity].
  destruct (truthy (b_startDate body)); simpl; [|reflexivity].
  destruct (validator_isDate (default _ (b_startDate body))); simpl;
    [|reflexivity].
  destruct (truthy (b_endDate body)); simpl; [|reflexivity].
  destruct (validator_isDate (default _ (b_endDate body))); simpl;
    [|reflexivity].
  cbv [bind get_world ret].
  destruct (js_gt (new_Date (b_startDate body)) (new_Date (b_endDate body)));
    simpl; [reflexivity|].
  destruct (js_gt (new_Date (b_endDate body)) _); reflexivity.
Qed.

Lemma route_run (middleware : M Outcome) (handler : M Response) o w :
  middleware w = (Ok o, w) ->
  route middleware handler w
  = match o with Next => handler w | Respond r => (Ok r, w) end.
Proof. intros Hmw. unfold route, bind. rewrite Hmw. by destruct o. Qed.


Lemma first_failure_fails checks user rid body w c :
  first_failure checks user rid body w = Some c ->
  In c checks /\ check_passes user rid body w c = false.
Proof.
  intros Hfind. apply List.find_some in Hfind as [Hin Hneg].
  split; [done|]. by apply negb_true_iff.
Qed.

Lemma filter_nil_Forall {A} (P : A -> Prop) `{!forall x, Decision (P x)} l :
  filter P l = [] <-> Forall (λ x, ~ P x) l.
Proof.
  induction l as [|x l IH]; [by split; [constructor|]|].
  rewrite filter_cons, Forall_cons. destruct (decide (P x)); [|tauto].
  split; [discriminate|tauto].
Qed.


(** The handlers behind the validation, step by step. *)
Lemma post_weather_records_run user body w :
  let loc := js_string (b_location body) in
  let days := daysDiff (new_Date (b_startDate body)) (new_Date (b_endDate body)) in
  post_weather_records env user body w =
    match getWeatherData env loc days w with
    | (Throw e, w1) => (Ok (json 500 (BError (message e))), w1)
    | (Ok weatherData, w1) =>
        match getLocationDetails env loc w1 with
        | (Throw e, w2) => (Ok (json 500 (BError (message e))), w2)
        | (Ok mapsData, w2) =>
            match insert_record (userId user) (wd_location weatherData)
                    (b_startDate body) (b_endDate body) weatherData mapsData w2
            with
            | (Throw e, w3) => (Ok (json 500 (BError (message e))), w3)
            | (Ok result, w3) =>
                (Ok (json 201 (BSaved "Weather record created successfully"
                                 (head result) weatherData mapsData)), w3)
            end
        end
    end.
Proof.
  cbv [post_weather_records try_catch bind ret].
  destruct (getWeatherData _ _ _ w) as [[weatherData|e] w1]; [|reflexivity].
  destruct (getLocationDetails _ _ w1) as [[mapsData|e] w2]; [|reflexivity].
  by destruct (insert_record _ _ _ _ _ _ w2) as [[result|e] w3].
Qed.

Lemma put_weather_record_run user rid body w :
  let uid := userId user in
  let w1 := traced w [Query (SelectRecordId rid uid)] in
  let loc := js_string (b_location body) in
  let days := daysDiff (new_Date (b_startDate body)) (new_Date (b_endDate body)) in
  put_weather_record env user rid body w =
    if decide (filter (is_record rid uid) (weather_records w) = [])
    then (Ok (json 404 (BError "Weather record not found")), w1)
    else
      match getWeatherData env loc days w1 with
      | (Throw e, w2) => (Ok (json 500 (BError (message e))), w2)
      | (Ok weatherData, w2) =>
          match getLocationDetails env loc w2 with
          | (Throw e, w3) => (Ok (json 500 (BError (message e))), w3)
          | (Ok mapsData, w3) =>
              match update_record (wd_location weatherData) (b_startDate body)
                      (b_endDate body) weatherData mapsData rid uid w3
              with
              | (Throw e, w4) => (Ok (json 500 (BError (message e))), w4)
              | (Ok result, w4) =>
                  (Ok (json 200 (BSaved "Weather record updated successfully"
                                   (head result) weatherData mapsData)), w4)
              end
          end
      end.
Proof.
  intros uid w1 loc days.
  cbv [put_weather_record try_catch bind ret select_record_id emit get_world].
  cbn [weather_records]. fold uid. change (mkWorld _ _ _ _ _) with w1.
  destruct (filter (is_record rid uid) (weather_records w)) as [|r rs];
    [reflexivity|]. rewrite decide_False by done. cbn [fmap list_fmap].
  destruct (getWeatherData _ _ _ w1) as [[weatherData|e] w2]; [|reflexivity].
  destruct (getLocationDetails _ _ w2) as [[mapsData|e] w3]; [|reflexivity].
  by destruct (update_record _ _ _ _ _ _ _ w3) as [[result|e] w4].
Qed.

(** *** The routes on requests as they arrive *)

(** The checks on any body: a location that is truthy and no string makes
    the first one throw; on every other body they are the checks of its
    string fields. *)
Lemma Wire_validateWeatherData_run (sub : Wire.Submission) w :
  Wire.validateWeatherData sub w
  = if no_string (Wire.j_location sub)
    then (Throw (TypeError "location.trim is not a function"), w)
    else validateWeatherData (Wire.text_fields sub) w.
Proof.
  assert (forall v : option Json,
            negb (js_truthy v) || negb (Wire.isDate v)
            = negb (truthy (as_text v))
              || negb (validator_isDate (default EmptyString (as_text v))))
    as Hdate.
  { intros [[| | |s| |]|]; try reflexivity; simpl;
      by rewrite ?orb_true_r. }
  destruct sub as [location startDate endDate].
  unfold Wire.validateWeatherData, validateWeatherData, Wire.text_fields.
  cbn [Wire.j_location Wire.j_startDate Wire.j_endDate b_location b_startDate
       b_endDate].
  rewrite <- !Hdate.
  destruct location as [[|b|x|s|items|members]|]; try reflexivity.
  - by destruct b.
  - unfold no_string. cbn [js_truthy as_text].
    by destruct (Qeq_bool x 0).
  - unfold no_string. cbn [js_truthy as_text truthy Wire.call_trim settle].
    rewrite bool_decide_eq_true_2 by eauto. rewrite andb_false_r.
    cbn [default from_option]. unfold Datatypes.id.
    destruct (String.eqb s EmptyString); cbn [negb orb bind ret];
      [reflexivity|].
    cbv [bind ret]. by destruct (validator_isLength _ 2 100).
Qed.

Lemma express_answer (chain : M Response) w resp w' :
  chain w = (Ok resp, w') -> Wire.express chain w = (Ok resp, w').
Proof. intros Hrun. unfold Wire.express, try_catch. by rewrite Hrun. Qed.

(** Neither handler lets an error out. *)
Lemma post_weather_records_answers user body w :
  exists resp w', post_weather_records env user body w = (Ok resp, w').
Proof.
  rewrite post_weather_records_run. cbv zeta.
  destruct (getWeatherData _ _ _ w) as [[weatherData|e] w1]; [|eauto].
  destruct (getLocationDetails _ _ w1) as [[mapsData|e] w2]; [|eauto].
  destruct (insert_record _ _ _ _ _ _ w2) as [[result|e] w3]; eauto.
Qed.

Lemma put_weather_record_answers user rid body w :
  exists resp w', put_weather_record env user rid body w = (Ok resp, w').
Proof.
  rewrite put_weather_record_run. cbv zeta.
  destruct (decide _); [eauto|].
  destruct (getWeatherData _ _ _ _) as [[weatherData|e] w2]; [|eauto].
  destruct (getLocationDetails _ _ w2) as [[mapsData|e] w3]; [|eauto].
  destruct (update_record _ _ _ _ _ _ _ w3) as [[result|e] w4]; eauto.
Qed.

(** A route behind the checks, under the error middleware. *)
Lemma Wire_route_run (handler : M Response) user rid sub w :
  (forall w0, exists resp w', handler w0 = (Ok resp, w')) ->
  Wire.express (route (Wire.validateWeatherData sub) handler) w
  = if no_string (Wire.j_location sub)
    then (Ok something_went_wrong, w)
    else match first_failure create_checks user rid (Wire.text_fields sub) w
         with
         | Some c => (Ok (check_error c), w)
         | None => handler w
         end.
Proof.
  intros Hanswers.
  unfold Wire.express, try_catch, route, bind.
  rewrite Wire_validateWeatherData_run.
  destruct (no_string (Wire.j_location sub)); [reflexivity|].
  rewrite (validateWeatherData_run user rid).
  destruct (first_failure create_checks user rid (Wire.text_fields sub) w);
    [reflexivity|].
  by destruct (Hanswers w) as (resp & w' & ->).
Qed.

Lemma Wire_POST_weather_records_run user sub w :
  Wire.POST_weather_records env user sub w
  = if no_string (Wire.j_location sub)
    then (Ok something_went_wrong, w)
    else POST_weather_records env user (Wire.text_fields sub) w.
Proof.
  unfold Wire.POST_weather_records.
  rewrite (Wire_route_run _ user 0)
    by (intros w0; apply post_weather_records_answers).
  destruct (no_string _); [reflexivity|].
  unfold POST_weather_records.
  rewrite (route_run _ _ _ _
             (validateWeatherData_run user 0 (Wire.text_fields sub) w)).
  by destruct (first_failure _ _ _ _ _).
Qed.

Lemma Wire_PUT_weather_record_run user id sub w :
  Wire.PUT_weather_record env user id sub w
  = if no_string (Wire.j_location sub)
    then (Ok something_went_wrong, w)
    else
      match pg_int4_in id with
      | inr rid => PUT_weather_record env user rid (Wire.text_fields sub) w
      | inl msg =>
          match first_failure create_checks user 0 (Wire.text_fields sub) w
          with
          | Some c => (Ok (check_error c), w)
          | None => (Ok (json 500 (BError msg)), w)
          end
      end.
Proof.
  unfold Wire.PUT_weather_record, Wire.put_weather_record.
  destruct (pg_int4_in id) as [msg|rid].
  - by rewrite (Wire_route_run _ user 0) by (intros w0; eexists _, _; reflexivity).
  - rewrite (Wire_route_run _ user rid)
      by (intros w0; apply put_weather_record_answers).
    destruct (no_string _); [reflexivity|].
    unfold PUT_weather_record.
    rewrite (route_run _ _ _ _
               (validateWeatherData_run user rid (Wire.text_fields sub) w)).
    by destruct (first_failure _ _ _ _ _).
Qed.

(** On a well-typed request the routes are the routes of the first part. *)
Lemma text_fields_of_fields body : Wire.text_fields (Wire.of_fields body) = body.
Proof. by destruct body as [[?|] [?|] [?|]]. Qed.

Lemma no_string_of_text v : no_string (of_text v) = false.
Proof.
  destruct v as [s|]; [|reflexivity]. unfold no_string. simpl.
  by destruct (String.eqb s EmptyString).
Qed.

Lemma Wire_agrees_on_typed_requests user rid id body w :
  pg_int4_in id = inr rid ->
  Wire.validateWeatherData (Wire.of_fields body) w = validateWeatherData body w /\
  Wire.POST_weather_records env user (Wire.of_fields body) w
  = POST_weather_records env user body w /\
  Wire.PUT_weather_record env user id (Wire.of_fields body) w
  = PUT_weather_record env user rid body w.
Proof.
  intros Hid.
  rewrite Wire_validateWeatherData_run, Wire_POST_weather_records_run,
    Wire_PUT_weather_record_run, Hid, text_fields_of_fields.
  unfold Wire.of_fields. cbn [Wire.j_location].
  by rewrite no_string_of_text.
Qed.

End ValidationFacts.

(** ** What each step leaves behind *)

Lemma count_traced p w es :
  count p (trace (traced w es)) = (count p (trace w) + count p es)%nat.
Proof. apply count_app. Qed.

Lemma count_cons p e es :
  count p (e :: es) = ((if p e then 1 else 0) + count p es)%nat.
Proof. unfold count. simpl. by destruct (p e). Qed.

Lemma count_nil p : count p [] = 0%nat.
Proof. reflexivity. Qed.

Lemma http_only_counts es :
  Forall (λ e, is_http e = true) es ->
  forecast_calls es = 0%nat /\ geocode_calls es = 0%nat /\
  store_writes es = 0%nat.
Proof.
  unfold forecast_calls, geocode_calls, store_writes, count.
  induction 1 as [|e es He _ IH]; [done|].
  destruct e; try discriminate. simpl. lia.
Qed.

(** [getWeatherData] is one forecast-gateway call, writes nothing, and
    fails with the generic error only. *)
Lemma getWeatherData_effects env location days w :
  exists r w',
    getWeatherData env location days w = (r, w') /\
    forecast_calls (trace w') = S (forecast_calls (trace w)) /\
    geocode_calls (trace w') = geocode_calls (trace w) /\
    store_writes (trace w') = store_writes (trace w) /\
    weather_records w' = weather_records w /\
    forall e, r = Throw e -> e = generic_failure.
Proof.
  destruct (getWeatherData env location days w) as [r w'] eqn:Hrun.
  exists r, w'. split; [done|].
  assert (Hgen : forall e, r = Throw e -> e = generic_failure).
  { intros e ->. eapply getWeatherData_throws_generic, Hrun. }
  rewrite getWeatherData_run in Hrun. cbv zeta in Hrun.
  assert (exists es, w' = traced w (CallGetWeatherData location days :: es)
                     /\ Forall (λ e, is_http e = true) es) as (es & -> & Hes).
  { repeat match type of Hrun with
           | context [if ?b then _ else _] => destruct b
           | context [match ?x with _ => _ end] => destruct x
           end;
      injection Hrun as _ <-; eexists; (split; [reflexivity|]);
      repeat constructor. }
  apply http_only_counts in Hes as (Hf & Hg & Hw).
  unfold forecast_calls, geocode_calls, store_writes in *.
  rewrite !count_traced.
  rewrite !count_cons, Hf, Hg, Hw. simpl. repeat split; try lia; done.
Qed.




(** A read leaves the gateway and write counts alone. *)
Lemma read_counts w q :
  is_write q = false ->
  forecast_calls (trace (traced w [Query q])) = forecast_calls (trace w) /\
  geocode_calls (trace (traced w [Query q])) = geocode_calls (trace w) /\
  store_writes (trace (traced w [Query q])) = store_writes (trace w).
Proof.
  intros Hq. unfold forecast_calls, geocode_calls, store_writes.
  rewrite !count_traced, !count_cons, !count_nil.
  destruct q; try discriminate; simpl; lia.
Qed.

(** ** Claims about the record pipeline *)

Section PipelineClaims.

Context `{Platform} `{Deployment} (env : Env).






(** A well-typed create or update whose body fails the validation is
    answered with the 400 error of the first check it fails, and leaves
    the world as it was. *)
Lemma rejected_body_no_effects (user : JwtUser) (rid : Z)
    (body : RecordBody) (w : World) :
  (exists v, response_of (validateWeatherData body w) = Ok (Respond v)) \/
  js_gt (new_Date (b_startDate body)) (new_Date (b_endDate body)) = true ->
  exists c rule,
    In c create_checks /\
    check_passes user rid body w c = false /\
    check_error c = json 400 (BError rule) /\
    response_of (POST_weather_records env user body w) = Ok (check_error c) /\
    response_of (PUT_weather_record env user rid body w) = Ok (check_error c) /\
    no_effects w (world_after (POST_weather_records env user body w)) /\
    no_effects w (world_after (PUT_weather_record env user rid body w)).
Proof.
  intros Hinvalid.
  assert (exists c, first_failure create_checks user rid body w = Some c)
    as [c Hfirst].
  { destruct Hinvalid as [[v Hv]|Hgt].
    - rewrite (validateWeatherData_run user rid) in Hv.
      destruct (first_failure create_checks user rid body w); [eauto|].
      discriminate.
    - destruct (first_failure create_checks user rid body w) eqn:Hnone;
        [eauto|].
      pose proof (List.find_none _ _ Hnone StartNotAfterEnd) as Hpass.
      cbn [check_passes] in Hpass. rewrite Hgt in Hpass.
      unfold create_checks in Hpass. simpl in Hpass.
      discriminate Hpass. tauto. }
  pose proof (first_failure_fails _ _ _ _ _ _ Hfirst) as [Hin Hfails].
  unfold POST_weather_records, PUT_weather_record.
  rewrite !(route_run _ _ _ _ (validateWeatherData_run user rid body w)).
  rewrite Hfirst. unfold response_of, world_after, no_effects. simpl.
  exists c.
  assert (exists rule, check_error c = json 400 (BError rule)) as [rule Hrule].
  { unfold create_checks in Hin. simpl in Hin.
    destruct c; try (eexists; reflexivity). intuition discriminate. }
  exists rule. repeat split; done.
Qed.



(** The named causes of a gateway failure make [getWeatherData] throw. *)
Lemma getWeatherData_named_failures location days w :
  let n := http_requests (trace w) in
  let key := default EmptyString (OPENWEATHER_API_KEY env) in
  truthy (OPENWEATHER_API_KEY env) = false \/
  geo_direct env n location key = inr (Some []) \/
  (exists e, geo_direct env n location key = inl e) ->
  exists w', getWeatherData env location days w = (Throw generic_failure, w').
Proof.
  intros n key Hcause. rewrite getWeatherData_run. cbv zeta. fold n key.
  destruct (truthy (OPENWEATHER_API_KEY env)); simpl; [|eauto].
  destruct Hcause as [?|[->|[e ->]]]; [discriminate|eauto..].
Qed.

(** C5, amended.  An update that passes the validation, of a record the
    user owns, whose forecast fetch fails (no API key, no geocoding
    candidate, a rejected request, or any other failure of
    [getWeatherData]) is answered 500 "Failed to fetch weather data"; no
    write is issued and the table, the record's stored payloads included,
    is as before. *)
Theorem update_gateway_failure_keeps_record (user : JwtUser) (rid : Z)
    (body : RecordBody) (w : World) :
  let location := js_string (b_location body) in
  let days :=
    daysDiff (new_Date (b_startDate body)) (new_Date (b_endDate body)) in
  let n := http_requests (trace w) in
  let key := default EmptyString (OPENWEATHER_API_KEY env) in
  response_of (validateWeatherData body w) = Ok Next ->
  Exists (is_record rid (userId user)) (weather_records w) ->
  (truthy (OPENWEATHER_API_KEY env) = false \/
   geo_direct env n location key = inr (Some []) \/
   (exists e, geo_direct env n location key = inl e) \/
   (exists e w',
      getWeatherData env location days
        (traced w [Query (SelectRecordId rid (userId user))]) = (Throw e, w'))) ->
  exists w',
    PUT_weather_record env user rid body w
    = (Ok (json 500 (BError "Failed to fetch weather data")), w') /\
    store_writes (trace w') = store_writes (trace w) /\
    weather_records w' = weather_records w.
Proof.
  intros location days n key Hvalid Hown Hcause.
  rewrite (validateWeatherData_run user rid) in Hvalid.
  destruct (first_failure create_checks user rid body w) eqn:Hcreate;
    [discriminate|].
  assert (filter (is_record rid (userId user)) (weather_records w) <> [])
    as Hrows.
  { intros Hnone%filter_nil_Forall. by apply Forall_Exists_neg in Hnone. }
  unfold PUT_weather_record.
  rewrite (route_run _ _ _ _ (validateWeatherData_run user rid body w)), Hcreate.
  rewrite put_weather_record_run. cbv zeta. rewrite decide_False by done.
  fold location days.
  set (w1 := traced w [Query (SelectRecordId rid (userId user))]) in *.
  assert (exists e w', getWeatherData env location days w1 = (Throw e, w'))
    as (e & w2 & Hthrow).
  { destruct Hcause as [Hkey|[Hnone|[Hrej|Hany]]]; [..|exact Hany];
      destruct (getWeatherData_named_failures location days w1) as [w2 Hw2];
      eauto.
    - right. left. unfold w1. rewrite http_requests_traced. simpl.
      by rewrite Nat.add_0_r.
    - right. right. unfold w1. rewrite http_requests_traced. simpl.
      by rewrite Nat.add_0_r. }
  destruct (getWeatherData_effects env location days w1)
    as (r & w2' & Hrun & _ & _ & Hwrites & Hrecords & Hgeneric).
  rewrite Hthrow in Hrun. injection Hrun as <- <-.
  rewrite Hthrow, (Hgeneric e eq_refl). exists w2. split; [reflexivity|].
  destruct (read_counts w (SelectRecordId rid (userId user)) eq_refl)
    as (_ & _ & Hw1).
  split; [unfold w1 in *; congruence|done].
Qed.

Lemma NoDup_fmap_inj {A B} (f : A -> B) (l : list A) x y :
  NoDup (f <$> l) -> x ∈ l -> y ∈ l -> f x = f y -> x = y.
Proof.
  induction l as [|a l IH]; intros Hnd Hx Hy Hf; [by apply elem_of_nil in Hx|].
  rewrite fmap_cons in Hnd. apply NoDup_cons in Hnd as [Hfresh Hnd].
  apply elem_of_cons in Hx as [->|Hx], Hy as [->|Hy]; auto.
  - destruct Hfresh. rewrite Hf. by apply list_elem_of_fmap_2.
  - destruct Hfresh. rewrite <- Hf. by apply list_elem_of_fmap_2.
Qed.




End PipelineClaims.

(** ** Claims about login, listing and export *)

Lemma ceil_div_bounds (a b : Z) :
  0 < b -> (ceil_div a b - 1) * b < a <= ceil_div a b * b.
Proof.
  intros Hb. unfold ceil_div.
  pose proof (Z.div_mod (- a) b ltac:(lia)) as Hdiv.
  pose proof (Z.mod_pos_bound (- a) b Hb) as Hmod. nia.
Qed.

Section ServiceClaims.

Context `{Platform} `{Deployment}.

(** What the login route answers to any body. *)
Lemma Wire_post_auth_login_run (attempt : Wire.Credentials) (w : World) :
  let login := Wire.param_text (Wire.j_username attempt) in
  Wire.post_auth_login attempt w
  = if negb (js_truthy (Wire.j_username attempt))
       || negb (js_truthy (Wire.j_password attempt))
    then (Ok (json 400 (BError "Username and password are required")), w)
    else
      (Ok match filter (λ u, username u = login \/ email u = login) (users w)
          with
          | [] => json 401 (BError "Invalid credentials")
          | user :: _ =>
              match as_text (Wire.j_password attempt) with
              | None => json 500 (BError "Internal server error")
              | Some password =>
                  if bcrypt_compare password (password_hash user)
                  then json 200
                         (BLogin "Login successful" (user_id user)
                            (username user) (email user)
                            (jwt_sign (clock w)
                               (mkJwtUser (user_id user) (username user))))
                  else json 401 (BError "Invalid credentials")
              end
          end,
       traced w [Query (SelectUserByLogin login)]).
Proof.
  intros login.
  cbv [Wire.post_auth_login try_catch bind select_user_by_login emit get_world
       ret traced Wire.bcrypt_compare_value settle throw].
  destruct (negb (js_truthy (Wire.j_username attempt))
            || negb (js_truthy (Wire.j_password attempt))); [reflexivity|].
  cbn [users]. fold login.
  destruct (filter _ (users w)) as [|user rest]; [reflexivity|].
  destruct (as_text (Wire.j_password attempt)) as [password|]; [|reflexivity].
  by destruct (bcrypt_compare password (password_hash user)).
Qed.



Lemma in_bigint_safe (z : Z) :
  0 <= z <= max_safe_integer -> in_bigint z = true.
Proof.
  unfold in_bigint, max_safe_integer.
  assert (2 ^ 53 = 9007199254740992) as -> by reflexivity.
  assert (2 ^ 63 = 9223372036854775808) as -> by reflexivity.
  intros Hz. apply andb_true_intro. split; apply Z.leb_le; lia.
Qed.

(** The rows [ORDER BY created_at DESC] hands out are the given ones,
    newest first. *)
Lemma order_by_created_at_desc_sorted w rs :
  order_by_created_at_desc w rs ≡ₚ rs /\
  StronglySorted newer_first (order_by_created_at_desc w rs).
Proof.
  unfold order_by_created_at_desc. split.
  - by rewrite merge_sort_Permutation, pg_tie_order_perm.
  - apply StronglySorted_merge_sort; apply _.
Qed.

(** What the list route answers, by its parameters. *)
Lemma GET_weather_records_run user q_page q_limit w :
  let p := or_default q_page 1 in
  let limit := or_default q_limit 10 in
  let offset := (p - 1) * limit in
  let mine := filter (owned_by (userId user)) (weather_records w) in
  let w1 := traced w [Query (SelectRecordsPage (userId user) limit offset)] in
  GET_weather_records user q_page q_limit w
  = if negb (in_bigint limit && in_bigint offset)
       || (offset <? 0) || (limit <? 0)
    then (Ok (json 500 (BError "Failed to fetch weather records")), w1)
    else (Ok (json 200
                (BPage (take (Z.to_nat limit)
                          (drop (Z.to_nat offset)
                             (order_by_created_at_desc w1 mine)))
                   p limit (Z.of_nat (length mine))
                   (ceil_div (Z.of_nat (length mine)) limit))),
          traced w [Query (SelectRecordsPage (userId user) limit offset);
                    Query (CountRecords (userId user))]).
Proof.
  intros p limit offset mine w1.
  cbv [GET_weather_records try_catch bind select_records_page count_records
       emit get_world ret throw].
  fold p limit. fold offset. fold w1.
  destruct (in_bigint limit && in_bigint offset); cbn [negb orb];
    [|reflexivity].
  destruct (offset <? 0); [reflexivity|].
  destruct (limit <? 0); cbn [orb]; [reflexivity|].
  unfold w1, traced.
  cbn [weather_records clock users weather_records_id_seq trace].
  by rewrite <- app_assoc.
Qed.

(** C7. With page p >= 1 and limit >= 1 (a missing or zero [page] reads 1,
    a missing or zero [limit] reads 10), and p * limit within the integers
    JS computes exactly, the list route answers 200 with the user's records
    newest first (rows created at the same instant in the order the
    database produces them), cut to the [limit] records from offset
    (p - 1) * limit, [total] the number of the user's records and [pages]
    the ceiling of total / limit.  For a user with 25 records and limit 10
    that is total 25, pages 3, and 5 records on page 3. *)
Theorem list_pagination (user : JwtUser) (q_page q_limit : JsInt) (w : World) :
  let p := or_default q_page 1 in
  let limit := or_default q_limit 10 in
  1 <= p -> 1 <= limit -> p * limit <= max_safe_integer ->
  let mine := filter (owned_by (userId user)) (weather_records w) in
  let total := Z.of_nat (length mine) in
  let pages := ceil_div total limit in
  exists newest_first shown,
    response_of (GET_weather_records user q_page q_limit w)
    = Ok (json 200 (BPage shown p limit total pages)) /\
    newest_first ≡ₚ mine /\
    StronglySorted newer_first newest_first /\
    shown
    = take (Z.to_nat limit) (drop (Z.to_nat ((p - 1) * limit)) newest_first) /\
    (pages - 1) * limit < total <= pages * limit /\
    Z.of_nat (length shown) = Z.max 0 (Z.min limit (total - (p - 1) * limit)) /\
    (total = 25 -> limit = 10 -> pages = 3 /\ (p = 3 -> length shown = 5%nat)).
Proof.
  intros p limit Hp Hlimit Hsafe mine total pages.
  rewrite GET_weather_records_run. cbv zeta. fold p limit mine.
  set (w1 := traced w _).
  destruct (order_by_created_at_desc_sorted w1 mine) as [Hperm Hsorted].
  rewrite !in_bigint_safe by nia.
  destruct (Z.ltb_spec ((p - 1) * limit) 0); [nia|].
  destruct (Z.ltb_spec limit 0); [lia|]. cbn [negb andb orb].
  eexists (order_by_created_at_desc w1 mine), _.
  split; [reflexivity|]. split; [exact Hperm|]. split; [exact Hsorted|].
  split; [reflexivity|].
  assert (Hlen : Z.of_nat (length (take (Z.to_nat limit)
                   (drop (Z.to_nat ((p - 1) * limit))
                      (order_by_created_at_desc w1 mine))))
                 = Z.max 0 (Z.min limit (total - (p - 1) * limit))).
  { rewrite length_take, length_drop, Hperm. unfold total. nia. }
  split; [apply ceil_div_bounds; lia|]. split; [exact Hlen|].
  intros Htotal Hten.
  pose proof (ceil_div_bounds total limit ltac:(lia)) as Hpages.
  fold pages in Hpages. split; [lia|]. intros Hthree. lia.
Qed.

(** When no two rows were created at the same instant there is one way to
    list them newest first. *)
Lemma newest_first_unique (l1 l2 : list WeatherRecord) :
  tie_free l1 -> l1 ≡ₚ l2 ->
  StronglySorted newer_first l1 -> StronglySorted newer_first l2 ->
  l1 = l2.
Proof.
  revert l2. induction l1 as [|x l1 IH]; intros l2 Hfree Hperm Hs1 Hs2.
  { by apply Permutation_nil_l in Hperm. }
  destruct l2 as [|y l2]; [by apply Permutation_nil_r in Hperm|].
  apply StronglySorted_inv in Hs1 as [Hs1 Hx], Hs2 as [Hs2 Hy].
  rewrite Forall_forall in Hx, Hy.
  assert (x = y) as <-.
  { assert (x ∈ y :: l2) as Hxin by (rewrite <- Hperm; left).
    assert (y ∈ x :: l1) as Hyin by (rewrite Hperm; left).
    apply elem_of_cons in Hxin as [?|Hxin]; [done|].
    apply elem_of_cons in Hyin as [?|Hyin]; [done|].
    specialize (Hx y Hyin). specialize (Hy x Hxin). unfold newer_first in Hx, Hy.
    apply (NoDup_fmap_inj created_at (x :: l1)); [done|left|by right|lia]. }
  f_equal. apply IH; [|by eapply Permutation_cons_inv|done..].
  unfold tie_free in *. rewrite fmap_cons in Hfree.
  by apply NoDup_cons in Hfree as [_ ?].
Qed.

Lemma order_by_created_at_desc_tie_free w w' rs :
  tie_free rs ->
  order_by_created_at_desc w rs = order_by_created_at_desc w' rs.
Proof.
  intros Hfree.
  destruct (order_by_created_at_desc_sorted w rs) as [Hperm Hsorted].
  destruct (order_by_created_at_desc_sorted w' rs) as [Hperm' Hsorted'].
  apply newest_first_unique; [|by rewrite Hperm, Hperm'|done..].
  unfold tie_free. by rewrite Hperm.
Qed.

(** C9. Two JSON exports by the same user, one right after the other,
    answer with the same bytes when no two of the user's records were
    created at the same instant (the order of such records is the
    database's to choose, at every query): the route changes no record,
    and its response lists the user's stored records, all of them and no
    other, newest first; any later export from a store with the same
    records of the user answers the same. *)
Theorem export_json_idempotent (user : JwtUser) (format : string) (w : World) :
  String_toLowerCase format = "json" ->
  let mine := filter (owned_by (userId user)) (weather_records w) in
  tie_free mine ->
  exists rs r1 w1 r2 w2,
    GET_export user format w = (Ok r1, w1) /\
    GET_export user format w1 = (Ok r2, w2) /\
    sent_body r1 = sent_body r2 /\
    r1 = r2 /\
    weather_records w1 = weather_records w /\
    body r1 = BRecords rs /\
    rs ≡ₚ mine /\
    StronglySorted newer_first rs /\
    (forall w',
       filter (owned_by (userId user)) (weather_records w') = mine ->
       response_of (GET_export user format w') = Ok r1).
Proof.
  intros Hjson mine Hfree.
  assert (forall w0,
            filter (owned_by (userId user)) (weather_records w0) = mine ->
            GET_export user format w0
            = (Ok (mkResponse 200
                     [("Content-Type", with_charset "application/json");
                      ("Content-Disposition",
                       "attachment; filename=weather_data.json")]
                     (BRecords (order_by_created_at_desc w mine))),
               traced w0 [Query (SelectRecordsAll (userId user))])) as Hrun.
  { intros w0 Hsame.
    cbv [GET_export try_catch bind select_records_all emit get_world ret].
    rewrite Hjson. cbn [String.eqb Ascii.eqb Bool.eqb weather_records].
    rewrite Hsame.
    by rewrite (order_by_created_at_desc_tie_free _ w mine Hfree). }
  destruct (order_by_created_at_desc_sorted w mine) as [Hperm Hsorted].
  eexists _, _, _, _, _.
  split; [by apply Hrun|]. split; [by apply Hrun|].
  split; [reflexivity|]. split; [reflexivity|]. split; [reflexivity|].
  split; [reflexivity|]. split; [exact Hperm|]. split; [exact Hsorted|].
  intros w' Hsame. by rewrite Hrun.
Qed.

End ServiceClaims.

(** ** The primary key is an invariant of the routes *)

Section Invariant.

Context `{Platform} `{Deployment} (env : Env).

Lemma primary_key_traced w es : primary_key w -> primary_key (traced w es).
Proof. done. Qed.

Lemma getWeatherData_traced location days w :
  exists es, world_after (getWeatherData env location days w) = traced w es.
Proof.
  rewrite getWeatherData_run. cbv zeta.
  repeat match goal with
         | |- context [if ?b then _ else _] => destruct b
         | |- context [match ?x with _ => _ end] => destruct x
         end; eexists; reflexivity.
Qed.

Lemma getLocationDetails_traced location w :
  exists es, world_after (getLocationDetails env location w) = traced w es.
Proof.
  rewrite getLocationDetails_run. cbv zeta.
  destruct (negb _); eexists; reflexivity.
Qed.

Lemma insert_record_primary_key uid loc sd ed data maps w :
  primary_key w ->
  primary_key (world_after (insert_record uid loc sd ed data maps w)).
Proof.
  intros [Hnodup Hbelow].
  cbv [insert_record bind emit get_world set_records ret throw world_after].
  destruct sd as [sd|], ed as [ed|]; cbn [snd]; try (by split).
  destruct (pg_rejects_insert _ _ _ _ _ _ _) as [[msg drawn]|]; cbn [snd].
  { split; cbn [weather_records weather_records_id_seq]; [done|].
    destruct drawn; [|done].
    eapply Forall_impl; [exact Hbelow|]. intros r Hr. simpl in *. lia. }
  split; cbn [weather_records weather_records_id_seq].
  - rewrite fmap_app. apply NoDup_app. split; [done|]. split.
    + intros x Hx [->|[]%elem_of_nil]%elem_of_cons.
      apply list_elem_of_fmap in Hx as (r & Hid & Hr).
      rewrite Forall_forall in Hbelow. specialize (Hbelow r Hr).
      cbn [id] in Hid. lia.
    + apply NoDup_singleton.
  - apply Forall_app. split.
    + eapply Forall_impl; [exact Hbelow|]. intros r Hr. simpl in *. lia.
    + repeat constructor. simpl. lia.
Qed.

Lemma update_record_primary_key loc sd ed data maps rid uid w :
  primary_key w ->
  primary_key (world_after (update_record loc sd ed data maps rid uid w)).
Proof.
  intros [Hnodup Hbelow].
  cbv [update_record bind emit get_world set_records ret throw world_after].
  destruct sd as [sd|], ed as [ed|]; cbn [snd weather_records];
    try (destruct (decide _); by split).
  destruct (pg_rejects_update _ _ _ _ _ _) as [msg|]; cbn [snd];
    [by split|].
  split; cbn [weather_records weather_records_id_seq].
  - rewrite <- list_fmap_compose.
    erewrite list_fmap_ext; [exact Hnodup|].
    intros i r _. simpl. by destruct (decide _).
  - apply Forall_fmap. eapply Forall_impl; [exact Hbelow|].
    intros r Hr. simpl. by destruct (decide _).
Qed.

Lemma NoDup_fmap_filter {A B} (f : A -> B) (P : A -> Prop)
    `{!forall x, Decision (P x)} l :
  NoDup (f <$> l) -> NoDup (f <$> filter P l).
Proof.
  induction l as [|x l IH]; [done|].
  rewrite fmap_cons, filter_cons. intros [Hfresh Hnd]%NoDup_cons.
  destruct (decide (P x)); [|auto].
  rewrite fmap_cons. apply NoDup_cons. split; [|auto].
  intros (y & Hy & Hin)%list_elem_of_fmap.
  apply list_elem_of_filter in Hin as [_ Hin].
  apply Hfresh. rewrite Hy. by apply list_elem_of_fmap_2.
Qed.

Lemma delete_record_primary_key rid uid w :
  primary_key w -> primary_key (world_after (delete_record rid uid w)).
Proof.
  intros [Hnodup Hbelow].
  cbv [delete_record bind emit get_world set_records ret world_after].
  cbn [snd weather_records].
  split; cbn [weather_records weather_records_id_seq].
  - by apply NoDup_fmap_filter.
  - rewrite Forall_forall in Hbelow. apply Forall_forall.
    intros r [_ Hr]%list_elem_of_filter. by apply Hbelow.
Qed.

(** Ids stay unique, and below the sequence, through every route that
    writes. *)
Lemma routes_keep_primary_key user rid body w :
  primary_key w ->
  primary_key (world_after (POST_weather_records env user body w)) /\
  primary_key (world_after (PUT_weather_record env user rid body w)) /\
  primary_key (world_after (DELETE_weather_record user rid w)).
Proof.
  intros Hpk. unfold POST_weather_records, PUT_weather_record.
  rewrite !(route_run _ _ _ _ (validateWeatherData_run user rid body w)).
  split; [|split].
  - destruct (first_failure create_checks user rid body w); [done|].
    rewrite post_weather_records_run. cbv zeta.
    destruct (getWeatherData_traced (js_string (b_location body))
                (daysDiff (new_Date (b_startDate body))
                   (new_Date (b_endDate body))) w) as [es Hw1].
    destruct (getWeatherData _ _ _ w) as [[weatherData|e] w1];
      cbn [world_after snd] in Hw1; subst w1; [|done].
    destruct (getLocationDetails_traced (js_string (b_location body))
                (traced w es)) as [es' Hw2].
    destruct (getLocationDetails _ _ (traced w es)) as [[mapsData|e] w2];
      cbn [world_after snd] in Hw2; subst w2; [|done].
    pose proof (insert_record_primary_key (userId user)
                  (wd_location weatherData) (b_startDate body) (b_endDate body)
                  weatherData mapsData (traced (traced w es) es')
                  ltac:(done)) as Hins.
    by destruct (insert_record _ _ _ _ _ _ _) as [[result|e] w3].
  - destruct (first_failure create_checks user rid body w); [done|].
    rewrite put_weather_record_run. cbv zeta.
    destruct (decide _); [done|].
    destruct (getWeatherData_traced (js_string (b_location body))
                (daysDiff (new_Date (b_startDate body))
                   (new_Date (b_endDate body)))
                (traced w [Query (SelectRecordId rid (userId user))]))
      as [es Hw1].
    destruct (getWeatherData _ _ _ _) as [[weatherData|e] w1];
      cbn [world_after snd] in Hw1; subst w1; [|done].
    destruct (getLocationDetails_traced (js_string (b_location body))
                (traced (traced w [Query (SelectRecordId rid (userId user))])
                   es)) as [es' Hw2].
    destruct (getLocationDetails _ _ _) as [[mapsData|e] w2];
      cbn [world_after snd] in Hw2; subst w2; [|done].
    pose proof (update_record_primary_key (wd_location weatherData)
                  (b_startDate body) (b_endDate body) weatherData mapsData rid
                  (userId user)
                  (traced (traced (traced w
                     [Query (SelectRecordId rid (userId user))]) es) es')
                  ltac:(done)) as Hupd.
    by destruct (update_record _ _ _ _ _ _ _ _) as [[result|e] w3].
  - pose proof (delete_record_primary_key rid (userId user) w Hpk) as Hdel.
    cbv [DELETE_weather_record try_catch bind ret world_after] in *.
    destruct (delete_record rid (userId user) w) as [[[|? ?]|e] w1]; done.
Qed.

End Invariant.

(** ** Worked examples *)

Section Examples.

#[local] Existing Instance Fixture.platform.
#[local] Existing Instance AuthFixture.auth.
#[local] Existing Instance DeploymentFixture.deployment.




Lemma Fixture_world1_primary_key : primary_key Fixture.world1.
Proof.
  split; simpl.
  - apply NoDup_singleton.
  - repeat constructor.
Defined.

Lemma update_gateway_failure_keeps_record_witness :
  exists w',
    PUT_weather_record Fixture.env_nowhere Fixture.as_alice 1
      Fixture.paris_body Fixture.world1
    = (Ok (json 500 (BError "Failed to fetch weather data")), w') /\
    store_writes (trace w') = store_writes (trace Fixture.world1) /\
    weather_records w' = weather_records Fixture.world1.
Proof.
  apply (update_gateway_failure_keeps_record Fixture.env_nowhere
           Fixture.as_alice 1 Fixture.paris_body Fixture.world1).
  - reflexivity.
  - left. split; reflexivity.
  - right. left. reflexivity.
Defined.

(** C5 as stated fails: Alice updates her record 1 while OpenWeather
    rejects the third request of the run, the geocoding request of
    [getLocationDetails].  A gateway call has failed, yet the update is
    answered 200 and written. *)
Lemma update_written_despite_geocoder_failure :
  ~ (forall (env : Env) (user : JwtUser) (rid : Z) (body : RecordBody)
            (w : World) (resp : Response) (w' : World),
       PUT_weather_record env user rid body w = (Ok resp, w') ->
       (exists n e,
          (http_requests (trace w) <= n < http_requests (trace w'))%nat /\
          geo_direct env n (js_string (b_location body))
            (default EmptyString (OPENWEATHER_API_KEY env)) = inl e) ->
       status resp <> 200 /\
       store_writes (trace w') = store_writes (trace w) /\
       maps_data <$> weather_records w' = maps_data <$> weather_records w).
Proof.
  intros Hclaim.
  destruct (PUT_weather_record Fixture.env_flaky Fixture.as_alice 1
              Fixture.paris_body Fixture.world1) as [[resp|e] w'] eqn:Hrun;
    [|vm_compute in Hrun; discriminate Hrun].
  pose proof Hrun as Hval. vm_compute in Hval.
  destruct (Hclaim _ _ _ _ _ _ _ Hrun) as (Hstatus & Hwrites & Hmaps).
  - exists 2%nat, Fixture.bad_gateway.
    injection Hval as <- <-. split; [vm_compute; lia|reflexivity].
  - injection Hval as <- <-. vm_compute in Hmaps. discriminate Hmaps.
Qed.





Lemma list_pagination_witness :
  exists shown,
    response_of (GET_weather_records Fixture.as_alice (Some 3) (Some 10)
                   Fixture.world25)
    = Ok (json 200 (BPage shown 3 10 25 3)) /\
    length shown = 5%nat.
Proof.
  destruct (list_pagination Fixture.as_alice (Some 3) (Some 10)
              Fixture.world25)
    as (newest_first & shown & Hresp & _ & _ & _ & _ & _ & Hscenario);
    [simpl; lia|simpl; lia|by vm_compute|].
  destruct Hscenario as [Hpages Hshown]; [reflexivity|reflexivity|].
  exists shown. split; [|apply Hshown; reflexivity].
  rewrite Hresp. reflexivity.
Defined.

Lemma export_json_idempotent_witness :
  exists r1 w1 r2 w2,
    GET_export Fixture.as_alice "JSON" Fixture.world25 = (Ok r1, w1) /\
    GET_export Fixture.as_alice "JSON" w1 = (Ok r2, w2) /\
    sent_body r1 = sent_body r2.
Proof.
  destruct (export_json_idempotent Fixture.as_alice "JSON" Fixture.world25)
    as (rs & r1 & w1 & r2 & w2 & Hfirst & Hsecond & Hbytes & _);
    [reflexivity| |].
  - apply (bool_decide_unpack _). vm_compute. exact I.
  - exists r1, w1, r2, w2. auto.
Defined.

(** Where the gateway claims stop.  A negative day count, which only
    [?days=-N] on the forecast route can produce, makes [slice] count from
    the back: of 40 entries, 32 are returned for [days = -1]. *)
Remark negative_days_count_from_the_back :
  exists data w',
    getWeatherData Fixture.env_up "Paris" (Some (-1)) Fixture.fresh_world
    = (Ok data, w') /\
    length (wd_weather_data data) = 32%nat.
Proof. eexists _, _. split; reflexivity. Qed.

(** An [:id] beyond the range of [integer] fails in the database: the
    update of a valid body is answered 500 with the database's message,
    not 404. *)
Remark update_of_id_out_of_range :
  response_of (Wire.PUT_weather_record Fixture.env_up Fixture.as_alice
                 "2147483648" (Wire.of_fields Fixture.paris_body)
                 Fixture.world1)
  = Ok (json 500
          (BError "value 2147483648 is out of range for type integer")).
Proof. vm_compute. reflexivity. Qed.

End Examples.

(** ** Rows created at the same instant *)

Section TiedRows.

#[local] Existing Instance Fixture.platform.
#[local] Existing Instance DeploymentFixture.alternating.

(** Where the claims about the order stop.  [ORDER BY created_at DESC]
    leaves the order of rows with equal [created_at] to PostgreSQL, query
    by query: on a server that alternates, two exports of the same two
    rows, one after the other, differ, and page 1 and page 2 of the list
    show the same row. *)
Remark tied_rows_come_in_any_order :
  (exists r1 w1 r2 w2,
     GET_export Fixture.as_alice "json" DeploymentFixture.world_tied
     = (Ok r1, w1) /\
     GET_export Fixture.as_alice "json" w1 = (Ok r2, w2) /\
     sent_body r1 <> sent_body r2) /\
  (exists r,
     records_sent (GET_weather_records Fixture.as_alice (Some 1) (Some 1)
                     DeploymentFixture.world_tied) = [r] /\
     exists w1,
       world_after (GET_weather_records Fixture.as_alice (Some 1) (Some 1)
                      DeploymentFixture.world_tied) = w1 /\
       records_sent (GET_weather_records Fixture.as_alice (Some 2) (Some 1) w1)
       = [r]).
Proof.
  split.
  - eexists _, _, _, _. split; [vm_compute; reflexivity|].
    split; [vm_compute; reflexivity|]. vm_compute. discriminate.
  - eexists. split; [vm_compute; reflexivity|].
    eexists. split; [reflexivity|]. vm_compute. reflexivity.
Qed.

End TiedRows.

(** * Further properties of the server *)

(** ** The shape of a gateway run *)

Lemma http_only_length es :
  Forall (λ e, is_http e = true) es -> http_requests es = length es.
Proof.
  unfold http_requests, count.
  induction 1 as [|e es He _ IH]; [done|]. simpl. rewrite He. simpl. lia.
Qed.

Lemma count_call_cons p e es :
  p e = false -> count p (e :: es) = count p es.
Proof. intros Hp. rewrite count_cons, Hp. done. Qed.

Section GatewayShape.

Context (env : Env).

Lemma getWeatherData_shape location days w :
  exists r es,
    getWeatherData env location days w
    = (r, traced w (CallGetWeatherData location days :: es)) /\
    Forall (λ e, is_http e = true) es /\
    (length es <= 2)%nat /\
    (truthy (OPENWEATHER_API_KEY env) = false -> es = []) /\
    (forall d, r = Ok d ->
       length es = 2%nat /\ truthy (OPENWEATHER_API_KEY env) = true) /\
    (forall e, r = Throw e -> e = generic_failure).
Proof.
  rewrite getWeatherData_run. cbv zeta.
  destruct (truthy (OPENWEATHER_API_KEY env)); cbn [negb].
  - repeat match goal with
           | |- context [match ?x with _ => _ end] => destruct x
           end;
      eexists _, _; (split; [reflexivity|]);
      (split; [repeat constructor|]); simpl;
      repeat split; try lia; try congruence; try discriminate.
  - eexists _, []. split; [reflexivity|]. split; [constructor|]. simpl.
    repeat split; try lia; try congruence; try discriminate.
Qed.

Lemma getLocationDetails_shape location w :
  exists d es,
    getLocationDetails env location w
    = (Ok d, traced w (CallGetLocationDetails location :: es)) /\
    Forall (λ e, is_http e = true) es /\
    (length es <= 1)%nat /\
    (truthy (OPENWEATHER_API_KEY env) = true -> length es = 1%nat) /\
    (truthy (OPENWEATHER_API_KEY env) = false ->
     es = [] /\ d = basic_location location).
Proof.
  rewrite getLocationDetails_run. cbv zeta.
  destruct (truthy (OPENWEATHER_API_KEY env)); cbn [negb];
    eexists _, _; (split; [reflexivity|]);
    (split; [repeat constructor|]); simpl;
    repeat split; try lia; try congruence; try discriminate.
Qed.

End GatewayShape.

(** The counters after a gateway call followed by its HTTP requests. *)
Lemma counts_after_call w c es :
  is_http c = false -> is_write_event c = false ->
  Forall (λ e, is_http e = true) es ->
  let w' := traced w (c :: es) in
  forecast_calls (trace w')
  = (forecast_calls (trace w) + if is_forecast_call c then 1 else 0)%nat /\
  geocode_calls (trace w')
  = (geocode_calls (trace w) + if is_geocode_call c then 1 else 0)%nat /\
  store_writes (trace w') = store_writes (trace w) /\
  http_requests (trace w') = (http_requests (trace w) + length es)%nat.
Proof.
  intros Hc Hw Hes w'. subst w'.
  pose proof (http_only_length es Hes) as Hlen.
  apply http_only_counts in Hes as (Hf & Hg & Hs).
  unfold forecast_calls, geocode_calls, store_writes, http_requests in *.
  rewrite !count_traced, !count_cons, Hf, Hg, Hs, Hlen, Hc, Hw. lia.
Qed.

(** ** Creating a record *)

Section Create.

Context `{Platform} `{Deployment} (env : Env).

Lemma validated_body user rid body w :
  first_failure create_checks user rid body w = None ->
  exists loc sd ed,
    b_location body = Some loc /\ b_startDate body = Some sd /\
    b_endDate body = Some ed.
Proof.
  intros Hnone.
  pose proof (List.find_none _ _ Hnone) as Hall.
  assert (Hl := Hall LocationLength ltac:(simpl; tauto)).
  assert (Hs := Hall StartWellFormed ltac:(simpl; tauto)).
  assert (He := Hall EndWellFormed ltac:(simpl; tauto)).
  apply negb_false_iff in Hl, Hs, He. cbn [check_passes] in Hl, Hs, He.
  apply andb_true_iff in Hl as [Hl _], Hs as [Hs _], He as [He _].
  destruct (b_location body), (b_startDate body), (b_endDate body);
    try discriminate. by eexists _, _, _.
Qed.

(** The ways a create of a well-typed body can go. *)
Lemma POST_weather_records_cases user body w :
  let uid := userId user in
  let loc := js_string (b_location body) in
  let days :=
    daysDiff (new_Date (b_startDate body)) (new_Date (b_endDate body)) in
  (exists c,
     first_failure create_checks user 0 body w = Some c /\
     POST_weather_records env user body w = (Ok (check_error c), w)) \/
  (exists es,
     first_failure create_checks user 0 body w = None /\
     Forall (λ e, is_http e = true) es /\ (length es <= 2)%nat /\
     POST_weather_records env user body w
     = (Ok (json 500 (BError "Failed to fetch weather data")),
        traced w (CallGetWeatherData loc days :: es))) \/
  (exists data maps sd ed es1 es2,
     first_failure create_checks user 0 body w = None /\
     b_startDate body = Some sd /\ b_endDate body = Some ed /\
     Forall (λ e, is_http e = true) es1 /\ length es1 = 2%nat /\
     Forall (λ e, is_http e = true) es2 /\ length es2 = 1%nat /\
     getWeatherData env loc days w
     = (Ok data, traced w (CallGetWeatherData loc days :: es1)) /\
     getLocationDetails env loc (traced w (CallGetWeatherData loc days :: es1))
     = (Ok maps,
        traced (traced w (CallGetWeatherData loc days :: es1))
          (CallGetLocationDetails loc :: es2)) /\
     let r := mkWeatherRecord (weather_records_id_seq w) uid
                (wd_location data) sd ed data maps (clock w) (clock w) in
     let sent := trace w ++ (CallGetWeatherData loc days :: es1)
                   ++ (CallGetLocationDetails loc :: es2)
                   ++ [Query (InsertRecord uid)] in
     (exists msg drawn,
        POST_weather_records env user body w
        = (Ok (json 500 (BError msg)),
           mkWorld (clock w) (users w) (weather_records w)
             (if drawn : bool then weather_records_id_seq w + 1
              else weather_records_id_seq w) sent)) \/
     POST_weather_records env user body w
     = (Ok (json 201
              (BSaved "Weather record created successfully"
                 (Some (mkReturned (id r) (location r) (pg_date_instant sd)
                          (pg_date_instant ed) (clock w)))
                 data maps)),
        mkWorld (clock w) (users w) (weather_records w ++ [r])
          (weather_records_id_seq w + 1) sent)).
Proof.
  intros uid loc days. unfold POST_weather_records.
  rewrite (route_run _ _ _ _ (validateWeatherData_run user 0 body w)).
  destruct (first_failure create_checks user 0 body w) as [c|] eqn:Hfirst;
    [left; eauto|right].
  rewrite post_weather_records_run. cbv zeta. fold loc days.
  destruct (getWeatherData_shape env loc days w)
    as (r & es1 & Hrun & Hes1 & Hlen1 & _ & Hok & Hthrow).
  rewrite Hrun. destruct r as [data|e].
  - right. destruct (Hok data eq_refl) as [Hlen Hkey].
    destruct (getLocationDetails_shape env loc
                (traced w (CallGetWeatherData loc days :: es1)))
      as (maps & es2 & Hrun2 & Hes2 & _ & Hlen2 & _).
    rewrite Hrun2.
    destruct (validated_body _ _ _ _ Hfirst) as (l & sd & ed & _ & Hsd & Hed).
    exists data, maps, sd, ed, es1, es2. rewrite Hsd, Hed.
    repeat (split; [by auto|]).
    cbv [insert_record bind emit get_world set_records ret throw traced].
    cbn [weather_records weather_records_id_seq clock users trace].
    destruct (pg_rejects_insert _ _ _ _ _ _ _) as [[msg drawn]|].
    + left. exists msg, drawn. simpl. by rewrite <- !app_assoc.
    + right. simpl. by rewrite <- !app_assoc.
  - left. exists es1. rewrite (Hthrow e eq_refl). repeat (split; [done|]).
    reflexivity.
Qed.

(** The counters after the two gateway calls of a write and its
    statement. *)
Lemma counts_after_write w c1 es1 c2 es2 q :
  is_forecast_call c1 = true -> is_geocode_call c2 = true ->
  Forall (λ e, is_http e = true) es1 -> length es1 = 2%nat ->
  Forall (λ e, is_http e = true) es2 -> length es2 = 1%nat ->
  is_write q = true ->
  let t := trace w ++ (c1 :: es1) ++ (c2 :: es2) ++ [Query q] in
  store_writes t = S (store_writes (trace w)) /\
  forecast_calls t = S (forecast_calls (trace w)) /\
  geocode_calls t = S (geocode_calls (trace w)) /\
  http_requests t = (http_requests (trace w) + 3)%nat.
Proof.
  intros Hc1 Hc2 Hes1 Hlen1 Hes2 Hlen2 Hq t. subst t.
  pose proof (http_only_length _ Hes1) as Hh1.
  pose proof (http_only_length _ Hes2) as Hh2.
  apply http_only_counts in Hes1 as (Hf1 & Hg1 & Hs1).
  apply http_only_counts in Hes2 as (Hf2 & Hg2 & Hs2).
  unfold forecast_calls, geocode_calls, store_writes, http_requests in *.
  rewrite !count_app, !count_cons, !count_nil, Hf1, Hg1, Hs1, Hf2, Hg2, Hs2,
    Hh1, Hh2, Hlen1, Hlen2.
  destruct c1; try discriminate. destruct c2; try discriminate.
  simpl. rewrite Hq. simpl. lia.
Qed.

Lemma fresh_id_selects_new (rs : list WeatherRecord) (r : WeatherRecord) :
  Forall (λ x, id x < id r) rs ->
  filter (is_record (id r) (rec_user_id r)) (rs ++ [r]) = [r].
Proof.
  intros Hbelow. rewrite filter_app.
  replace (filter _ rs) with (@nil WeatherRecord).
  - simpl. rewrite filter_cons_True by done. done.
  - symmetry. apply filter_nil_Forall. eapply Forall_impl; [exact Hbelow|].
    intros x Hx [Hid _]. simpl in Hx. lia.
Qed.

(** X1. A create, whatever its body, goes one of five ways.  It is answered
    400 and changes nothing.  Or its location is truthy and no string: the
    validation throws, the answer is 500 "Something went wrong!" and
    nothing changes.  Or the forecast gateway failed: 500 "Failed to fetch
    weather data", nothing written.  Or PostgreSQL refused the INSERT: 500
    with the message of the database, after one forecast-gateway call, one
    geocode-gateway call, three HTTP requests and that one statement, the
    table as it was.  Or it is answered 201 after the same calls and
    requests, and the one INSERT has added one row.  No way touches the
    accounts. *)
Theorem create_is_all_or_nothing (user : JwtUser) (sub : Wire.Submission)
    (w : World) :
  exists resp w',
    Wire.POST_weather_records env user sub w = (Ok resp, w') /\
    users w' = users w /\
    ((status resp = 400 /\ w' = w) \/
     (no_string (Wire.j_location sub) = true /\
      resp = something_went_wrong /\ w' = w) \/
     (resp = json 500 (BError "Failed to fetch weather data") /\
      weather_records w' = weather_records w /\
      store_writes (trace w') = store_writes (trace w) /\
      forecast_calls (trace w') = S (forecast_calls (trace w)) /\
      geocode_calls (trace w') = geocode_calls (trace w) /\
      (http_requests (trace w') <= http_requests (trace w) + 2)%nat) \/
     ((exists msg, resp = json 500 (BError msg)) /\
      weather_records w' = weather_records w /\
      store_writes (trace w') = S (store_writes (trace w)) /\
      forecast_calls (trace w') = S (forecast_calls (trace w)) /\
      geocode_calls (trace w') = S (geocode_calls (trace w)) /\
      http_requests (trace w') = (http_requests (trace w) + 3)%nat) \/
     (status resp = 201 /\
      (exists r, weather_records w' = weather_records w ++ [r]) /\
      store_writes (trace w') = S (store_writes (trace w)) /\
      forecast_calls (trace w') = S (forecast_calls (trace w)) /\
      geocode_calls (trace w') = S (geocode_calls (trace w)) /\
      http_requests (trace w') = (http_requests (trace w) + 3)%nat)).
Proof.
  rewrite Wire_POST_weather_records_run.
  destruct (no_string (Wire.j_location sub)) eqn:Htyped.
  { eexists _, _. split; [reflexivity|]. split; [done|]. right. by left. }
  set (body := Wire.text_fields sub).
  destruct (POST_weather_records_cases user body w)
    as [(c & Hfirst & ->)|[(es & Hfirst & Hes & Hlen & ->)|
        (data & maps & sd & ed & es1 & es2 & Hfirst & Hsd & Hed & Hes1 & Hlen1
         & Hes2 & Hlen2 & _ & _ & Hinsert)]].
  - eexists _, _. split; [reflexivity|]. split; [done|]. left. split; [|done].
    apply first_failure_fails in Hfirst as [Hin _].
    unfold create_checks in Hin. simpl in Hin.
    destruct c; try reflexivity. intuition discriminate.
  - eexists _, _. split; [reflexivity|]. split; [done|]. right. right. left.
    destruct (counts_after_call w
                (CallGetWeatherData (js_string (b_location body))
                   (daysDiff (new_Date (b_startDate body))
                      (new_Date (b_endDate body)))) es eq_refl eq_refl Hes)
      as (Hf & Hg & Hs & Hh).
    cbn [is_forecast_call is_geocode_call] in Hf, Hg.
    rewrite Hf, Hg, Hs, Hh. repeat split; try done; lia.
  - cbv zeta in Hinsert.
    pose proof (counts_after_write w
                  (CallGetWeatherData (js_string (b_location body))
                     (daysDiff (new_Date (b_startDate body))
                        (new_Date (b_endDate body)))) es1
                  (CallGetLocationDetails (js_string (b_location body))) es2
                  (InsertRecord (userId user))
                  eq_refl eq_refl Hes1 Hlen1 Hes2 Hlen2 eq_refl) as Hcounts.
    cbv zeta in Hcounts.
    destruct Hinsert as [(msg & drawn & ->)| ->];
      eexists _, _; (split; [reflexivity|]); (split; [done|]);
      do 3 right; [left|right]; cbn [status json weather_records trace];
      (split; [by eauto|]); (split; [by eauto|]); exact Hcounts.
Qed.

Lemma as_text_Some (v : option Json) (s : string) :
  as_text v = Some s -> v = Some (JString s).
Proof. destruct v as [[]|]; simpl; intros [= <-]; done. Qed.

(** A create that is answered 201 came with three strings. *)
Lemma created_from_strings user sub w resp w' :
  Wire.POST_weather_records env user sub w = (Ok resp, w') ->
  status resp = 201 ->
  POST_weather_records env user (Wire.text_fields sub) w = (Ok resp, w') /\
  exists loc sd ed,
    Wire.j_location sub = Some (JString loc) /\
    Wire.j_startDate sub = Some (JString sd) /\
    Wire.j_endDate sub = Some (JString ed).
Proof.
  rewrite Wire_POST_weather_records_run. intros Hrun H201.
  destruct (no_string (Wire.j_location sub));
    [injection Hrun as <- <-; discriminate|].
  split; [done|].
  destruct (POST_weather_records_cases user (Wire.text_fields sub) w)
    as [(c & _ & Hc)|[(es & Hfirst & _)|
        (data & maps & sd & ed & es1 & es2 & Hfirst & _)]].
  { rewrite Hc in Hrun. injection Hrun as <- <-. destruct c; discriminate. }
  all: destruct (validated_body _ _ _ _ Hfirst) as (l & s & e & Hl & Hs & He);
    cbn [Wire.text_fields b_location b_startDate b_endDate] in Hl, Hs, He;
    apply as_text_Some in Hl, Hs, He; by exists l, s, e.
Qed.

(** X2. A create that answers 201 came with three strings, has stored the
    gateway's output for the submitted location and day span, with the
    submitted dates, under a fresh id, and the owner reads that row back
    under every text PostgreSQL reads as that id.  The dates of the
    response are the instants the driver makes of the stored dates. *)
Theorem created_record_is_stored (user : JwtUser) (sub : Wire.Submission)
    (w w' : World) (resp : Response) :
  primary_key w ->
  Wire.POST_weather_records env user sub w = (Ok resp, w') ->
  status resp = 201 ->
  exists data maps loc sd ed,
    let r := mkWeatherRecord (weather_records_id_seq w) (userId user)
               (wd_location data) sd ed data maps (clock w) (clock w) in
    Wire.j_location sub = Some (JString loc) /\
    Wire.j_startDate sub = Some (JString sd) /\
    Wire.j_endDate sub = Some (JString ed) /\
    response_of (getWeatherData env loc
                   (daysDiff (new_Date (Some sd)) (new_Date (Some ed))) w)
    = Ok data /\
    body resp
    = BSaved "Weather record created successfully"
        (Some (mkReturned (id r) (location r) (pg_date_instant sd)
                 (pg_date_instant ed) (created_at r))) data maps /\
    weather_records w' = weather_records w ++ [r] /\
    (forall param,
       pg_int4_in param = inr (id r) ->
       response_of (Wire.GET_weather_record user param w')
       = Ok (json 200 (BRecord r))) /\
    primary_key w'.
Proof.
  intros [Hnodup Hbelow] Hwire H201.
  destruct (created_from_strings _ _ _ _ _ Hwire H201)
    as (Hrun & loc & sd0 & ed0 & Hloc & Hsd0 & Hed0).
  set (req := Wire.text_fields sub) in *.
  assert (b_location req = Some loc /\ b_startDate req = Some sd0 /\
          b_endDate req = Some ed0) as (Hbl & Hbs & Hbe).
  { unfold req, Wire.text_fields. by rewrite Hloc, Hsd0, Hed0. }
  destruct (POST_weather_records_cases user req w)
    as [(c & Hfirst & Hc)|[(es & Hfirst & Hes & Hlen & H500)|
        (data & maps & sd & ed & es1 & es2 & Hfirst & Hsd & Hed & Hes1 & Hlen1
         & Hes2 & Hlen2 & Hdata & _ & Hinsert)]].
  - rewrite Hc in Hrun. injection Hrun as <- <-. destruct c; discriminate.
  - rewrite H500 in Hrun. injection Hrun as <- <-. discriminate.
  - cbv zeta in Hinsert.
    destruct Hinsert as [(msg & drawn & Hrefused)|Hcreated].
    { rewrite Hrefused in Hrun. injection Hrun as <- <-. discriminate. }
    rewrite Hcreated in Hrun. injection Hrun as <- <-.
    rewrite Hbs in Hsd. rewrite Hbe in Hed.
    injection Hsd as ->. injection Hed as ->.
    rewrite Hbl, Hbs, Hbe in Hdata. cbn [js_string default from_option] in Hdata.
    unfold Datatypes.id in Hdata.
    exists data, maps, loc, sd, ed. cbv zeta. cbn [body json weather_records].
    split; [done|]. split; [done|]. split; [done|].
    split; [by rewrite Hdata|]. split; [done|]. split; [done|]. split.
    + intros param Hparam. unfold Wire.GET_weather_record. rewrite Hparam.
      cbv [GET_weather_record try_catch bind select_record emit get_world ret
           response_of].
      cbn [fst weather_records id].
      set (r := mkWeatherRecord _ _ _ _ _ _ _ _ _).
      change (userId user) with (rec_user_id r).
      change (weather_records_id_seq w) with (id r).
      rewrite fresh_id_selects_new; [done|]. exact Hbelow.
    + split; cbn [weather_records weather_records_id_seq].
      * rewrite fmap_app. apply NoDup_app. split; [done|]. split.
        -- intros x Hx [->|[]%elem_of_nil]%elem_of_cons.
           apply list_elem_of_fmap in Hx as (r & Hid & Hr).
           rewrite Forall_forall in Hbelow. specialize (Hbelow r Hr).
           cbn [id] in Hid. lia.
        -- apply NoDup_singleton.
      * apply Forall_app. split.
        -- eapply Forall_impl; [exact Hbelow|]. intros r Hr. simpl in *. lia.
        -- repeat constructor. simpl. lia.
Qed.

End Create.

(** ** Reading, updating and deleting an own record *)

Lemma owner_selects_record (rs : list WeatherRecord) (r : WeatherRecord) :
  NoDup (id <$> rs) -> r ∈ rs ->
  filter (is_record (id r) (rec_user_id r)) rs = [r].
Proof.
  induction rs as [|a rs IH]; intros Hnodup Hr; [by apply elem_of_nil in Hr|].
  rewrite fmap_cons in Hnodup. apply NoDup_cons in Hnodup as [Hfresh Hnodup].
  apply elem_of_cons in Hr as [->|Hr].
  - rewrite filter_cons_True by done. f_equal.
    apply filter_nil_Forall, Forall_forall. intros x Hx [Hid _].
    apply Hfresh. rewrite <- Hid. by apply list_elem_of_fmap_2.
  - rewrite filter_cons_False; [auto|]. intros [Hid _].
    apply Hfresh. rewrite Hid. by apply list_elem_of_fmap_2.
Qed.

Lemma same_id_same_record (rs : list WeatherRecord) (x y : WeatherRecord) :
  NoDup (id <$> rs) -> x ∈ rs -> y ∈ rs -> id x = id y -> x = y.
Proof. apply NoDup_fmap_inj. Qed.

Section OwnRecord.

Context `{Platform} `{Deployment} (env : Env).

(** X3. The owner reads a stored record back by its id, as it is stored, and
    the read changes no table. *)
Theorem owner_reads_record (user : JwtUser) (r : WeatherRecord) (w : World) :
  primary_key w ->
  r ∈ weather_records w ->
  rec_user_id r = userId user ->
  exists w',
    GET_weather_record user (id r) w = (Ok (json 200 (BRecord r)), w') /\
    weather_records w' = weather_records w /\ users w' = users w.
Proof.
  intros [Hnodup _] Hr Howner.
  cbv [GET_weather_record try_catch bind select_record emit get_world ret].
  cbn [weather_records]. rewrite <- Howner, owner_selects_record by done.
  eauto.
Qed.

(** X4. The owner's DELETE answers 200 and removes that row and no other;
    after it the id is gone: GET and a second DELETE answer 404. *)
Theorem owner_deletes_record (user : JwtUser) (r : WeatherRecord) (w : World) :
  primary_key w ->
  r ∈ weather_records w ->
  rec_user_id r = userId user ->
  exists w',
    DELETE_weather_record user (id r) w
    = (Ok (json 200 (BMessage "Weather record deleted successfully")), w') /\
    (forall x, x ∈ weather_records w' <-> x ∈ weather_records w /\ x <> r) /\
    length (weather_records w) = S (length (weather_records w')) /\
    users w' = users w /\
    response_of (GET_weather_record user (id r) w')
    = Ok (json 404 (BError "Weather record not found")) /\
    response_of (DELETE_weather_record user (id r) w')
    = Ok (json 404 (BError "Weather record not found")).
Proof.
  intros [Hnodup _] Hr Howner.
  pose proof (owner_selects_record _ r Hnodup Hr) as Hsel.
  rewrite Howner in Hsel.
  cbv [DELETE_weather_record GET_weather_record try_catch bind delete_record
       select_record emit get_world set_records ret response_of].
  cbn [weather_records fst]. rewrite Hsel. cbn [fmap list_fmap].
  eexists. split; [reflexivity|]. cbn [weather_records users].
  assert (forall x, x ∈ weather_records w ->
            (is_record (id r) (userId user) x <-> x = r)) as Hiff.
  { intros x Hx. split; [|by intros ->].
    intros [Hid _]. eauto using same_id_same_record. }
  assert (filter (is_record (id r) (userId user))
            (filter (λ x, ~ is_record (id r) (userId user) x)
               (weather_records w)) = []) as Hgone.
  { apply filter_nil_Forall, Forall_forall.
    by intros x [Hnot _]%list_elem_of_filter. }
  split; [|split; [|split; [done|]]].
  - intros x. rewrite list_elem_of_filter. split.
    + intros [Hnot Hx]. split; [done|]. intros ->. by apply Hnot.
    + intros [Hx Hne]. split; [|done]. intros Hrec. by apply Hne, Hiff.
  - pose proof (filter_app_complement (is_record (id r) (userId user))
                  (weather_records w)) as Hperm.
    apply Permutation_length in Hperm. rewrite length_app, Hsel in Hperm.
    simpl in Hperm. lia.
  - rewrite Hgone. split; reflexivity.
Qed.

End OwnRecord.

Section Update.

Context `{Platform} `{Deployment} (env : Env).




End Update.

(** ** Listing and export *)

Lemma elem_of_take_drop {A} (x : A) (l : list A) n m :
  x ∈ take n (drop m l) -> x ∈ l.
Proof.
  intros Hx. apply (subseteq_take n) in Hx. by apply (subseteq_drop m) in Hx.
Qed.

Lemma concat_pages {A} (l : list A) (L : Z) (i : nat) :
  0 < L ->
  concat ((λ p, take (Z.to_nat L) (drop (Z.to_nat ((p - 1) * L)) l))
            <$> seqZ 1 (Z.of_nat i))
  = take (i * Z.to_nat L) l.
Proof.
  intros HL. induction i as [|i IH]; [done|].
  rewrite seqZ_S, fmap_app, concat_app, IH. simpl.
  rewrite app_nil_r.
  replace (Z.to_nat ((1 + Z.of_nat i - 1) * L)) with (i * Z.to_nat L)%nat by nia.
  rewrite take_take_drop. f_equal. lia.
Qed.

Lemma in_bigint_exact (z : Z) : js_exact z -> in_bigint z = true.
Proof.
  unfold js_exact, in_bigint, max_safe_integer.
  assert (2 ^ 53 = 9007199254740992) as -> by reflexivity.
  assert (2 ^ 63 = 9223372036854775808) as -> by reflexivity.
  intros Hz. apply andb_true_intro. split; apply Z.leb_le; lia.
Qed.

Section Listing.

Context `{Platform} `{Deployment}.

(** What [ORDER BY created_at DESC] hands out of a user's rows are rows of
    that user, from the table. *)
Lemma ordered_rows_are_own user w w0 x :
  x ∈ order_by_created_at_desc w0
        (filter (owned_by (userId user)) (weather_records w)) ->
  rec_user_id x = userId user /\ x ∈ weather_records w.
Proof.
  intros Hx.
  rewrite (proj1 (order_by_created_at_desc_sorted w0 _)) in Hx.
  by apply list_elem_of_filter in Hx.
Qed.

(** X6. No read route ever sends a record of another user, or a record that
    is not stored: whatever the list route, the by-id route and the JSON
    export send belongs to the caller and is in the table; and an export,
    in each of its three formats, is written from the caller's stored
    records, all of them and no other. *)
Theorem reads_send_own_records_only (user : JwtUser) (q_page q_limit : JsInt)
    (param format : string) (w : World) :
  let mine := filter (owned_by (userId user)) (weather_records w) in
  let own (r : WeatherRecord) :=
    rec_user_id r = userId user /\ r ∈ weather_records w in
  (forall r,
     r ∈ records_sent (GET_weather_records user q_page q_limit w) \/
     r ∈ records_sent (Wire.GET_weather_record user param w) \/
     r ∈ records_sent (GET_export user format w) ->
     own r) /\
  exists rs resp,
    response_of (GET_export user format w) = Ok resp /\
    rs ≡ₚ mine /\ Forall own rs /\
    (body resp = BRecords rs \/
     body resp = BText (csv_content rs) \/
     body resp = BText (xml_content rs) \/
     resp = json 400 (BError "Unsupported export format")).
Proof.
  intros mine own. split.
  - intros r [Hr|[Hr|Hr]].
    + rewrite GET_weather_records_run in Hr. cbv zeta in Hr.
      destruct (_ || _); unfold records_sent, response_of in Hr; simpl in Hr.
      * by apply elem_of_nil in Hr.
      * eapply ordered_rows_are_own, elem_of_take_drop, Hr.
    + unfold Wire.GET_weather_record in Hr.
      destruct (pg_int4_in param) as [msg|rid];
        [by apply elem_of_nil in Hr|].
      cbv [GET_weather_record try_catch bind select_record emit get_world ret
           records_sent response_of] in Hr.
      cbn [fst weather_records] in Hr.
      destruct (filter (is_record rid (userId user)) (weather_records w))
        as [|x rest] eqn:Hsel; simpl in Hr; [by apply elem_of_nil in Hr|].
      apply list_elem_of_singleton in Hr as ->.
      assert (x ∈ filter (is_record rid (userId user)) (weather_records w))
        as Hx by (rewrite Hsel; left).
      apply list_elem_of_filter in Hx as [[_ Hu] Hx]. done.
    + cbv [GET_export try_catch bind select_records_all emit get_world ret
           records_sent response_of] in Hr.
      cbn [fst weather_records] in Hr.
      repeat match type of Hr with
             | context [if ?b then _ else _] => destruct b
             end; simpl in Hr; try (by apply elem_of_nil in Hr).
      by eapply ordered_rows_are_own.
  - set (w0 := traced w [Query (SelectRecordsAll (userId user))]).
    exists (order_by_created_at_desc w0 mine).
    assert (Forall own (order_by_created_at_desc w0 mine)) as Hown.
    { apply Forall_forall. intros x Hx. by eapply ordered_rows_are_own. }
    pose proof (proj1 (order_by_created_at_desc_sorted w0 mine)) as Hperm.
    cbv [GET_export try_catch bind select_records_all emit get_world ret
         response_of].
    cbn [fst weather_records]. fold mine. fold w0.
    repeat match goal with
           | |- context [if ?b then _ else _] => destruct b
           end; eexists; (split; [reflexivity|]); (split; [exact Hperm|]);
      (split; [exact Hown|]); cbn [body]; auto.
Qed.

(** X7. For a limit >= 1, with the last record's position within the
    integers JS computes exactly and no two of the user's records created
    at the same instant, the pages 1 .. pages, one after the other, are the
    user's records newest first: no record is skipped and none is shown
    twice; and every page after the last is empty. *)
Theorem pages_partition_the_records (user : JwtUser) (limit : Z) (w : World) :
  let mine := filter (owned_by (userId user)) (weather_records w) in
  let pages := ceil_div (Z.of_nat (length mine)) limit in
  1 <= limit ->
  Z.of_nat (length mine) + limit <= max_safe_integer ->
  tie_free mine ->
  exists newest_first,
    newest_first ≡ₚ mine /\
    StronglySorted newer_first newest_first /\
    concat ((λ p, records_sent
                    (GET_weather_records user (Some p) (Some limit) w))
              <$> seqZ 1 pages)
    = newest_first /\
    (forall p, pages < p -> p * limit <= max_safe_integer ->
       records_sent (GET_weather_records user (Some p) (Some limit) w) = []).
Proof.
  intros mine pages Hlimit Hsafe Hfree.
  pose proof (ceil_div_bounds (Z.of_nat (length mine)) limit ltac:(lia))
    as Hpages. fold pages in Hpages.
  destruct (order_by_created_at_desc_sorted w mine) as [Hperm Hsorted].
  assert (Hlen : length (order_by_created_at_desc w mine) = length mine)
    by (by rewrite Hperm).
  assert (Hpage : forall p, 1 <= p -> p * limit <= max_safe_integer ->
            records_sent (GET_weather_records user (Some p) (Some limit) w)
            = take (Z.to_nat limit)
                (drop (Z.to_nat ((p - 1) * limit))
                   (order_by_created_at_desc w mine))).
  { intros p Hp Hexact. rewrite GET_weather_records_run. cbv zeta.
    unfold or_default.
    destruct (Z.eqb_spec p 0); [lia|]. destruct (Z.eqb_spec limit 0); [lia|].
    rewrite !in_bigint_safe by nia.
    destruct (Z.ltb_spec ((p - 1) * limit) 0); [nia|].
    destruct (Z.ltb_spec limit 0); [lia|]. cbn [negb andb orb].
    unfold records_sent, response_of. cbn [fst body json records_in].
    fold mine. by rewrite (order_by_created_at_desc_tie_free _ w mine Hfree). }
  exists (order_by_created_at_desc w mine).
  split; [exact Hperm|]. split; [exact Hsorted|]. split.
  - assert (exists n, pages = Z.of_nat n) as [n Hn] by (exists (Z.to_nat pages); nia).
    clearbody pages. subst pages.
    transitivity
      (concat ((λ p, take (Z.to_nat limit)
                       (drop (Z.to_nat ((p - 1) * limit))
                          (order_by_created_at_desc w mine)))
                 <$> seqZ 1 (Z.of_nat n))).
    { f_equal. apply list_fmap_ext. intros i p Hp.
      apply list_elem_of_lookup_2, elem_of_seqZ in Hp. apply Hpage; nia. }
    rewrite concat_pages by lia. apply take_ge. rewrite Hlen. nia.
  - intros p Hp Hexact. rewrite Hpage by nia.
    rewrite drop_ge; [by rewrite take_nil|]. rewrite Hlen. nia.
Qed.

End Listing.

Section ListingEdges.

Context `{Platform} `{Deployment}.

(** X8. For a page and a limit that JS holds as they are, and an offset
    (page - 1) * limit likewise, the list route answers 200 exactly for a
    positive page and a positive limit (a missing, unparsable or zero value
    reads as page 1 and limit 10); a negative page or limit is answered
    500.  Either way no table changes and nothing is written. *)
Theorem list_needs_positive_parameters (user : JwtUser) (q_page q_limit : JsInt)
    (w : World) :
  let p := or_default q_page 1 in
  let limit := or_default q_limit 10 in
  js_exact p -> js_exact limit -> js_exact ((p - 1) * limit) ->
  exists resp w',
    GET_weather_records user q_page q_limit w = (Ok resp, w') /\
    weather_records w' = weather_records w /\
    users w' = users w /\
    store_writes (trace w') = store_writes (trace w) /\
    ((1 <= p /\ 1 <= limit /\ status resp = 200) \/
     ((p < 0 \/ limit < 0) /\
      resp = json 500 (BError "Failed to fetch weather records"))) /\
    (q_page = None \/ q_page = Some 0 -> p = 1) /\
    (q_limit = None \/ q_limit = Some 0 -> limit = 10).
Proof.
  intros p limit Hp_exact Hlimit_exact Hoffset_exact.
  rewrite GET_weather_records_run. cbv zeta. fold p limit.
  rewrite !in_bigint_exact by done. cbn [negb andb orb].
  assert (p <> 0 /\ limit <> 0) as [Hp Hl].
  { unfold p, limit, or_default. destruct q_page as [z|], q_limit as [z'|];
      repeat match goal with
             | |- context [?a =? 0] => destruct (Z.eqb_spec a 0)
             end; lia. }
  assert (forall qs, store_writes (trace (traced w qs))
                     = (store_writes (trace w) + store_writes qs)%nat) as Hw.
  { intros qs. apply count_traced. }
  destruct (Z.ltb_spec ((p - 1) * limit) 0), (Z.ltb_spec limit 0); cbn [orb];
    eexists _, _; (split; [reflexivity|]); (split; [done|]); (split; [done|]);
    (split; [rewrite Hw; unfold store_writes, count; simpl; lia|]);
    (split; [|split; [intros [->| ->]; reflexivity
                     |intros [->| ->]; reflexivity]]).
  all: try (right; split; [nia|reflexivity]).
  left. split; [nia|]. split; [lia|reflexivity].
Qed.

End ListingEdges.

(** ** The weather routes and the gateway *)

Lemma slice0_prefix {A} (l : list A) (e : JsInt) :
  slice0 l e = take (length (slice0 l e)) l.
Proof.
  unfold slice0. destruct e as [e|]; [|done].
  destruct (e <? 0); by rewrite length_take, take_min_length.
Qed.


Section GatewayResults.

Context (env : Env).

(** What a successful [getWeatherData] returned, in terms of what the two
    endpoints answered. *)
Lemma getWeatherData_success location days w data w' :
  getWeatherData env location days w = (Ok data, w') ->
  let n := http_requests (trace w) in
  let key := default EmptyString (OPENWEATHER_API_KEY env) in
  exists first rest upstream,
    geo_direct env n location key = inr (Some (first :: rest)) /\
    forecast env (S n) (geo_lat first) (geo_lon first) key
    = inr (Some upstream) /\
    map_throwing shape_item (slice0 upstream (z ← days; Some (z * 8)))
    = inr (wd_weather_data data) /\
    wd_location data = geo_name first /\
    wd_country data = geo_country first /\
    wd_coordinates data = (geo_lat first, geo_lon first).
Proof.
  intros Hrun n key. rewrite getWeatherData_run in Hrun. cbv zeta in Hrun.
  fold n key in Hrun.
  destruct (negb _); [discriminate|].
  destruct (geo_direct env n location key) as [e|[[|first rest]|]] eqn:Hgeo;
    try discriminate.
  destruct (forecast env (S n) (geo_lat first) (geo_lon first) key)
    as [e|[upstream|]] eqn:Hfc; try discriminate.
  destruct (map_throwing _ _) as [e|samples] eqn:Hmap; [discriminate|].
  injection Hrun as <- <-. by exists first, rest, upstream.
Qed.



(** X10. The gateway never retries: [getWeatherData] sends at most two HTTP
    requests (exactly two when it succeeds), [getLocationDetails] at most
    one, and neither sends any when no API key is configured. *)
Theorem gateway_request_budget (location : string) (days : JsInt) (w : World) :
  let fetched := getWeatherData env location days w in
  let resolved := getLocationDetails env location w in
  let sent w' := (http_requests (trace w') - http_requests (trace w))%nat in
  (sent (world_after fetched) <= 2)%nat /\
  (forall data, response_of fetched = Ok data ->
     sent (world_after fetched) = 2%nat) /\
  (sent (world_after resolved) <= 1)%nat /\
  (truthy (OPENWEATHER_API_KEY env) = false ->
   sent (world_after fetched) = 0%nat /\
   sent (world_after resolved) = 0%nat /\
   response_of fetched = Throw generic_failure /\
   response_of resolved = Ok (basic_location location)).
Proof.
  intros fetched resolved sent.
  destruct (getWeatherData_shape env location days w)
    as (r & es & Hrun & Hes & Hlen & Hnokey & Hok & Hthrow).
  destruct (getLocationDetails_shape env location w)
    as (d & es' & Hrun' & Hes' & Hlen' & _ & Hnokey').
  destruct (counts_after_call w (CallGetWeatherData location days) es
              eq_refl eq_refl Hes) as (_ & _ & _ & Hh).
  destruct (counts_after_call w (CallGetLocationDetails location) es'
              eq_refl eq_refl Hes') as (_ & _ & _ & Hh').
  unfold sent, fetched, resolved, world_after, response_of.
  rewrite Hrun, Hrun'. cbn [fst snd]. rewrite Hh, Hh'.
  split; [lia|]. split; [intros data ->; destruct (Hok data eq_refl); lia|].
  split; [lia|]. intros Hkey.
  destruct (Hnokey' Hkey) as [-> ->]. rewrite (Hnokey Hkey) in *.
  simpl. repeat split; try lia.
  destruct r as [data|e]; [by destruct (Hok data eq_refl); congruence|].
  by rewrite (Hthrow e eq_refl).
Qed.

End GatewayResults.

(** ** The shape of a sample *)

Lemma Math_round_nearest (q : Q) :
  (q - (1 # 2) < inject_Z (Math_round q) <= q + (1 # 2))%Q.
Proof.
  unfold Math_round.
  pose proof (Qfloor_le (q + (1 # 2))) as Hle.
  pose proof (Qlt_floor (q + (1 # 2))) as Hlt.
  rewrite inject_Z_plus in Hlt. split; [|exact Hle].
  apply Qplus_lt_l with (z := 1%Q).
  eapply Qle_lt_trans; [|exact Hlt]. ring_simplify.
  apply Qle_refl.
Qed.

Lemma split_space_no_space s : no_space s = true -> split_space s = [s].
Proof.
  induction s as [|c s IH]; [done|]. simpl.
  intros [Hc Hs]%andb_true_iff. apply negb_true_iff in Hc. rewrite Hc.
  by rewrite IH.
Qed.

Lemma split_space_two a b :
  no_space a = true ->
  split_space (a +:+ " " +:+ b) = a :: split_space b.
Proof.
  induction a as [|c a IH]; [done|]. simpl.
  intros [Hc Ha]%andb_true_iff. apply negb_true_iff in Hc. rewrite Hc.
  change (split_space (a +:+ " " +:+ b)) with (split_space (a +:+ " " +:+ b)).
  by rewrite (IH Ha).
Qed.

Section Samples.

Context (env : Env).

Lemma shape_item_shaped item s : shape_item item = inr s -> shaped_from item s.
Proof.
  unfold shape_item. destruct (weather item) as [|c rest] eqn:Hw; [done|].
  intros [= <-]. unfold shaped_from. simpl.
  split; [apply Math_round_nearest|]. split; [apply Math_round_nearest|].
  split; [field|]. repeat (split; [done|]). by exists c, rest.
Qed.

(** X11. Whatever the day count (negative and NaN included), the samples of a
    successful fetch are, in order, the shaped first entries of the
    forecast list answered for the first geocoding candidate, whose name,
    country and coordinates the result carries. *)
Theorem samples_are_a_shaped_prefix (location : string) (days : JsInt)
    (w w' : World) (data : WeatherData) :
  getWeatherData env location days w = (Ok data, w') ->
  let n := http_requests (trace w) in
  let key := default EmptyString (OPENWEATHER_API_KEY env) in
  exists first rest upstream,
    geo_direct env n location key = inr (Some (first :: rest)) /\
    forecast env (S n) (geo_lat first) (geo_lon first) key
    = inr (Some upstream) /\
    wd_location data = geo_name first /\
    wd_country data = geo_country first /\
    wd_coordinates data = (geo_lat first, geo_lon first) /\
    (length (wd_weather_data data) <= length upstream)%nat /\
    Forall2 shaped_from (take (length (wd_weather_data data)) upstream)
      (wd_weather_data data).
Proof.
  intros Hrun n key.
  destruct (getWeatherData_success env _ _ _ _ _ Hrun)
    as (first & rest & upstream & Hgeo & Hfc & Hmap & Hl & Hc & Hco).
  exists first, rest, upstream. repeat (split; [done|]).
  apply map_throwing_Forall2 in Hmap.
  pose proof (Forall2_length _ _ _ Hmap) as Hlen.
  rewrite slice0_prefix, Hlen in Hmap.
  split.
  - rewrite <- Hlen, slice0_prefix, length_take. lia.
  - eapply Forall2_impl; [exact Hmap|]. intros item s. apply shape_item_shaped.
Qed.

(** X12. For the timestamp format of the forecast, "date time", the sample's
    date and time are the two parts. *)
Theorem sample_date_and_time (item : ForecastItem) (s : Sample)
    (date time : string) :
  shape_item item = inr s ->
  dt_txt item = date +:+ " " +:+ time ->
  no_space date = true -> no_space time = true ->
  s_date s = date /\ s_time s = Some time.
Proof.
  unfold shape_item. destruct (weather item); [done|].
  intros [= <-] Htxt Hdate Htime. simpl.
  by rewrite Htxt, split_space_two, split_space_no_space.
Qed.

End Samples.

(** ** The accepted date range *)

Section DateRange.

Context `{Platform} `{Deployment}.

(** X13. A body that passes [validateWeatherData] and whose dates parse has its
    start no later than its end and its end at most 14 days after the
    clock; the day count handed to the forecast gateway is then at least 1,
    and is k + 1 when the dates are k whole days apart. *)
Theorem validated_range (req : RecordBody) (w : World) (s e : Z) :
  response_of (validateWeatherData req w) = Ok Next ->
  new_Date (b_startDate req) = Some s ->
  new_Date (b_endDate req) = Some e ->
  s <= e <= clock w + 14 * 24 * 60 * 60 * 1000 /\
  exists d,
    daysDiff (new_Date (b_startDate req)) (new_Date (b_endDate req)) = Some d /\
    1 <= d /\
    (d - 2) * 86400000 < e - s <= (d - 1) * 86400000 /\
    (forall k, e - s = k * 86400000 -> d = k + 1).
Proof.
  intros Hnext Hs He.
  rewrite (validateWeatherData_run (mkJwtUser 0 EmptyString) 0) in Hnext.
  destruct (first_failure create_checks _ 0 req w) eqn:Hfirst; [discriminate|].
  pose proof (List.find_none _ _ Hfirst) as Hall.
  assert (H4 := Hall StartNotAfterEnd ltac:(simpl; tauto)).
  assert (H5 := Hall EndWithinHorizon ltac:(simpl; tauto)).
  apply negb_false_iff, negb_true_iff in H4, H5.
  cbn [check_passes] in H4, H5. rewrite Hs, He in H4. rewrite He in H5.
  unfold js_gt, fortnight in H4, H5.
  apply Z.ltb_ge in H4, H5. split; [lia|].
  rewrite Hs, He. cbn [daysDiff mbind option_bind].
  eexists. split; [reflexivity|].
  pose proof (ceil_div_bounds (e - s) (1000 * 60 * 60 * 24) ltac:(lia))
    as Hceil.
  split; [nia|]. split; [lia|]. intros k Hk. nia.
Qed.

End DateRange.

(** ** Authentication *)

Lemma truthy_Some s : s <> EmptyString -> truthy (Some s) = true.
Proof. intros Hs. simpl. by apply negb_true_iff, String.eqb_neq. Qed.

Lemma truthy_inv v : truthy v = true -> exists s, v = Some s /\ s <> EmptyString.
Proof.
  destruct v as [s|]; [|done]. simpl. intros Hs%negb_true_iff%String.eqb_neq.
  eauto.
Qed.

Lemma append_not_empty a b : a +:+ " " +:+ b <> EmptyString.
Proof. by destruct a. Qed.

Section Authentication.

Context `{Platform} `{AuthPlatform} `{Deployment}.

(** The token of a header "scheme token". *)
Lemma header_token_of scheme token :
  no_space scheme = true -> no_space token = true ->
  header_token (Some (scheme +:+ " " +:+ token)) = Some token.
Proof.
  intros Hscheme Htoken. unfold header_token.
  rewrite truthy_Some by apply append_not_empty. cbn [default from_option].
  unfold Datatypes.id.
  by rewrite split_space_two, split_space_no_space.
Qed.

(** X14. A protected route runs what is behind [authenticateToken] only for a
    header whose second space-separated piece is not empty and is accepted
    by [jwt.verify], and then as the user in the token; the first piece
    (the scheme) and the pieces after the second are not looked at.
    Without a header, with a header of one piece, or with an empty second
    piece, the answer is 401; with a rejected token it is 403; in both
    cases nothing is run and the world is unchanged. *)
Theorem protected_route_gate (rest : JwtUser -> M Response) (w : World) :
  (forall header,
     protected header rest w
     = match header ≫= (λ text, split_space text !! 1%nat) with
       | Some token =>
           if String.eqb token EmptyString
           then (Ok (json 401 (BError "Access token required")), w)
           else
             match jwt_verify (clock w) token with
             | Some user => rest user w
             | None => (Ok (json 403 (BError "Invalid or expired token")), w)
             end
       | None => (Ok (json 401 (BError "Access token required")), w)
       end) /\
  (forall header resp w',
     protected header rest w = (Ok resp, w') ->
     (resp = json 401 (BError "Access token required") /\ w' = w) \/
     (resp = json 403 (BError "Invalid or expired token") /\ w' = w) \/
     (exists text token user,
        header = Some text /\ split_space text !! 1%nat = Some token /\
        token <> EmptyString /\
        jwt_verify (clock w) token = Some user /\
        rest user w = (Ok resp, w'))) /\
  protected None rest w = (Ok (json 401 (BError "Access token required")), w) /\
  (forall header, no_space header = true ->
     protected (Some header) rest w
     = (Ok (json 401 (BError "Access token required")), w)) /\
  (forall scheme token,
     no_space scheme = true -> no_space token = true ->
     token <> EmptyString ->
     protected (Some (scheme +:+ " " +:+ token)) rest w
     = match jwt_verify (clock w) token with
       | Some user => rest user w
       | None => (Ok (json 403 (BError "Invalid or expired token")), w)
       end).
Proof.
  assert (forall header,
     protected header rest w
     = match header ≫= (λ text, split_space text !! 1%nat) with
       | Some token =>
           if String.eqb token EmptyString
           then (Ok (json 401 (BError "Access token required")), w)
           else
             match jwt_verify (clock w) token with
             | Some user => rest user w
             | None => (Ok (json 403 (BError "Invalid or expired token")), w)
             end
       | None => (Ok (json 401 (BError "Access token required")), w)
       end) as Hgate.
  { intros [text|]; [|reflexivity].
    cbv [protected authenticateToken bind ret get_world header_token].
    cbn [mbind option_bind].
    destruct (truthy (Some text)) eqn:Htext.
    - cbn [default from_option]. unfold Datatypes.id.
      destruct (split_space text !! 1%nat) as [token|]; [|reflexivity].
      cbn [truthy default from_option]. unfold Datatypes.id.
      destruct (String.eqb token EmptyString); cbn [negb]; [reflexivity|].
      by destruct (jwt_verify (clock w) token).
    - rewrite Htext. cbn [negb].
      simpl in Htext. apply negb_false_iff, String.eqb_eq in Htext as ->.
      reflexivity. }
  split; [exact Hgate|]. split.
  { intros header resp w' Hrun. rewrite Hgate in Hrun.
    destruct header as [text|]; cbn [mbind option_bind] in Hrun;
      [|injection Hrun as <- <-; auto].
    destruct (split_space text !! 1%nat) as [token|] eqn:Hpiece;
      [|injection Hrun as <- <-; auto].
    destruct (String.eqb_spec token EmptyString) as [|Hne];
      [injection Hrun as <- <-; auto|].
    destruct (jwt_verify (clock w) token) as [user|] eqn:Hverify;
      [|injection Hrun as <- <-; auto].
    right. right. by exists text, token, user. }
  split; [reflexivity|]. split.
  - intros header Hheader.
    cbv [protected authenticateToken bind ret get_world header_token].
    destruct (truthy (Some header)) eqn:Htruthy.
    + cbn [default from_option]. unfold Datatypes.id.
      by rewrite split_space_no_space.
    + by rewrite Htruthy.
  - intros scheme token Hscheme Htoken Hne.
    cbv [protected authenticateToken bind ret get_world].
    rewrite header_token_of, truthy_Some by done.
    cbn [negb default from_option]. unfold Datatypes.id.
    by destruct (jwt_verify (clock w) token).
Qed.

(** What the login route answers. *)
Lemma post_auth_login_run (req : LoginBody) (w : World) :
  let login := default EmptyString (b_username req) in
  let password := default EmptyString (b_password req) in
  post_auth_login req w
  = if negb (truthy (b_username req)) || negb (truthy (b_password req))
    then (Ok (json 400 (BError "Username and password are required")), w)
    else
      (Ok match filter (λ u, username u = login \/ email u = login) (users w)
          with
          | [] => json 401 (BError "Invalid credentials")
          | user :: _ =>
              if bcrypt_compare password (password_hash user)
              then json 200
                     (BLogin "Login successful" (user_id user) (username user)
                        (email user)
                        (jwt_sign (clock w)
                           (mkJwtUser (user_id user) (username user))))
              else json 401 (BError "Invalid credentials")
          end,
       traced w [Query (SelectUserByLogin login)]).
Proof.
  intros login password.
  cbv [post_auth_login try_catch bind select_user_by_login emit get_world ret
       traced].
  destruct (negb (truthy (b_username req)) || negb (truthy (b_password req)));
    [reflexivity|].
  cbn [users]. fold login password.
  destruct (filter _ (users w)) as [|user rest]; [reflexivity|].
  by destruct (bcrypt_compare password (password_hash user)).
Qed.

(** On a body whose fields are strings or missing the login route is the
    route on the fields. *)
Lemma Wire_login_of_typed (req : LoginBody) (w : World) :
  Wire.post_auth_login (Wire.of_login req) w = post_auth_login req w.
Proof.
  rewrite Wire_post_auth_login_run, post_auth_login_run. cbv zeta.
  destruct req as [[login|] [password|]];
    cbn [Wire.of_login Wire.j_username Wire.j_password b_username b_password
         of_text fmap option_fmap option_map js_truthy truthy as_text
         Wire.param_text default from_option];
    unfold Datatypes.id;
    repeat (destruct (String.eqb _ EmptyString); cbn [negb orb]);
    reflexivity.
Qed.


End Authentication.

(** ** Registration *)

(** Case analysis on a field of a JSON body: missing or falsy, a string, or
    a truthy value that is no string; [finish] closes the cases in which
    the route answers at this field. *)
Ltac shape v finish :=
  destruct v as [[| [|] | ? | ? | ? | ?]|];
  cbn [js_truthy negb];
  try (destruct (Qeq_bool _ _)); try (destruct (String.eqb _ EmptyString));
  cbn [negb];
  cbv [try_catch bind ret settle throw Wire.call_trim Wire.asserting_string
       as_text];
  try finish.

Section Registration.

Context `{Platform} `{AuthPlatform} `{Deployment}.

(** The registration behind its three checks. *)
Lemma register_checked_run nextval salt name mail password w :
  register_checked nextval salt name mail password w
  = match filter (λ u, username u = name \/ email u = mail) (users w) with
    | existing :: _ =>
        (Ok (register_error 400
               (if String.eqb (username existing) name
                then "Username already exists"
                else "Email already exists")), w)
    | [] =>
        match pg_rejects_user w name mail (bcrypt_hash salt password) with
        | Some msg => (Throw (pg_error msg), w)
        | None =>
            (Ok (mkRegisterResponse 201
                   (RCreated "User created successfully" nextval name mail
                      (clock w)
                      (jwt_sign (clock w) (mkJwtUser nextval name)))),
             mkWorld (clock w)
               (users w
                  ++ [mkUser nextval name mail (bcrypt_hash salt password)
                        (clock w)])
               (weather_records w) (weather_records_id_seq w) (trace w))
        end
    end.
Proof.
  cbv [register_checked bind select_user_by_name_or_email insert_user add_user
       get_world ret throw].
  destruct (filter _ (users w)) as [|existing rest] eqn:Hrows.
  - destruct (pg_rejects_user _ _ _ _); [reflexivity|].
    rewrite decide_False; [reflexivity|].
    intros (x & Hx & Hmatch)%Exists_exists.
    apply filter_nil_Forall in Hrows. rewrite Forall_forall in Hrows.
    by destruct (Hrows x Hx).
  - by destruct (String.eqb _ _).
Qed.

(** The ways a registration with a well-typed body can go. *)
Lemma post_auth_register_cases nextval salt req w :
  (exists error,
     post_auth_register nextval salt req w = (Ok (register_error 400 error), w) /\
     error <> "Username or email already exists" /\
     ((exists x, x ∈ users w /\
         (username x = String_trim (default EmptyString (r_username req)) \/
          email x = String_toLowerCase (default EmptyString (r_email req)))) ->
      error = "Username already exists" \/ error = "Email already exists" \/
      error = "Username must be 3-50 characters long" \/
      error = "Valid email is required" \/
      error = "Password must be at least 6 characters long")) \/
  (exists name mail password,
     r_username req = Some name /\ r_email req = Some mail /\
     r_password req = Some password /\
     name <> EmptyString /\ mail <> EmptyString /\ password <> EmptyString /\
     Forall (λ x, username x <> String_trim name /\
                  email x <> String_toLowerCase mail) (users w) /\
     let u := new_account nextval salt name mail password (clock w) in
     (exists error,
        post_auth_register nextval salt req w
        = (Ok (register_failed error), w)) \/
     post_auth_register nextval salt req w
     = (Ok (mkRegisterResponse 201
              (RCreated "User created successfully" nextval (String_trim name)
                 (String_toLowerCase mail) (clock w)
                 (jwt_sign (clock w) (mkJwtUser nextval (String_trim name))))),
        mkWorld (clock w) (users w ++ [u]) (weather_records w)
          (weather_records_id_seq w) (trace w))).
Proof.
  unfold post_auth_register.
  destruct (truthy (r_username req)) eqn:Hn; cbn [negb orb];
    [|left; eexists; split; [reflexivity|]; split; [done|]; auto 6].
  destruct (validator_isLength _ 3 50); cbn [negb];
    [|left; eexists; split; [reflexivity|]; split; [done|]; auto 6].
  destruct (truthy (r_email req)) eqn:Hm; cbn [negb orb];
    [|left; eexists; split; [reflexivity|]; split; [done|]; auto 6].
  destruct (validator_isEmail _); cbn [negb];
    [|left; eexists; split; [reflexivity|]; split; [done|]; auto 6].
  destruct (truthy (r_password req)) eqn:Hp; cbn [negb orb];
    [|left; eexists; split; [reflexivity|]; split; [done|]; auto 6].
  destruct (validator_isLength_min _ 6); cbn [negb];
    [|left; eexists; split; [reflexivity|]; split; [done|]; auto 6].
  apply truthy_inv in Hn as (name & -> & Hname), Hm as (mail & -> & Hmail),
      Hp as (password & -> & Hpassword).
  cbn [default from_option]. unfold Datatypes.id, try_catch.
  rewrite register_checked_run.
  destruct (filter _ (users w)) as [|existing rest] eqn:Hrows.
  - right. exists name, mail, password. repeat (split; [done|]).
    assert (Forall (λ x, username x <> String_trim name /\
                         email x <> String_toLowerCase mail) (users w))
      as Hfree.
    { apply filter_nil_Forall in Hrows. eapply Forall_impl; [exact Hrows|].
      intros x Hx. simpl in Hx. tauto. }
    split; [exact Hfree|]. cbv zeta.
    destruct (pg_rejects_user _ _ _ _) as [msg|]; [left; eauto|by right].
  - left. destruct (String.eqb _ _); eexists; (split; [reflexivity|]);
      (split; [done|]); auto.
Qed.

(** On a body whose fields are strings or missing the registration route
    is the route on the fields. *)
Lemma Wire_register_of_typed nextval salt (req : RegisterBody) (w : World) :
  Wire.post_auth_register nextval salt (Wire.of_register req) w
  = post_auth_register nextval salt req w.
Proof.
  destruct req as [[name|] [mail|] [password|]];
    unfold Wire.post_auth_register, post_auth_register;
    cbn [Wire.of_register Wire.j_reg_username Wire.j_reg_email
         Wire.j_reg_password r_username r_email r_password of_text fmap
         option_fmap option_map js_truthy truthy as_text default from_option];
    unfold Datatypes.id;
    cbv [try_catch bind ret settle throw Wire.call_trim Wire.asserting_string
         as_text];
    repeat match goal with
           | |- context [String.eqb ?s EmptyString] =>
               destruct (String.eqb s EmptyString); cbn [negb orb]
           | |- context [validator_isLength ?s 3 50] =>
               destruct (validator_isLength s 3 50); cbn [negb orb]
           | |- context [validator_isEmail ?s] =>
               destruct (validator_isEmail s); cbn [negb orb]
           | |- context [validator_isLength_min ?s 6] =>
               destruct (validator_isLength_min s 6); cbn [negb orb]
           end;
    reflexivity.
Qed.

Ltac early_exit :=
  eexists _, _; (split; [reflexivity|]); (split; [done|]);
  first [left; split; [reflexivity|done]
        |right; left; split; [reflexivity|];
         split; [eexists; reflexivity|done]].

(** X16. A registration, whatever its body, goes one of three ways.  It is
    answered 400 and changes nothing.  Or it is answered 500 "Internal
    server error. Please try again later." and changes nothing: a field
    that is truthy and no string made its check throw, or PostgreSQL
    refused the INSERT.  Or it came with three strings, is answered 201 and
    has added exactly one account: the id the sequence handed out, the
    trimmed username, the lower-cased email and the hash of the password,
    with a token signed for that id and username. *)
Theorem register_is_all_or_nothing (nextval : Z) (salt : string)
    (form : Wire.Registration) (w : World) :
  exists resp w',
    Wire.post_auth_register nextval salt form w = (Ok resp, w') /\
    weather_records w' = weather_records w /\
    ((reg_status resp = 400 /\ w' = w) \/
     (reg_status resp = 500 /\
      (exists error, resp = register_failed error) /\ w' = w) \/
     (exists name mail password,
        Wire.j_reg_username form = Some (JString name) /\
        Wire.j_reg_email form = Some (JString mail) /\
        Wire.j_reg_password form = Some (JString password) /\
        users w' = users w
                   ++ [new_account nextval salt name mail password (clock w)] /\
        resp = mkRegisterResponse 201
                 (RCreated "User created successfully" nextval
                    (String_trim name) (String_toLowerCase mail) (clock w)
                    (jwt_sign (clock w)
                       (mkJwtUser nextval (String_trim name)))))).
Proof.
  destruct form as [name mail password]. unfold Wire.post_auth_register.
  cbn [Wire.j_reg_username Wire.j_reg_email Wire.j_reg_password].
  shape name early_exit.
  destruct (validator_isLength _ 3 50); cbn [negb]; [|early_exit].
  shape mail early_exit.
  destruct (validator_isEmail _); cbn [negb]; [|early_exit].
  shape password early_exit.
  destruct (validator_isLength_min _ 6); cbn [negb]; [|early_exit].
  rewrite register_checked_run. cbn [default from_option]. unfold Datatypes.id.
  destruct (filter _ (users w)) as [|existing rest]; [|early_exit].
  destruct (pg_rejects_user _ _ _ _) as [msg|]; [early_exit|].
  eexists _, _. split; [reflexivity|]. split; [done|]. right. right.
  by eexists _, _, _.
Qed.

(** A registration is answered, and leaves [weather_records] and its
    sequence alone. *)
Lemma Wire_register_answers nextval salt (form : Wire.Registration) w :
  exists resp w',
    Wire.post_auth_register nextval salt form w = (Ok resp, w') /\
    weather_records w' = weather_records w /\
    weather_records_id_seq w' = weather_records_id_seq w.
Proof.
  destruct form as [name mail password]. unfold Wire.post_auth_register.
  cbn [Wire.j_reg_username Wire.j_reg_email Wire.j_reg_password].
  shape name ltac:(by eexists _, _).
  destruct (validator_isLength _ 3 50); cbn [negb]; [|by eexists _, _].
  shape mail ltac:(by eexists _, _).
  destruct (validator_isEmail _); cbn [negb]; [|by eexists _, _].
  shape password ltac:(by eexists _, _).
  destruct (validator_isLength_min _ 6); cbn [negb]; [|by eexists _, _].
  rewrite register_checked_run.
  destruct (filter _ (users w)) as [|existing rest]; [|by eexists _, _].
  destruct (pg_rejects_user _ _ _ _) as [msg|]; by eexists _, _.
Qed.


(** X18. After a registration answered 201, login with the trimmed username and
    the password succeeds as the new account, provided [bcrypt.compare]
    accepts what [bcrypt.hash] made and no earlier account has that
    username as its email.  Login with the username as it was typed, when
    trimming changed it and nobody bears it, is answered 401: the stored
    name is the trimmed one, the login name is compared as it is. *)
Theorem register_then_login (nextval : Z) (salt name mail password : string)
    (w w1 : World) (resp : RegisterResponse) :
  post_auth_register nextval salt
    (mkRegisterBody (Some name) (Some mail) (Some password)) w = (Ok resp, w1) ->
  reg_status resp = 201 ->
  bcrypt_compare password (bcrypt_hash salt password) = true ->
  String_trim name <> EmptyString ->
  (forall x, x ∈ users w -> email x <> String_trim name) ->
  response_of (post_auth_login
                 (mkLoginBody (Some (String_trim name)) (Some password)) w1)
  = Ok (json 200
          (BLogin "Login successful" nextval (String_trim name)
             (String_toLowerCase mail)
             (jwt_sign (clock w1) (mkJwtUser nextval (String_trim name))))) /\
  (String_trim name <> name ->
   String_toLowerCase mail <> name ->
   (forall x, x ∈ users w -> username x <> name /\ email x <> name) ->
   response_of (post_auth_login (mkLoginBody (Some name) (Some password)) w1)
   = Ok (json 401 (BError "Invalid credentials"))).
Proof.
  intros Hrun H201 Hlaw Htrim Hnomail.
  destruct (post_auth_register_cases nextval salt
              (mkRegisterBody (Some name) (Some mail) (Some password)) w)
    as [(error & Hrun' & _)|
        (n & m & p & [= <-] & [= <-] & [= <-] & Hname & _ & Hpassword & Hfree
         & Hrun')].
  { rewrite Hrun' in Hrun. injection Hrun as <- <-. discriminate. }
  cbv zeta in Hrun'. destruct Hrun' as [[error Hrun']|Hrun'].
  { rewrite Hrun' in Hrun. injection Hrun as <- <-. discriminate. }
  rewrite Hrun' in Hrun. injection Hrun as <- <-.
  rewrite Forall_forall in Hfree.
  rewrite !post_auth_login_run. cbv zeta. cbn [b_username b_password].
  rewrite !truthy_Some by done. cbn [negb orb default from_option users clock].
  unfold Datatypes.id, response_of. cbn [fst].
  split.
  - rewrite filter_app.
    replace (filter _ (users w)) with (@nil User).
    + simpl. rewrite filter_cons_True by (simpl; auto). simpl.
      unfold new_account. simpl. by rewrite Hlaw.
    + symmetry. apply filter_nil_Forall, Forall_forall. intros x Hx [Hu|He].
      * by destruct (Hfree x Hx).
      * by apply (Hnomail x Hx).
  - intros Hchanged Hmail Hnobody. rewrite filter_app.
    replace (filter _ (users w)) with (@nil User).
    + simpl. rewrite filter_cons_False; [done|]. simpl. intros [?|?]; congruence.
    + symmetry. apply filter_nil_Forall, Forall_forall. intros x Hx.
      destruct (Hnobody x Hx). tauto.
Qed.

End Registration.

(** ** The dashboard *)

Lemma page_numbers_app l k :
  page_numbers (l ++ k) = page_numbers l ++ page_numbers k.
Proof. apply omap_app. Qed.

Lemma page_numbers_PageNum l : page_numbers (PageNum <$> l) = l.
Proof. induction l as [|x l IH]; [done|]. simpl. by f_equal. Qed.

Lemma well_spaced_range (n : nat) prev rest :
  well_spaced prev ((PageNum <$> seqZ (prev + 1) (Z.of_nat n)) ++ rest)
  <-> well_spaced (prev + Z.of_nat n) rest.
Proof.
  revert prev. induction n as [|n IH]; intros prev.
  - simpl. by rewrite Z.add_0_r.
  - rewrite seqZ_cons by lia. simpl.
    replace (Z.pred (Z.of_nat (S n))) with (Z.of_nat n) by lia.
    replace (Z.succ (prev + 1)) with (prev + 1 + 1) by lia.
    rewrite IH.
    replace (prev + 1 + Z.of_nat n) with (prev + Z.of_nat (S n)) by lia.
    tauto.
Qed.

Lemma well_spaced_for_range prev hi rest :
  prev <= hi ->
  well_spaced prev ((PageNum <$> for_range (prev + 1) hi) ++ rest)
  <-> well_spaced hi rest.
Proof.
  intros Hle. unfold for_range.
  replace (hi - (prev + 1) + 1) with (Z.of_nat (Z.to_nat (hi - prev))) by lia.
  rewrite well_spaced_range.
  by replace (prev + Z.of_nat (Z.to_nat (hi - prev))) with hi by lia.
Qed.

Lemma elem_of_for_range p lo hi : p ∈ for_range lo hi <-> lo <= p <= hi.
Proof. unfold for_range. rewrite elem_of_seqZ. lia. Qed.

(** X19. With two pages or more and the current page among them, the page bar
    starts with page 1 and ends with the last page; the pages it shows are
    the first, the last and those at most two from the current one, in
    increasing order; neighbouring numbers are consecutive pages, and dots
    stand exactly where pages are left out. *)
Theorem page_bar_shows_neighbourhood (currentPage totalPages : Z) :
  2 <= totalPages -> 1 <= currentPage <= totalPages ->
  let bar := getVisiblePageNumbers currentPage totalPages in
  (exists rest, bar = PageNum 1 :: rest /\ well_spaced 1 rest) /\
  last bar = Some (PageNum totalPages) /\
  (forall p, p ∈ page_numbers bar <->
             1 <= p <= totalPages /\
             (p = 1 \/ p = totalPages \/
              currentPage - 2 <= p <= currentPage + 2)).
Proof.
  intros Htotal Hcurrent bar. subst bar. unfold getVisiblePageNumbers.
  cbv zeta.
  set (lo := Z.max 2 (currentPage - 2)).
  set (hi := Z.min (totalPages - 1) (currentPage + 2)).
  split; [|split].
  - destruct (Z.ltb_spec 2 (currentPage - 2)) as [Hleft|Hleft];
      destruct (Z.ltb_spec (currentPage + 2) (totalPages - 1)) as [Hright|Hright];
      try (destruct (Z.ltb_spec 1 totalPages); [|lia]);
      simpl; eexists; (split; [reflexivity|]).
    + replace lo with (currentPage - 2) by lia.
      unfold for_range. rewrite seqZ_cons by lia. simpl.
      split; [lia|].
      replace (Z.succ (currentPage - 2)) with (currentPage - 2 + 1) by lia.
      replace (Z.pred (hi - (currentPage - 2) + 1))
        with (hi - (currentPage - 2 + 1) + 1) by lia.
      apply (well_spaced_for_range (currentPage - 2) hi); [lia|].
      simpl. lia.
    + replace lo with (currentPage - 2) by lia.
      unfold for_range. rewrite seqZ_cons by lia. simpl.
      split; [lia|].
      replace (Z.succ (currentPage - 2)) with (currentPage - 2 + 1) by lia.
      replace (Z.pred (hi - (currentPage - 2) + 1))
        with (hi - (currentPage - 2 + 1) + 1) by lia.
      apply (well_spaced_for_range (currentPage - 2) hi); [lia|].
      simpl. lia.
    + replace lo with (1 + 1) by lia.
      apply (well_spaced_for_range 1 hi); [lia|]. simpl. lia.
    + replace lo with (1 + 1) by lia.
      apply (well_spaced_for_range 1 hi); [lia|]. simpl. lia.
  - destruct (Z.ltb_spec (currentPage + 2) (totalPages - 1));
      [|destruct (Z.ltb_spec 1 totalPages); [|lia]];
      rewrite ?app_assoc, ?last_snoc; try done.
    rewrite (app_assoc _ [Dots] [PageNum totalPages]). by rewrite last_snoc.
  - intros p.
    assert (p ∈ page_numbers
                  (((if 2 <? currentPage - 2 then [PageNum 1; Dots]
                     else [PageNum 1]) ++ (PageNum <$> for_range lo hi))
                   ++ [PageNum totalPages])
            <-> p = 1 \/ lo <= p <= hi \/ p = totalPages) as Hin.
    { rewrite !page_numbers_app, page_numbers_PageNum, !elem_of_app,
        elem_of_for_range.
      destruct (2 <? currentPage - 2); simpl;
        rewrite !list_elem_of_singleton; tauto. }
    destruct (Z.ltb_spec (currentPage + 2) (totalPages - 1)).
    + assert (p ∈ page_numbers
                    (((if 2 <? currentPage - 2 then [PageNum 1; Dots]
                       else [PageNum 1]) ++ (PageNum <$> for_range lo hi))
                     ++ [Dots; PageNum totalPages])
              <-> p = 1 \/ lo <= p <= hi \/ p = totalPages) as Hin'.
      { rewrite <- Hin. by rewrite !page_numbers_app. }
      rewrite Hin'. lia.
    + destruct (Z.ltb_spec 1 totalPages); [|lia]. rewrite Hin. lia.
Qed.

(** A click on a page link never leaves the pages there are. *)
Lemma handlePageChange_in_range currentPage totalPages newPage :
  1 <= currentPage <= totalPages ->
  1 <= handlePageChange currentPage totalPages newPage <= totalPages.
Proof.
  unfold handlePageChange. intros Hc.
  destruct (Z.leb_spec 1 newPage); destruct (Z.leb_spec newPage totalPages);
    simpl; lia.
Qed.

Section Dashboard.

Context `{Platform} `{Deployment}.

(** X20. The line "Showing from to to of total results" agrees with the page the
    list route sent for a page that exists: it names the positions, newest
    first, of the first and the last record of the page.  For a page
    after the last one the route sends no record, and the line reads
    "total to total".  Page and limit are at least 1, and page * limit is
    within the integers JS computes exactly. *)
Theorem showing_line_matches_page (user : JwtUser) (page limit : Z)
    (w : World) :
  1 <= page -> 1 <= limit -> page * limit <= max_safe_integer ->
  exists rows total pages,
    response_of (GET_weather_records user (Some page) (Some limit) w)
    = Ok (json 200 (BPage rows page limit total pages)) /\
    (page <= pages ->
     showing_from page limit total = (page - 1) * limit + 1 /\
     Z.of_nat (length rows)
     = showing_to page limit total - showing_from page limit total + 1 /\
     1 <= Z.of_nat (length rows) <= limit) /\
    (pages < page ->
     rows = [] /\
     showing_from page limit total = total /\
     showing_to page limit total = total).
Proof.
  intros Hpage Hlimit Hexact. rewrite GET_weather_records_run. cbv zeta.
  unfold or_default.
  destruct (Z.eqb_spec page 0); [lia|]. destruct (Z.eqb_spec limit 0); [lia|].
  rewrite !in_bigint_safe by nia.
  destruct (Z.ltb_spec ((page - 1) * limit) 0); [nia|].
  destruct (Z.ltb_spec limit 0); [lia|]. cbn [negb andb orb].
  set (mine := filter (owned_by (userId user)) (weather_records w)).
  set (w1 := traced w _).
  pose proof (ceil_div_bounds (Z.of_nat (length mine)) limit ltac:(lia))
    as Hpages.
  assert (Hlen : length (order_by_created_at_desc w1 mine) = length mine)
    by (by rewrite (proj1 (order_by_created_at_desc_sorted w1 mine))).
  eexists _, _, _. split; [reflexivity|].
  unfold showing_from, showing_to. split.
  - intros Hle. rewrite length_take, length_drop, Hlen. nia.
  - intros Hgt. split; [|nia].
    rewrite drop_ge; [by rewrite take_nil|]. rewrite Hlen. nia.
Qed.

End Dashboard.

(** ** From login to a protected route *)

Section Session.

Context `{Platform} `{AuthPlatform} `{Deployment}.

(** X22. The token a successful login hands out opens the protected routes as
    the account that logged in: sent as "Bearer token", it takes the
    request past [authenticateToken] with that account's id and username,
    provided [jwt.verify] accepts at that time what [jwt.sign] made for an
    account, and the token is one piece. *)
Theorem login_token_authenticates (req : LoginBody) (w w' : World)
    (resp : Response) (msg : string) (uid : Z) (uname mail token : string)
    (rest : JwtUser -> M Response) :
  post_auth_login req w = (Ok resp, w') ->
  body resp = BLogin msg uid uname mail token ->
  (forall u, u ∈ users w ->
     jwt_verify (clock w')
       (jwt_sign (clock w) (mkJwtUser (user_id u) (username u)))
     = Some (mkJwtUser (user_id u) (username u))) ->
  no_space token = true -> token <> EmptyString ->
  (exists u, u ∈ users w /\ user_id u = uid /\ username u = uname /\
             email u = mail) /\
  protected (Some ("Bearer " +:+ token)) rest w' = rest (mkJwtUser uid uname) w'.
Proof.
  intros Hrun Hbody Hlaw Hpiece Hne.
  rewrite post_auth_login_run in Hrun. cbv zeta in Hrun.
  destruct (negb _ || negb _); [injection Hrun as <- <-; discriminate|].
  destruct (filter _ (users w)) as [|u others] eqn:Hrows;
    [injection Hrun as <- <-; discriminate|].
  assert (u ∈ users w) as Hu.
  { assert (u ∈ u :: others) as Hin by left. rewrite <- Hrows in Hin.
    by apply list_elem_of_filter in Hin as [_ ?]. }
  destruct (bcrypt_compare _ _); [|injection Hrun as <- <-; discriminate].
  injection Hrun as <- <-. injection Hbody as _ <- <- <- <-.
  split; [by exists u|].
  change ("Bearer " +:+ ?t) with ("Bearer" +:+ " " +:+ t).
  cbv [protected authenticateToken bind ret get_world].
  rewrite header_token_of, truthy_Some by done.
  cbn [negb default from_option clock traced]. unfold Datatypes.id.
  specialize (Hlaw u Hu). cbn [clock traced] in Hlaw. by rewrite Hlaw.
Qed.

End Session.

(** ** Every route answers *)

Section Answers.

Context `{Platform} `{AuthPlatform} `{Deployment} (env : Env).

Lemma answers_keyed_unchanged {A} (a : A) (w : World) :
  primary_key w -> answers_keyed (Ok a, w).
Proof. intros Hpk. split; [by exists a|done]. Qed.

Lemma writes_answer user rid req w :
  (exists resp, response_of (POST_weather_records env user req w) = Ok resp) /\
  (exists resp, response_of (PUT_weather_record env user rid req w) = Ok resp) /\
  (exists resp, response_of (DELETE_weather_record user rid w) = Ok resp).
Proof.
  split; [|split].
  - destruct (POST_weather_records_cases env user req w)
      as [(c & _ & ->)|[(es & _ & _ & _ & ->)|
          (data & maps & sd & ed & es1 & es2 & _ & _ & _ & _ & _ & _ & _ & _
           & _ & [(msg & drawn & ->)| ->])]]; eauto.
  - unfold PUT_weather_record.
    rewrite (route_run _ _ _ _ (validateWeatherData_run user rid req w)).
    destruct (first_failure create_checks user rid req w); [eauto|].
    rewrite put_weather_record_run. cbv zeta.
    destruct (decide _); [eauto|].
    destruct (getWeatherData _ _ _ _) as [[weatherData|e] w2]; [|eauto].
    destruct (getLocationDetails _ _ _) as [[mapsData|e] w3]; [|eauto].
    destruct (update_record _ _ _ _ _ _ _ _) as [[result|e] w4]; eauto.
  - cbv [DELETE_weather_record try_catch bind ret response_of].
    destruct (delete_record rid (userId user) w) as [[[|? ?]|e] w1]; eauto.
Qed.

(** X23. Every request is answered, and none breaks the primary key of
    [weather_records]: whatever the body and the text of [:id], every run
    ends in a response (of the route, or of the application's error
    middleware when [validateWeatherData] throws), in a world where ids
    are unique and below the sequence. *)
Theorem every_route_answers (user : JwtUser) (param : string)
    (sub : Wire.Submission) (q_page q_limit q_days : JsInt)
    (location format salt : string) (nextval : Z) (login : Wire.Credentials)
    (registration : Wire.Registration) (w : World) :
  primary_key w ->
  answers_keyed (Wire.POST_weather_records env user sub w) /\
  answers_keyed (Wire.PUT_weather_record env user param sub w) /\
  answers_keyed (Wire.DELETE_weather_record user param w) /\
  answers_keyed (GET_weather_records user q_page q_limit w) /\
  answers_keyed (Wire.GET_weather_record user param w) /\
  answers_keyed (GET_export user format w) /\
  answers_keyed (get_weather_current env location w) /\
  answers_keyed (get_weather_forecast env location q_days w) /\
  answers_keyed (Wire.post_auth_login login w) /\
  answers_keyed (Wire.post_auth_register nextval salt registration w).
Proof.
  intros Hpk.
  assert (forall rid,
            answers_keyed (POST_weather_records env user
                             (Wire.text_fields sub) w) /\
            answers_keyed (PUT_weather_record env user rid
                             (Wire.text_fields sub) w) /\
            answers_keyed (DELETE_weather_record user rid w)) as Htyped.
  { intros rid. unfold answers_keyed.
    destruct (routes_keep_primary_key env user rid (Wire.text_fields sub) w Hpk)
      as (Hpost & Hput & Hdelete).
    destruct (writes_answer user rid (Wire.text_fields sub) w)
      as (Apost & Aput & Adelete).
    done. }
  split; [|split; [|split; [|split; [|split; [|split; [|split; [|split;
    [|split]]]]]]]].
  - rewrite Wire_POST_weather_records_run.
    destruct (no_string _); [by apply answers_keyed_unchanged|].
    apply (Htyped 0).
  - rewrite Wire_PUT_weather_record_run.
    destruct (no_string _); [by apply answers_keyed_unchanged|].
    destruct (pg_int4_in param) as [msg|rid]; [|apply (Htyped rid)].
    destruct (first_failure _ _ _ _ _); by apply answers_keyed_unchanged.
  - unfold Wire.DELETE_weather_record.
    destruct (pg_int4_in param) as [msg|rid]; [|apply (Htyped rid)].
    by apply answers_keyed_unchanged.
  - unfold answers_keyed. rewrite GET_weather_records_run. cbv zeta.
    destruct (_ || _); split; eauto.
  - unfold Wire.GET_weather_record.
    destruct (pg_int4_in param) as [msg|rid];
      [by apply answers_keyed_unchanged|].
    unfold answers_keyed.
    cbv [GET_weather_record try_catch bind select_record emit get_world ret
         response_of world_after].
    cbn [weather_records fst snd].
    destruct (filter _ (weather_records w)); split; eauto.
  - unfold answers_keyed.
    cbv [GET_export try_catch bind select_records_all emit get_world ret
         response_of world_after].
    cbn [weather_records fst snd].
    repeat match goal with
           | |- context [if ?b then _ else _] => destruct b
           end; split; eauto.
  - unfold answers_keyed.
    destruct (getWeatherData_traced env location (Some 1) w) as [es Hw1].
    cbv [get_weather_current try_catch bind ret response_of world_after] in *.
    destruct (getWeatherData env location (Some 1) w) as [[data|e] w1];
      cbn [fst snd] in *; subst w1; split; eauto.
  - unfold answers_keyed.
    destruct (getWeatherData_traced env location (Some (or_default q_days 5)) w)
      as [es Hw1].
    cbv [get_weather_forecast try_catch bind ret response_of world_after] in *.
    destruct (getWeatherData env location _ w) as [[data|e] w1];
      cbn [fst snd] in *; subst w1; split; eauto.
  - unfold answers_keyed. rewrite Wire_post_auth_login_run. cbv zeta.
    destruct (_ || _); split; eauto.
  - destruct (Wire_register_answers nextval salt registration w)
      as (resp & w' & -> & Hrecords & Hseq).
    split; [by exists resp|]. destruct Hpk as [Hnodup Hbelow].
    unfold world_after, primary_key. cbn [snd]. by rewrite Hrecords, Hseq.
Qed.

End Answers.

(** ** The two lookups of a create *)

Section StoredPlace.

Context `{Platform} `{Deployment} (env : Env).

(** X24. A created record holds two views of the place, from two geocoding
    requests: the forecast's (first request) gives the stored location
    and the coordinates of the weather data; the location details come
    from the third request, and fall back to the submitted text when that
    request gives no candidate.  When the geocoder answers the third
    request as the first, the two views are of the same candidate. *)
Theorem created_place_from_two_lookups (user : JwtUser) (req : RecordBody)
    (w w' : World) (resp : Response) :
  POST_weather_records env user req w = (Ok resp, w') ->
  status resp = 201 ->
  let n := http_requests (trace w) in
  let loc := js_string (b_location req) in
  let key := default EmptyString (OPENWEATHER_API_KEY env) in
  exists r first rest,
    weather_records w' = weather_records w ++ [r] /\
    geo_direct env n loc key = inr (Some (first :: rest)) /\
    location r = geo_name first /\
    wd_coordinates (weather_data r) = (geo_lat first, geo_lon first) /\
    maps_data r
    = match geo_direct env (n + 2) loc key with
      | inr (Some (c :: _)) => resolved_location c
      | _ => basic_location loc
      end /\
    (geo_direct env (n + 2) loc key = geo_direct env n loc key ->
     city (maps_data r) = location r /\
     coordinates (maps_data r) = Some (wd_coordinates (weather_data r))).
Proof.
  intros Hrun H201 n loc key.
  destruct (POST_weather_records_cases env user req w)
    as [(c & Hfirst & Hc)|[(es & Hfirst & Hes & Hlen & H500)|
        (data & maps & sd & ed & es1 & es2 & Hfirst & Hsd & Hed & Hes1 & Hlen1
         & Hes2 & Hlen2 & Hdata & Hmaps & Hcreated)]].
  - rewrite Hc in Hrun. injection Hrun as <- <-. destruct c; discriminate.
  - rewrite H500 in Hrun. injection Hrun as <- <-. discriminate.
  - cbv zeta in Hcreated. destruct Hcreated as [(msg & drawn & Hno)|Hcreated].
    { rewrite Hno in Hrun. injection Hrun as <- <-. discriminate. }
    rewrite Hcreated in Hrun. injection Hrun as <- <-.
    destruct (getWeatherData_success env _ _ _ _ _ Hdata)
      as (first & rest & upstream & Hgeo & _ & _ & Hl & _ & Hco).
    rewrite getLocationDetails_run in Hmaps. cbv zeta in Hmaps.
    destruct (counts_after_call w
                (CallGetWeatherData (js_string (b_location req))
                   (daysDiff (new_Date (b_startDate req))
                      (new_Date (b_endDate req)))) es1 eq_refl eq_refl Hes1)
      as (_ & _ & _ & Hh).
    cbv zeta in Hh. rewrite Hh, Hlen1 in Hmaps.
    assert (maps
            = match geo_direct env (n + 2) loc key with
              | inr (Some (c :: _)) => resolved_location c
              | _ => basic_location loc
              end) as Hm.
    { fold n loc key in Hmaps.
      destruct (negb (truthy (OPENWEATHER_API_KEY env))) eqn:Hkey.
      - exfalso. rewrite getWeatherData_run in Hdata. cbv zeta in Hdata.
        rewrite Hkey in Hdata. discriminate.
      - by injection Hmaps as <-. }
    eexists _, first, rest. split; [reflexivity|]. split; [exact Hgeo|].
    cbn [location weather_data maps_data]. split; [exact Hl|].
    split; [exact Hco|]. split; [exact Hm|].
    intros Hsame. rewrite Hm, Hsame. fold n loc key in Hgeo. rewrite Hgeo.
    cbn [resolved_location city coordinates]. by rewrite Hl, Hco.
Qed.

End StoredPlace.

(** ** Further worked examples *)

Section MoreExamples.

#[local] Existing Instance Fixture.platform.
#[local] Existing Instance AuthFixture.auth.
#[local] Existing Instance DeploymentFixture.deployment.

(** A create the database refuses: the year 0000 passes [validator.isDate]
    and is no DATE of PostgreSQL.  The answer is 500 with the message of
    the database, after both gateway calls; no row is added. *)
Remark create_refused_by_database :
  exists w',
    Wire.POST_weather_records Fixture.env_up Fixture.as_alice
      (Wire.of_fields DeploymentFixture.year_zero_body) Fixture.world1
    = (Ok (json 500 (BError "date/time field value out of range")), w') /\
    http_requests (trace w') = 3%nat /\
    weather_records w' = weather_records Fixture.world1.
Proof. eexists. split; [vm_compute; reflexivity|]. split; reflexivity. Qed.

(** A create whose location is a number. *)
Remark create_with_numeric_location :
  Wire.POST_weather_records Fixture.env_up Fixture.as_alice
    DeploymentFixture.numeric_body Fixture.world1
  = (Ok something_went_wrong, Fixture.world1).
Proof. vm_compute. reflexivity. Qed.

Lemma created_record_is_stored_witness :
  exists r,
    weather_records
      (world_after (Wire.POST_weather_records Fixture.env_up Fixture.as_alice
                      (Wire.of_fields Fixture.paris_body) Fixture.world1))
    = weather_records Fixture.world1 ++ [r] /\
    id r = 2 /\ rec_user_id r = 1 /\
    response_of
      (Wire.GET_weather_record Fixture.as_alice "2"
         (world_after (Wire.POST_weather_records Fixture.env_up Fixture.as_alice
                         (Wire.of_fields Fixture.paris_body) Fixture.world1)))
    = Ok (json 200 (BRecord r)).
Proof.
  edestruct (created_record_is_stored Fixture.env_up Fixture.as_alice
               (Wire.of_fields Fixture.paris_body) Fixture.world1)
    as (data & maps & loc & sd & ed & _ & _ & _ & _ & _ & Htable & Hread & _);
    [apply Fixture_world1_primary_key|vm_compute; reflexivity|reflexivity|].
  eexists. split; [vm_compute; reflexivity|]. split; [reflexivity|].
  split; [reflexivity|]. vm_compute. reflexivity.
Defined.

Lemma owner_reads_record_witness :
  exists w',
    GET_weather_record Fixture.as_alice (id (Fixture.record 1 1)) Fixture.world1
    = (Ok (json 200 (BRecord (Fixture.record 1 1))), w') /\
    weather_records w' = weather_records Fixture.world1 /\
    users w' = users Fixture.world1.
Proof.
  apply (owner_reads_record Fixture.as_alice (Fixture.record 1 1)
           Fixture.world1).
  - apply Fixture_world1_primary_key.
  - left.
  - reflexivity.
Defined.

Lemma owner_deletes_record_witness :
  exists w',
    DELETE_weather_record Fixture.as_alice (id (Fixture.record 1 1))
      Fixture.world1
    = (Ok (json 200 (BMessage "Weather record deleted successfully")), w') /\
    length (weather_records Fixture.world1) = S (length (weather_records w')) /\
    response_of (GET_weather_record Fixture.as_alice (id (Fixture.record 1 1)) w')
    = Ok (json 404 (BError "Weather record not found")).
Proof.
  destruct (owner_deletes_record Fixture.as_alice (Fixture.record 1 1)
              Fixture.world1)
    as (w' & Hrun & _ & Hlen & _ & Hread & _).
  - apply Fixture_world1_primary_key.
  - left.
  - reflexivity.
  - exists w'. auto.
Defined.


(** The CSV export of Alice, who owns 25 of the 27 stored records. *)
Remark csv_export_of_own_rows :
  exists resp,
    response_of (GET_export Fixture.as_alice "CSV" Fixture.world25) = Ok resp /\
    body resp = BText (csv_content (reverse (Fixture.record 1 <$> seq 1 25))).
Proof. eexists. split; vm_compute; reflexivity. Qed.

Lemma pages_partition_the_records_witness :
  exists newest_first,
    newest_first ≡ₚ filter (owned_by (userId Fixture.as_alice))
                      (weather_records Fixture.world25) /\
    concat ((λ p, records_sent
                    (GET_weather_records Fixture.as_alice (Some p) (Some 10)
                       Fixture.world25))
              <$> seqZ 1 3)
    = newest_first.
Proof.
  destruct (pages_partition_the_records Fixture.as_alice 10 Fixture.world25)
    as (newest_first & Hperm & _ & Hpages & _).
  - lia.
  - by vm_compute.
  - apply (bool_decide_unpack _). vm_compute. exact I.
  - exists newest_first. split; [exact Hperm|exact Hpages].
Defined.

Lemma list_needs_positive_parameters_witness :
  exists resp w',
    GET_weather_records Fixture.as_alice (Some (-1)) None Fixture.world25
    = (Ok resp, w') /\
    resp = json 500 (BError "Failed to fetch weather records").
Proof.
  destruct (list_needs_positive_parameters Fixture.as_alice (Some (-1)) None
              Fixture.world25)
    as (resp & w' & Hrun & _ & _ & _ & [(Hp & _)|(_ & Hresp)] & _);
    [by vm_compute|by vm_compute|by vm_compute| |].
  - exfalso. simpl in Hp. lia.
  - by exists resp, w'.
Defined.

Lemma samples_are_a_shaped_prefix_witness :
  exists data upstream,
    response_of (getWeatherData Fixture.env_up "Paris" (Some 1)
                   Fixture.fresh_world) = Ok data /\
    length (wd_weather_data data) = 8%nat /\
    Forall2 shaped_from (take (length (wd_weather_data data)) upstream)
      (wd_weather_data data).
Proof.
  edestruct (samples_are_a_shaped_prefix Fixture.env_up "Paris" (Some 1)
               Fixture.fresh_world)
    as (first & rest & upstream & _ & _ & _ & _ & _ & _ & Hshaped);
    [reflexivity|].
  eexists _, upstream. split; [reflexivity|]. split; [reflexivity|].
  exact Hshaped.
Defined.

Lemma sample_date_and_time_witness :
  exists s,
    shape_item (Fixture.item 0) = inr s /\
    s_date s = "2024-06-01" /\ s_time s = Some "12:00:00".
Proof.
  eexists. split; [reflexivity|].
  apply (sample_date_and_time (Fixture.item 0) _ "2024-06-01" "12:00:00");
    reflexivity.
Defined.

Lemma validated_range_witness :
  exists d,
    daysDiff (new_Date (b_startDate Fixture.paris_body))
      (new_Date (b_endDate Fixture.paris_body)) = Some d /\
    1 <= d /\ (forall k, 2 * 86400000 = k * 86400000 -> d = k + 1).
Proof.
  edestruct (validated_range Fixture.paris_body Fixture.world1)
    as (_ & d & Hd & Hpos & _ & Hwhole);
    [reflexivity|reflexivity|reflexivity|].
  exists d. split; [exact Hd|]. split; [exact Hpos|]. exact Hwhole.
Defined.

(** A login with the number 1 as password, for a name the lookup finds and
    for one it does not find. *)
Remark login_with_numeric_password :
  response_of (Wire.post_auth_login (DeploymentFixture.numeric_password "alice")
                 Fixture.fresh_world)
  = Ok (json 500 (BError "Internal server error")) /\
  response_of (Wire.post_auth_login
                 (DeploymentFixture.numeric_password "mallory")
                 Fixture.fresh_world)
  = Ok (json 401 (BError "Invalid credentials")).
Proof. split; vm_compute; reflexivity. Qed.

(** A registration with an email of 101 characters: valid for
    [validator.isEmail], too long for the column. *)
Remark register_with_long_email :
  exists resp,
    Wire.post_auth_register 3 "salt"
      (Wire.of_register DeploymentFixture.long_email_form) Fixture.fresh_world
    = (Ok resp, Fixture.fresh_world) /\
    reg_status resp = 500.
Proof. eexists. split; [vm_compute; reflexivity|reflexivity]. Qed.

Lemma register_then_login_witness :
  exists w1 token,
    world_after (post_auth_register 3 "salt" AuthFixture.carol_form
                   Fixture.fresh_world) = w1 /\
    response_of (post_auth_login (mkLoginBody (Some "carol") (Some "secret3")) w1)
    = Ok (json 200 (BLogin "Login successful" 3 "carol" "carol@x.com" token)) /\
    response_of (post_auth_login (mkLoginBody (Some " carol ") (Some "secret3"))
                   w1)
    = Ok (json 401 (BError "Invalid credentials")).
Proof.
  edestruct (register_then_login 3 "salt" " carol " "Carol@X.com" "secret3"
               Fixture.fresh_world)
    as [Hlogin Hraw];
    [vm_compute; reflexivity|reflexivity|reflexivity|discriminate| |].
  - intros x Hx. simpl in Hx.
    repeat (apply elem_of_cons in Hx as [->|Hx]); try discriminate.
    by apply elem_of_nil in Hx.
  - eexists _, _. split; [reflexivity|]. split; [exact Hlogin|].
    apply Hraw; [discriminate|discriminate|].
    intros x Hx. simpl in Hx.
    repeat (apply elem_of_cons in Hx as [->|Hx]); try (split; discriminate).
    by apply elem_of_nil in Hx.
Defined.

Lemma login_token_authenticates_witness :
  exists resp w',
    post_auth_login AuthFixture.alice_login Fixture.fresh_world = (Ok resp, w') /\
    status resp = 200 /\
    response_of
      (protected (Some "Bearer jwt:alice:1717200000000") AuthFixture.whoami w')
    = Ok (json 200 (BMessage "alice")).
Proof.
  edestruct (login_token_authenticates AuthFixture.alice_login
               Fixture.fresh_world)
    with (token := "jwt:alice:1717200000000") (rest := AuthFixture.whoami)
    as [_ Hrun];
    [vm_compute; reflexivity|vm_compute; reflexivity| |reflexivity
    |discriminate|].
  - intros u Hu. simpl in Hu.
    repeat (apply elem_of_cons in Hu as [->|Hu]); try (vm_compute; reflexivity).
    by apply elem_of_nil in Hu.
  - eexists _, _. split; [vm_compute; reflexivity|]. split; [reflexivity|].
    exact (f_equal fst Hrun).
Defined.

Lemma page_bar_shows_neighbourhood_witness :
  getVisiblePageNumbers 5 10
  = [PageNum 1; Dots; PageNum 3; PageNum 4; PageNum 5; PageNum 6; PageNum 7;
     Dots; PageNum 10] /\
  (forall p, p ∈ page_numbers (getVisiblePageNumbers 5 10) <->
             1 <= p <= 10 /\ (p = 1 \/ p = 10 \/ 5 - 2 <= p <= 5 + 2)).
Proof.
  split; [reflexivity|].
  apply (page_bar_shows_neighbourhood 5 10); lia.
Defined.

Lemma showing_line_matches_page_witness :
  exists rows,
    response_of (GET_weather_records Fixture.as_alice (Some 3) (Some 10)
                   Fixture.world25)
    = Ok (json 200 (BPage rows 3 10 25 3)) /\
    showing_from 3 10 25 = 21 /\ showing_to 3 10 25 = 25 /\
    length rows = 5%nat.
Proof.
  destruct (showing_line_matches_page Fixture.as_alice 3 10 Fixture.world25)
    as (rows & total & pages & Hrun & Hshown & _); [lia|lia|by vm_compute|].
  eexists. split; [reflexivity|]. split; [reflexivity|].
  split; reflexivity.
Defined.

Lemma every_route_answers_witness :
  answers_keyed (Wire.POST_weather_records Fixture.env_up Fixture.as_alice
                   DeploymentFixture.numeric_body Fixture.world1) /\
  answers_keyed (Wire.PUT_weather_record Fixture.env_up Fixture.as_alice
                   "2147483648" (Wire.of_fields Fixture.paris_body)
                   Fixture.world1) /\
  answers_keyed (Wire.post_auth_register 3 "salt"
                   (Wire.of_register AuthFixture.carol_form) Fixture.world1).
Proof.
  destruct (every_route_answers Fixture.env_up Fixture.as_alice "2147483648"
              DeploymentFixture.numeric_body None None None "Paris" "json"
              "salt" 3 (DeploymentFixture.numeric_password "alice")
              (Wire.of_register AuthFixture.carol_form) Fixture.world1
              Fixture_world1_primary_key)
    as (Hpost & _ & _ & _ & _ & _ & _ & _ & _ & Hregister).
  destruct (every_route_answers Fixture.env_up Fixture.as_alice "2147483648"
              (Wire.of_fields Fixture.paris_body) None None None "Paris"
              "json" "salt" 3 (DeploymentFixture.numeric_password "alice")
              (Wire.of_register AuthFixture.carol_form) Fixture.world1
              Fixture_world1_primary_key)
    as (_ & Hput & _).
  split; [exact Hpost|]. split; [exact Hput|exact Hregister].
Defined.

Lemma created_place_from_two_lookups_witness :
  exists r,
    weather_records
      (world_after (POST_weather_records Fixture.env_up Fixture.as_alice
                      Fixture.paris_body Fixture.world1))
    = weather_records Fixture.world1 ++ [r] /\
    location r = "Paris" /\
    city (maps_data r) = location r /\
    coordinates (maps_data r) = Some (wd_coordinates (weather_data r)).
Proof.
  edestruct (created_place_from_two_lookups Fixture.env_up Fixture.as_alice
               Fixture.paris_body Fixture.world1)
    as (r & first & rest & Htable & Hgeo & Hlocation & _ & _ & Hsame);
    [vm_compute; reflexivity|reflexivity|].
  exists r. split; [exact Htable|].
  split; [rewrite Hlocation; by injection Hgeo as <- _|].
  apply Hsame. reflexivity.
Defined.

End MoreExamples.
